(** * nodeit: votes, karma and community moderation

    A shallow embedding of the request handlers of the community
    platform backend:

    - the vote handlers [upvoteDocument], [downvoteDocument],
      [removeUpvote] and [removeDownvote] of the handler factory,
    - the community handlers [createCommunity], [updateCommunity],
      [ban] and [unban] of the community controller,
    - the document handlers [getDocument], [createDocument] and
      [deleteDocument] of the handler factory,
    - [deleteCommunity], [subscribe] and [unsubscribe] of the community
      controller, and
    - the status that [AppError] derives from its status code.

    Every handler is a computation over the document store: it reads
    records by id, mutates its in-memory copies, saves them, and either
    answers with a status code and a payload or throws.

    One request runs at a time: the saves, which the handlers start
    without waiting for them, take effect in program order and no other
    request interleaves.  Record ids are the strings that [toString()]
    gives, counters and karma are exact integers.  [updateCommunity],
    [ban] and [unban] compare ids that the request carries as text with
    stored ids; for them the cast from a request text to an id is
    explicit. *)

From stdpp Require Import gmap strings list fin_maps.
From Stdlib Require Import ZArith Ascii String DecimalString.

Local Open Scope Z_scope.
Local Open Scope string_scope.
Local Open Scope list_scope.

(** ** Records of the document store *)

(** Modelled from the spec: the Mongoose schema of users (userModel) is
    not part of the sources at hand.  Per the data model a user carries
    an integer [karma] and four arrays of document references, one pair
    of opposing vote-sets per content kind.  [karma] is a JavaScript
    number that the handlers only move by [++] and [--]; it is an exact
    integer here. *)
Module User.
Record t := mk {
  karma : Z;
  upvotedPosts : list string;
  downvotedPosts : list string;
  upvotedComments : list string;
  downvotedComments : list string
}.

Definition set_karma (k : Z) (u : t) : t :=
  mk k (upvotedPosts u) (downvotedPosts u)
     (upvotedComments u) (downvotedComments u).
End User.

(** Modelled from the spec: the schemas of posts and comments are not
    part of the sources at hand.  A votable document has a [creator]
    reference, a [community] reference and the two counters. *)
Module Document.
Record t := mk {
  creator : string;
  community : string;
  upvotes : Z;
  downvotes : Z
}.

Definition set_upvotes (n : Z) (d : t) : t :=
  mk (creator d) (community d) n (downvotes d).
Definition set_downvotes (n : Z) (d : t) : t :=
  mk (creator d) (community d) (upvotes d) n.
End Document.

(** Modelled from the spec: the schema of communities (communityModel)
    is not part of the sources at hand.  The descriptive fields (rules,
    avatar, cover, description, welcomeMessage, flairs) are copied from
    the request without being inspected and are left out; array fields
    default to the empty array and [subscribers] to 0. *)
Module Community.
Record t := mk {
  name : string;
  creator : string;
  moderators : list string;
  bannedUsers : list string;
  subscribers : Z
}.

Definition set_bannedUsers (l : list string) (c : t) : t :=
  mk (name c) (creator c) (moderators c) l (subscribers c).
Definition set_moderators (l : list string) (c : t) : t :=
  mk (name c) (creator c) l (bannedUsers c) (subscribers c).
Definition set_name (n : string) (c : t) : t :=
  mk n (creator c) (moderators c) (bannedUsers c) (subscribers c).
End Community.

(** The collections, keyed by the string form of the record id.
    [others] stands for the collection of any model other than Post and
    Comment that the handler factory may be instantiated with. *)
Record Store := mkStore {
  users : gmap string User.t;
  posts : gmap string Document.t;
  comments : gmap string Document.t;
  others : gmap string Document.t;
  communities : gmap string Community.t
}.

(** [Model.modelName]: the two votable kinds, or anything else. *)
Inductive Kind := Post | Comment.
Inductive ModelName := Votable (k : Kind) | OtherModel.

Definition collection (m : ModelName) (s : Store) : gmap string Document.t :=
  match m with
  | Votable Post => posts s
  | Votable Comment => comments s
  | OtherModel => others s
  end.

Definition set_users (us : gmap string User.t) (s : Store) : Store :=
  mkStore us (posts s) (comments s) (others s) (communities s).

Definition set_collection (m : ModelName) (ds : gmap string Document.t)
    (s : Store) : Store :=
  match m with
  | Votable Post => mkStore (users s) ds (comments s) (others s) (communities s)
  | Votable Comment => mkStore (users s) (posts s) ds (others s) (communities s)
  | OtherModel => mkStore (users s) (posts s) (comments s) ds (communities s)
  end.

Definition set_communities (cs : gmap string Community.t) (s : Store) : Store :=
  mkStore (users s) (posts s) (comments s) (others s) cs.

(** The vote-set fields selected by the model name:
    [upvotedPosts]/[downvotedPosts] or [upvotedComments]/[downvotedComments]. *)
Definition upvotedDocs (k : Kind) (u : User.t) : list string :=
  match k with
  | Post => User.upvotedPosts u
  | Comment => User.upvotedComments u
  end.

Definition downvotedDocs (k : Kind) (u : User.t) : list string :=
  match k with
  | Post => User.downvotedPosts u
  | Comment => User.downvotedComments u
  end.

Definition set_upvotedDocs (k : Kind) (l : list string) (u : User.t) : User.t :=
  match k with
  | Post => User.mk (User.karma u) l (User.downvotedPosts u)
              (User.upvotedComments u) (User.downvotedComments u)
  | Comment => User.mk (User.karma u) (User.upvotedPosts u)
              (User.downvotedPosts u) l (User.downvotedComments u)
  end.

Definition set_downvotedDocs (k : Kind) (l : list string) (u : User.t) : User.t :=
  match k with
  | Post => User.mk (User.karma u) (User.upvotedPosts u) l
              (User.upvotedComments u) (User.downvotedComments u)
  | Comment => User.mk (User.karma u) (User.upvotedPosts u)
              (User.downvotedPosts u) (User.upvotedComments u) l
  end.

(** ** Array operations *)

(** [Array.prototype.includes] on the array of id strings. *)
Definition includes (l : list string) (x : string) : bool :=
  bool_decide (x ∈ l).

(** [push] appends, and returns the new length like the JavaScript
    method does. *)
Definition push (l : list string) (x : string) : list string * nat :=
  (l ++ [x], List.length (l ++ [x])).

(** Mongoose's [pull] removes every element equal to the argument. *)
Definition pull (l : list string) (x : string) : list string :=
  filter (λ y, y ≠ x) l.

(** ** Errors and the handler monad *)

Inductive Error :=
  | AppError (message : string) (statusCode : Z)
  | TypeError
  | CastError.

(** [AppError] sets [isOperational]; a [TypeError] raised by the
    runtime and a [CastError] raised by Mongoose do not carry it. *)
Definition isOperational (e : Error) : bool :=
  match e with
  | AppError _ _ => true
  | TypeError => false
  | CastError => false
  end.

Inductive Result (A : Type) :=
  | Ok (a : A)
  | Throw (e : Error).
Arguments Ok {A} a.
Arguments Throw {A} e.

(** A handler threads the store; a throw keeps whatever was saved
    before it. *)
Definition M (A : Type) : Type := Store → Store * Result A.

Definition ret {A} (a : A) : M A := λ s, (s, Ok a).
Definition throw {A} (e : Error) : M A := λ s, (s, Throw e).
Definition bind {A B} (c : M A) (k : A → M B) : M B :=
  λ s, match c s with
       | (s', Ok a) => k a s'
       | (s', Throw e) => (s', Throw e)
       end.

Notation "'let*' x ':=' c 'in' k" := (bind c (λ x, k))
  (at level 10, x pattern, c at level 100, k at level 200).
Notation "c ';;' k" := (bind c (λ _, k))
  (at level 100, k at level 200, right associativity).

(** [res.status(code).json({status: 'success', data})]. *)
Record Response (A : Type) := mkResponse { status : Z; data : A }.
Arguments mkResponse {A} status data.
Arguments status {A} r.
Arguments data {A} r.

Definition json {A} (code : Z) (payload : A) : M (Response A) :=
  ret (mkResponse code payload).

(** ** Store primitives *)

Definition User_findById (id : string) : M (option User.t) :=
  λ s, (s, Ok (users s !! id)).

Definition Model_findById (m : ModelName) (id : string) : M (option Document.t) :=
  λ s, (s, Ok (collection m s !! id)).

Definition Community_findById (id : string) : M (option Community.t) :=
  λ s, (s, Ok (communities s !! id)).

(** Mongoose's [save] on a loaded record writes back the paths that
    were modified on that in-memory copy and nothing else.  The vote
    handlers load the acting user and the creator as two separate
    copies: on the first they only touch the vote-set arrays, on the
    second only [karma]. *)
Definition merge_voteSets (userDoc stored : User.t) : User.t :=
  User.mk (User.karma stored)
    (User.upvotedPosts userDoc) (User.downvotedPosts userDoc)
    (User.upvotedComments userDoc) (User.downvotedComments userDoc).

Definition put_voteSets (id : string) (userDoc : User.t) (s : Store) : Store :=
  set_users (alter (merge_voteSets userDoc) id (users s)) s.

Definition userDoc_save (id : string) (userDoc : User.t) : M unit :=
  λ s, (put_voteSets id userDoc s, Ok tt).

Definition put_karma (id : string) (creator : User.t) (s : Store) : Store :=
  set_users (alter (User.set_karma (User.karma creator)) id (users s)) s.

Definition creator_save (id : string) (creator : User.t) : M unit :=
  λ s, (put_karma id creator s, Ok tt).

Definition merge_counters (document stored : Document.t) : Document.t :=
  Document.mk (Document.creator stored) (Document.community stored)
    (Document.upvotes document) (Document.downvotes document).

Definition put_counters (m : ModelName) (id : string) (document : Document.t)
    (s : Store) : Store :=
  set_collection m (alter (merge_counters document) id (collection m s)) s.

Definition document_save (m : ModelName) (id : string) (document : Document.t)
    : M unit :=
  λ s, (put_counters m id document s, Ok tt).

Definition community_save (id : string) (community : Community.t) : M unit :=
  λ s, (set_communities (<[id := community]> (communities s)) s, Ok tt).

(** Reading [karma] off the creator copy throws when the creator record
    was not found ([null.karma]). *)
Definition karma_incr (creator : option User.t) : M (option User.t) :=
  match creator with
  | Some c => ret (Some (User.set_karma (User.karma c + 1) c))
  | None => throw TypeError
  end.

Definition karma_decr (creator : option User.t) : M (option User.t) :=
  match creator with
  | Some c => ret (Some (User.set_karma (User.karma c - 1) c))
  | None => throw TypeError
  end.

Definition creator_save_opt (id : string) (creator : option User.t) : M unit :=
  match creator with
  | Some c => creator_save id c
  | None => throw TypeError
  end.

(** ** The vote handlers (handler factory)

    [m] is the model the factory was instantiated with, [id] is
    [req.params.id] and [uid] is [req.user.id]. *)

Definition upvoteDocument (m : ModelName) (id uid : string)
    : M (Response Document.t) :=
  let* document := Model_findById m id in
  match document with
  | None => throw (AppError "Document not found" 404)
  | Some document =>
    let* userDoc := User_findById uid in
    let* creator := User_findById (Document.creator document) in
    match m, userDoc with
    | Votable k, Some userDoc =>
      if includes (upvotedDocs k userDoc) id then
        throw (AppError "You have already upvoted" 400)
      else
        let* (userDoc, document, creator) :=
          if includes (downvotedDocs k userDoc) id then
            let userDoc :=
              set_downvotedDocs k (pull (downvotedDocs k userDoc) id) userDoc in
            let document :=
              Document.set_downvotes (Document.downvotes document - 1) document in
            let* creator := karma_incr creator in
            ret (userDoc, document, creator)
          else ret (userDoc, document, creator) in
        let userDoc :=
          set_upvotedDocs k (push (upvotedDocs k userDoc) id).1 userDoc in
        userDoc_save uid userDoc ;;
        let document :=
          Document.set_upvotes (Document.upvotes document + 1) document in
        document_save m id document ;;
        let* creator := karma_incr creator in
        creator_save_opt (Document.creator document) creator ;;
        json 200 document
    | _, _ => throw TypeError
    end
  end.

Definition downvoteDocument (m : ModelName) (id uid : string)
    : M (Response Document.t) :=
  let* document := Model_findById m id in
  match document with
  | None => throw (AppError "Document not found" 404)
  | Some document =>
    let* userDoc := User_findById uid in
    let* creator := User_findById (Document.creator document) in
    match m, userDoc with
    | Votable k, Some userDoc =>
      if includes (downvotedDocs k userDoc) id then
        throw (AppError "You have already downvoted" 400)
      else
        let* (userDoc, document, creator) :=
          if includes (upvotedDocs k userDoc) id then
            let userDoc :=
              set_upvotedDocs k (pull (upvotedDocs k userDoc) id) userDoc in
            let document :=
              Document.set_upvotes (Document.upvotes document - 1) document in
            let* creator := karma_decr creator in
            ret (userDoc, document, creator)
          else ret (userDoc, document, creator) in
        let userDoc :=
          set_downvotedDocs k (push (downvotedDocs k userDoc) id).1 userDoc in
        userDoc_save uid userDoc ;;
        let document :=
          Document.set_downvotes (Document.downvotes document + 1) document in
        document_save m id document ;;
        let* creator := karma_decr creator in
        creator_save_opt (Document.creator document) creator ;;
        json 200 document
    | _, _ => throw TypeError
    end
  end.

Definition removeUpvote (m : ModelName) (id uid : string)
    : M (Response Document.t) :=
  let* document := Model_findById m id in
  match document with
  | None => throw (AppError "Document not found" 404)
  | Some document =>
    let* userDoc := User_findById uid in
    let* creator := User_findById (Document.creator document) in
    match m, userDoc with
    | Votable k, Some userDoc =>
      if negb (includes (upvotedDocs k userDoc) id) then
        throw (AppError "You have not upvoted" 400)
      else
        let userDoc :=
          set_upvotedDocs k (pull (upvotedDocs k userDoc) id) userDoc in
        let document :=
          Document.set_upvotes (Document.upvotes document - 1) document in
        let* creator := karma_decr creator in
        userDoc_save uid userDoc ;;
        document_save m id document ;;
        creator_save_opt (Document.creator document) creator ;;
        json 200 document
    | _, _ => throw TypeError
    end
  end.

Definition removeDownvote (m : ModelName) (id uid : string)
    : M (Response Document.t) :=
  let* document := Model_findById m id in
  match document with
  | None => throw (AppError "Document not found" 404)
  | Some document =>
    let* userDoc := User_findById uid in
    let* creator := User_findById (Document.creator document) in
    match m, userDoc with
    | Votable k, Some userDoc =>
      if negb (includes (downvotedDocs k userDoc) id) then
        throw (AppError "You have not downvoted" 400)
      else
        let userDoc :=
          set_downvotedDocs k (pull (downvotedDocs k userDoc) id) userDoc in
        let document :=
          Document.set_downvotes (Document.downvotes document - 1) document in
        let* creator := karma_incr creator in
        userDoc_save uid userDoc ;;
        document_save m id document ;;
        creator_save_opt (Document.creator document) creator ;;
        json 200 document
    | _, _ => throw TypeError
    end
  end.

(** ** The community handlers (community controller) *)

(** The pattern [/^\w+$/]: one or more of [A-Za-z0-9_] and nothing
    else. *)
Definition is_word (a : ascii) : bool :=
  let n := nat_of_ascii a in
  ((48 <=? n) && (n <=? 57) || (65 <=? n) && (n <=? 90) ||
   (n =? 95) || (97 <=? n) && (n <=? 122))%nat.

Fixpoint all_word (name : string) : bool :=
  match name with
  | EmptyString => true
  | String a rest => is_word a && all_word rest
  end.

Definition match_word (name : string) : bool :=
  match name with
  | EmptyString => false
  | String _ _ => all_word name
  end.

(** What the [Set] constructor can be handed in the two handlers below:
    an array, or the number that [push] returns. *)
Inductive JsValue :=
  | JsArray (l : list string)
  | JsNumber (n : nat).

(** The elements of a JavaScript [Set] built from an array, in insertion
    order: the first occurrence of each value. *)
Fixpoint Set_elements (l : list string) : list string :=
  match l with
  | [] => []
  | x :: rest => x :: filter (λ y, y ≠ x) (Set_elements rest)
  end.

(** [[...new Set(v)]]: a number is not iterable. *)
Definition new_Set (v : JsValue) : M (list string) :=
  match v with
  | JsArray l => ret (Set_elements l)
  | JsNumber _ => throw TypeError
  end.

(** The fields of [req.body] that the handlers look at.  [None] is a
    field that the request leaves out. *)
Record CommunityBody := mkBody {
  name : string;
  moderators : option (list string);
  bannedUsers : option (list string)
}.

(** [Community.create]: the store assigns the id [newId] to the new
    record. *)
Definition Community_create (newId : string) (c : Community.t)
    : M Community.t :=
  λ s, (set_communities (<[newId := c]> (communities s)) s, Ok c).

(** [subCreatorDoc?.karma < 49]: [undefined < 49] is false. *)
Definition karma_below_threshold (subCreatorDoc : option User.t) : bool :=
  match subCreatorDoc with
  | Some u => (User.karma u <? 49)%Z
  | None => false
  end.

Definition createCommunity (body : CommunityBody) (uid newId : string)
    : M (Response Community.t) :=
  if negb (match_word (name body)) then
    throw (AppError
      "Community name can only contain letters, numbers and underscores" 400)
  else
    let* subCreatorDoc := User_findById uid in
    if karma_below_threshold subCreatorDoc then
      throw (AppError "You need at least 50 karma to create a community" 400)
    else
      let* mods :=
        match moderators body with
        | Some moderators => new_Set (JsNumber (push moderators uid).2)
        | None => ret [uid]
        end in
      let* community :=
        Community_create newId
          (Community.mk (name body) uid mods (default [] (bannedUsers body)) 0) in
      json 201 community.

(** *** Ids written in the request

    [updateCommunity], [ban] and [unban] receive ids as text of the
    request ([req.params.id], [req.body.user], [req.body.moderators]).
    Mongoose casts such a text to an ObjectId before it queries or
    stores it, and rejects with a [CastError] when the text is no id.
    One id has several texts (its hexadecimal digits in either case);
    the string that [toString()] gives for it is one of them.

    The cast belongs to the database driver and is a parameter [cast] of
    the handlers: [cast text = Some oid] when [text] denotes the id whose
    string form is [oid], and [None] when it denotes none.  The handlers
    compare the text itself wherever the source does. *)

(** [User.findById(text)]: the record comes back with its [_id]. *)
Definition User_findById_cast (cast : string → option string) (text : string)
    : M (option (string * User.t)) :=
  match cast text with
  | Some oid => λ s, (s, Ok (pair oid <$> users s !! oid))
  | None => throw CastError
  end.

Definition Community_findById_cast (cast : string → option string)
    (text : string) : M (option (string * Community.t)) :=
  match cast text with
  | Some oid => λ s, (s, Ok (pair oid <$> communities s !! oid))
  | None => throw CastError
  end.

(** The cast of an array of texts, element by element; one text that is
    no id fails the whole array. *)
Fixpoint cast_all (cast : string → option string) (l : list string)
    : option (list string) :=
  match l with
  | [] => Some []
  | text :: rest =>
    match cast text, cast_all cast rest with
    | Some oid, Some oids => Some (oid :: oids)
    | _, _ => None
    end
  end.

(** The cast of an array field that the request may leave out. *)
Definition cast_field (cast : string → option string)
    (field : option (list string)) : option (option (list string)) :=
  match field with
  | Some l => Some <$> cast_all cast l
  | None => Some None
  end.

(** [findByIdAndUpdate] with [new: true]: [name] and [moderators] are
    set, [bannedUsers] is set when the body has it.  The id and the two
    arrays are cast; nothing is written when a cast fails. *)
Definition Community_findByIdAndUpdate (cast : string → option string)
    (id : string) (body : CommunityBody) (mods : list string)
    : M (option Community.t) :=
  match cast id, cast_all cast mods, cast_field cast (bannedUsers body) with
  | Some oid, Some mods, Some banned =>
    λ s, let upd c :=
           Community.mk (name body) (Community.creator c) mods
             (default (Community.bannedUsers c) banned)
             (Community.subscribers c) in
         let cs := alter upd oid (communities s) in
         (set_communities cs s, Ok (cs !! oid))
  | _, _, _ => throw CastError
  end.

(** The texts that [updateCommunity] computes as [mods] and hands to
    the update. *)
Definition update_mods (body : CommunityBody) (uid : string) : list string :=
  match moderators body with
  | Some moderators => Set_elements (moderators ++ [uid])
  | None => [uid]
  end.

(** [id] is [req.params.id] and [uid] is [req.user.id].  The [Set]
    removes repeated texts, before the update casts them. *)
Definition updateCommunity (cast : string → option string) (id : string)
    (body : CommunityBody) (uid : string)
    : M (Response (option Community.t)) :=
  let* community := Community_findById_cast cast id in
  match community with
  | None => throw (AppError "Community does not exist" 404)
  | Some (_, community) =>
    if negb (String.eqb (Community.creator community) uid) then
      throw (AppError "You are not the creator of this community" 400)
    else
      let* mods :=
        match moderators body with
        | Some moderators => new_Set (JsArray (moderators ++ [uid]))
        | None => ret [uid]
        end in
      let* updatedCommunity :=
        Community_findByIdAndUpdate cast id body mods in
      json 200 updatedCommunity
  end.

(** [id] is [req.params.id], [actor] is [req.user.id] and [target] is
    [req.body.user].  The user is found through the cast of [target];
    the creator and the banned users are compared with [target] itself,
    and what is pushed is the [_id] of the user found.  [save] writes
    the community back under its own [_id]. *)
Definition ban (cast : string → option string) (id actor target : string)
    : M (Response Community.t) :=
  let* community := Community_findById_cast cast id in
  let* user := User_findById_cast cast target in
  match user, community with
  | None, _ => throw (AppError "User not found" 404)
  | Some _, None => throw (AppError "Community not found" 404)
  | Some (user_id, _), Some (community_id, community) =>
    if negb (includes (Community.moderators community) actor) then
      throw (AppError "You are not a moderator of this community" 400)
    else if String.eqb (Community.creator community) target then
      throw (AppError "Unauthorized" 400)
    else if includes (Community.bannedUsers community) target then
      throw (AppError "User is already banned from this community" 400)
    else
      let community :=
        Community.set_bannedUsers
          (push (Community.bannedUsers community) user_id).1 community in
      community_save community_id community ;;
      json 200 community
  end.

(** The banned users are tested and filtered by [target] itself; the
    strings kept are string forms of stored ids. *)
Definition unban (cast : string → option string) (id actor target : string)
    : M (Response Community.t) :=
  let* community := Community_findById_cast cast id in
  let* user := User_findById_cast cast target in
  match user, community with
  | None, _ => throw (AppError "User not found" 404)
  | Some _, None => throw (AppError "Community not found" 404)
  | Some _, Some (community_id, community) =>
    if negb (includes (Community.moderators community) actor) then
      throw (AppError "You are not a moderator of this community" 400)
    else if includes (Community.bannedUsers community) target then
      let community :=
        Community.set_bannedUsers
          (filter (λ userId, userId ≠ target) (Community.bannedUsers community))
          community in
      community_save community_id community ;;
      json 200 community
    else
      throw (AppError "User is not banned from this community" 400)
  end.

(** The four vote routes of a votable model. *)
Inductive VoteOp := Upvote | Downvote | RemoveUpvote | RemoveDownvote.

Definition applyVote (op : VoteOp) : ModelName → string → string →
    M (Response Document.t) :=
  match op with
  | Upvote => upvoteDocument
  | Downvote => downvoteDocument
  | RemoveUpvote => removeUpvote
  | RemoveDownvote => removeDownvote
  end.

(** The uniqueness invariant of a user's opposing vote-sets, for one
    document id and one content kind. *)
Definition unique_vote (k : Kind) (id : string) (u : User.t) : Prop :=
  ¬ (id ∈ upvotedDocs k u ∧ id ∈ downvotedDocs k u).

(** ** The other document handlers (handler factory) *)

(** [req.user], the authenticated caller: its id and its role. *)
Module ReqUser.
Record t := mk { id : string; role : string }.
End ReqUser.

Definition getDocument (m : ModelName) (id : string)
    : M (Response Document.t) :=
  let* document := Model_findById m id in
  match document with
  | None => throw (AppError "Document not found" 404)
  | Some document => json 200 document
  end.

(** [bannedUsers?.includes(user.id)]: [undefined] when the community is
    not found, which the test takes as false. *)
Definition banned_in (communityDoc : option Community.t) (uid : string) : bool :=
  match communityDoc with
  | Some c => includes (Community.bannedUsers c) uid
  | None => false
  end.

(** [community] is [req.body.community].  The handler stops after the
    ban check: [document] is never assigned, so the answer carries no
    document and nothing is stored. *)
Definition createDocument (m : ModelName) (community : string)
    (user : ReqUser.t) : M (Response (option Document.t)) :=
  let document : option Document.t := None in
  let* communityDoc := Community_findById community in
  if banned_in communityDoc (ReqUser.id user) then
    throw (AppError "You are banned from this community" 403)
  else json 201 document.

Definition Model_findByIdAndDelete (m : ModelName) (id : string) : M unit :=
  λ s, (set_collection m (delete id (collection m s)) s, Ok tt).

(** Reading [moderators] off a community that was not found throws. *)
Definition deleteDocument (m : ModelName) (id : string) (user : ReqUser.t)
    : M (Response unit) :=
  let* document := Model_findById m id in
  match document with
  | None => throw (AppError "Document not found" 404)
  | Some document =>
    let* community := Community_findById (Document.community document) in
    match community with
    | None => throw TypeError
    | Some community =>
      let moderators := Community.moderators community in
      if negb (String.eqb (Document.creator document) (ReqUser.id user)) &&
         negb (String.eqb (ReqUser.role user) "admin") &&
         negb (includes moderators (ReqUser.id user))
      then throw (AppError "You are not authorized to delete this document" 401)
      else
        Model_findByIdAndDelete m id ;;
        json 204 tt
    end
  end.

(** ** The other community handlers (community controller) *)

(** [community.remove()]: the record is deleted; the sources at hand
    show no hook that would delete anything with it. *)
Definition community_remove (id : string) : M unit :=
  λ s, (set_communities (delete id (communities s)) s, Ok tt).

Definition deleteCommunity (id : string) (user : ReqUser.t)
    : M (Response unit) :=
  let* community := Community_findById id in
  match community with
  | None => throw (AppError "Community not found" 404)
  | Some community =>
    if negb (String.eqb (Community.creator community) (ReqUser.id user)) &&
       negb (String.eqb (ReqUser.role user) "admin")
    then throw (AppError
           "You are not the creator of this community nor the Admin" 403)
    else
      community_remove id ;;
      json 204 tt
  end.

(** Modelled from the spec: the user schema is not part of the sources
    at hand.  The subscription handlers read and write the user's
    [subscribedCommunities] array, which the record of the vote
    handlers does not carry; it is kept here in a table of its own,
    keyed by user id, beside the store.  A user without an entry has
    the empty array. *)
Record Platform := mkPlatform {
  store : Store;
  subscribedCommunities : gmap string (list string)
}.

(** Handlers over the platform; the store handlers lift into it. *)
Definition MP (A : Type) : Type := Platform → Platform * Result A.

Definition retP {A} (a : A) : MP A := λ p, (p, Ok a).
Definition throwP {A} (e : Error) : MP A := λ p, (p, Throw e).
Definition bindP {A B} (c : MP A) (k : A → MP B) : MP B :=
  λ p, match c p with
       | (p', Ok a) => k a p'
       | (p', Throw e) => (p', Throw e)
       end.
Definition liftM {A} (c : M A) : MP A :=
  λ p, match c (store p) with
       | (s', r) => (mkPlatform s' (subscribedCommunities p), r)
       end.

Notation "'let+' x ':=' c 'in' k" := (bindP c (λ x, k))
  (at level 10, x pattern, c at level 100, k at level 200).

Definition user_subscribedCommunities (uid : string) : MP (list string) :=
  λ p, (p, Ok (default [] (subscribedCommunities p !! uid))).

(** [user.save()] after the array was changed. *)
Definition user_save_subscribed (uid : string) (l : list string) : MP unit :=
  λ p, (mkPlatform (store p) (<[uid := l]> (subscribedCommunities p)), Ok tt).

Definition set_subscribers (n : Z) (c : Community.t) : Community.t :=
  Community.mk (Community.name c) (Community.creator c)
    (Community.moderators c) (Community.bannedUsers c) n.

(** [id] is [req.params.id] and [uid] is [req.user.id]; the answer
    carries the user with the updated array. *)
Definition subscribe (id uid : string)
    : MP (Response (User.t * list string)) :=
  let+ community := liftM (Community_findById id) in
  match community with
  | None => throwP (AppError "Community not found" 404)
  | Some community =>
    let+ user := liftM (User_findById uid) in
    match user with
    | None => throwP TypeError
    | Some user =>
      let+ subscribed := user_subscribedCommunities uid in
      if includes subscribed id then
        throwP (AppError "User is already subscribed to this community" 400)
      else
        let subscribed := (push subscribed id).1 in
        let+ _ := user_save_subscribed uid subscribed in
        let community :=
          set_subscribers (Community.subscribers community + 1) community in
        let+ _ := liftM (community_save id community) in
        retP (mkResponse 200 (user, subscribed))
    end
  end.

(** The [try]/[catch] hands every error to [next], which is where a
    throw ends up as well. *)
Definition unsubscribe (id uid : string)
    : MP (Response (User.t * list string)) :=
  let+ community := liftM (Community_findById id) in
  match community with
  | None => throwP (AppError "Community not found" 404)
  | Some community =>
    let+ user := liftM (User_findById uid) in
    match user with
    | None => throwP TypeError
    | Some user =>
      let+ subscribed := user_subscribedCommunities uid in
      if negb (includes subscribed id) then
        throwP (AppError "User not subscribed to this community" 400)
      else
        let subscribed := pull subscribed id in
        let+ _ := user_save_subscribed uid subscribed in
        let community :=
          set_subscribers (Community.subscribers community - 1) community in
        let+ _ := liftM (community_save id community) in
        retP (mkResponse 200 (user, subscribed))
    end
  end.

(** ** AppError *)

(** [`${statusCode}`.startsWith('4') ? 'fail' : 'error'], for an integer
    status code. *)
Definition AppError_status (statusCode : Z) : string :=
  if String.prefix "4" (NilZero.string_of_int (Z.to_int statusCode))
  then "fail" else "error".

(** ** Decidable equality and reduction behaviour *)

Global Instance Kind_eq_dec : EqDecision Kind.
Proof. solve_decision. Defined.

Global Instance ModelName_eq_dec : EqDecision ModelName.
Proof. solve_decision. Defined.

Arguments collection : simpl never.
Arguments put_voteSets : simpl never.
Arguments put_counters : simpl never.
Arguments put_karma : simpl never.
Arguments upvotedDocs : simpl never.
Arguments downvotedDocs : simpl never.
Arguments set_upvotedDocs : simpl never.
Arguments set_downvotedDocs : simpl never.
Arguments includes : simpl never.
Arguments pull : simpl never.

(** ** Concrete stores and requests *)

Definition fresh_user : User.t := User.mk 0 [] [] [] [].

(** User A has not voted on post D, which B created. *)
Definition store_none : Store :=
  mkStore {[ "A" := fresh_user; "B" := fresh_user ]}
          {[ "D" := Document.mk "B" "C" 0 0 ]} ∅ ∅ ∅.

(** The same after A's upvote, and after A's downvote. *)
Definition store_upvoted : Store :=
  mkStore {[ "A" := User.mk 0 ["D"] [] [] []; "B" := User.mk 1 [] [] [] [] ]}
          {[ "D" := Document.mk "B" "C" 1 0 ]} ∅ ∅ ∅.

Definition store_downvoted : Store :=
  mkStore {[ "A" := User.mk 0 [] ["D"] [] []; "B" := User.mk (-1) [] [] [] [] ]}
          {[ "D" := Document.mk "B" "C" 0 1 ]} ∅ ∅ ∅.

(** B voting on B's own post. *)
Definition store_self_upvoted : Store :=
  mkStore {[ "A" := fresh_user; "B" := User.mk 1 ["D"] [] [] [] ]}
          {[ "D" := Document.mk "B" "C" 1 0 ]} ∅ ∅ ∅.

Definition user_49 : User.t := User.mk 49 [] [] [] [].
Definition store_karma49 : Store := mkStore {[ "u1" := user_49 ]} ∅ ∅ ∅ ∅.
Definition store_karma100 : Store :=
  mkStore {[ "u1" := User.mk 100 [] [] [] []; "u2" := fresh_user ]} ∅ ∅ ∅ ∅.
Definition body_plain : CommunityBody := mkBody "rocq" None None.
Definition body_mods : CommunityBody := mkBody "rocq" (Some ["u2"]) None.

(** Community c1: created by u1, moderated by u1 and u2, u4 is banned. *)
Definition comm_c1 : Community.t :=
  Community.mk "rocq" "u1" ["u1"; "u2"] ["u4"] 0.

(** An instance of the cast for the runs of [updateCommunity], [ban]
    and [unban]: a text of 24 hexadecimal digits denotes the id that
    [toString()] writes with the same digits in lower case; the runs use
    no other text as an id. *)
Definition is_hex (a : ascii) : bool :=
  let n := nat_of_ascii a in
  ((48 <=? n) && (n <=? 57) || (65 <=? n) && (n <=? 70) ||
   (97 <=? n) && (n <=? 102))%nat.

Definition lower (a : ascii) : ascii :=
  let n := nat_of_ascii a in
  if ((65 <=? n) && (n <=? 90))%nat then ascii_of_nat (n + 32) else a.

Fixpoint all_hex (text : string) : bool :=
  match text with
  | EmptyString => true
  | String a rest => is_hex a && all_hex rest
  end.

Fixpoint toLowerCase (text : string) : string :=
  match text with
  | EmptyString => EmptyString
  | String a rest => String (lower a) (toLowerCase rest)
  end.

Definition ObjectId_cast (text : string) : option string :=
  if (String.length text =? 24)%nat && all_hex text
  then Some (toLowerCase text) else None.

(** The ids of four users and of a community, a well-formed id that no
    record has, and the id of the first user written in upper case. *)
Definition id_u1 : string := "65a0000000000000000000a1".
Definition id_u2 : string := "65a0000000000000000000a2".
Definition id_u3 : string := "65a0000000000000000000a3".
Definition id_u4 : string := "65a0000000000000000000a4".
Definition id_c1 : string := "65c0000000000000000000c1".
Definition id_none : string := "65f0000000000000000000f9".
Definition text_U1 : string := "65A0000000000000000000A1".

(** The community [id_c1]: created by the first user, moderated by the
    first two, the fourth is banned. *)
Definition comm_mod : Community.t :=
  Community.mk "rocq" id_u1 [id_u1; id_u2] [id_u4] 0.
Definition store_mod : Store :=
  mkStore {[ id_u1 := fresh_user; id_u2 := fresh_user;
             id_u3 := fresh_user; id_u4 := fresh_user ]}
          ∅ ∅ ∅ {[ id_c1 := comm_mod ]}.
(** The same after the third user was banned. *)
Definition store_mod_banned : Store :=
  mkStore {[ id_u1 := fresh_user; id_u2 := fresh_user;
             id_u3 := fresh_user; id_u4 := fresh_user ]}
          ∅ ∅ ∅
          {[ id_c1 := Community.set_bannedUsers [id_u4; id_u3] comm_mod ]}.
Definition body_team : CommunityBody :=
  mkBody "rocq" (Some [id_u2; id_u2]) None.

(** Post D whose creator B has no record, before and after A's
    downvote. *)
Definition store_orphan : Store :=
  mkStore {[ "A" := fresh_user ]} {[ "D" := Document.mk "B" "C" 0 0 ]} ∅ ∅ ∅.
Definition store_orphan_downvoted : Store :=
  mkStore {[ "A" := User.mk 0 [] ["D"] [] [] ]}
          {[ "D" := Document.mk "B" "C" 0 1 ]} ∅ ∅ ∅.

(** Community c1 with a post P that u3 wrote in it. *)
Definition post_P : Document.t := Document.mk "u3" "c1" 0 0.
Definition store_forum : Store :=
  mkStore {[ "u1" := fresh_user; "u2" := fresh_user;
             "u3" := fresh_user; "u4" := fresh_user ]}
          {[ "P" := post_P ]} ∅ ∅ {[ "c1" := comm_c1 ]}.
Definition store_forum_closed : Store :=
  mkStore {[ "u1" := fresh_user; "u2" := fresh_user;
             "u3" := fresh_user; "u4" := fresh_user ]}
          {[ "P" := post_P ]} ∅ ∅ ∅.

Definition platform_forum : Platform := mkPlatform store_forum ∅.
Definition platform_subscribed : Platform :=
  mkPlatform
    (mkStore {[ "u1" := fresh_user; "u2" := fresh_user;
                "u3" := fresh_user; "u4" := fresh_user ]}
             {[ "P" := post_P ]} ∅ ∅
             {[ "c1" := Community.mk "rocq" "u1" ["u1"; "u2"] ["u4"] 1 ]})
    {[ "u3" := ["c1"] ]}.

(** * Properties *)

(** ** Arrays *)

Lemma includes_true (l : list string) (x : string) :
  x ∈ l → includes l x = true.
Proof. intros H. unfold includes. by apply bool_decide_eq_true. Qed.

Lemma includes_false (l : list string) (x : string) :
  x ∉ l → includes l x = false.
Proof. intros H. unfold includes. by apply bool_decide_eq_false. Qed.

Lemma includes_spec (l : list string) (x : string) :
  includes l x = true ↔ x ∈ l.
Proof. unfold includes. apply bool_decide_eq_true. Qed.

Lemma includes_spec_false (l : list string) (x : string) :
  includes l x = false ↔ x ∉ l.
Proof. unfold includes. apply bool_decide_eq_false. Qed.

Lemma elem_of_pull (l : list string) (x y : string) :
  y ∈ pull l x ↔ y ∈ l ∧ y ≠ x.
Proof. unfold pull. rewrite list_elem_of_filter. tauto. Qed.

Lemma not_elem_of_pull (l : list string) (x : string) : x ∉ pull l x.
Proof. rewrite elem_of_pull. tauto. Qed.

Lemma pull_fresh (l : list string) (x : string) : x ∉ l → pull l x = l.
Proof.
  unfold pull. induction l as [|y l IH]; intros Hx; [done|].
  apply not_elem_of_cons in Hx as [Hne Hl].
  rewrite filter_cons_True by congruence. by rewrite IH.
Qed.

Lemma pull_push_fresh (l : list string) (x : string) :
  x ∉ l → pull (push l x).1 x = l.
Proof.
  intros Hx. unfold push, pull. simpl. rewrite filter_app.
  fold (pull l x). rewrite pull_fresh by done.
  rewrite filter_cons_False by (intros H; by apply H).
  by rewrite filter_nil, app_nil_r.
Qed.

Lemma elem_of_push (l : list string) (x y : string) :
  y ∈ (push l x).1 ↔ y ∈ l ∨ y = x.
Proof. unfold push. simpl. rewrite elem_of_app, list_elem_of_singleton. tauto. Qed.

Lemma elem_of_Set_elements (l : list string) (x : string) :
  x ∈ Set_elements l ↔ x ∈ l.
Proof.
  induction l as [|y l IH]; simpl; [done|].
  rewrite !elem_of_cons, list_elem_of_filter, IH.
  destruct (decide (x = y)); tauto.
Qed.

Lemma NoDup_Set_elements (l : list string) : NoDup (Set_elements l).
Proof.
  induction l as [|y l IH]; simpl; [constructor|].
  constructor.
  - rewrite list_elem_of_filter. tauto.
  - by apply NoDup_filter.
Qed.

(** ** The cast of request texts *)

Lemma cast_all_Some (cast : string → option string) (l k : list string)
    (x : string) :
  cast_all cast l = Some k →
  x ∈ k ↔ ∃ text, text ∈ l ∧ cast text = Some x.
Proof.
  revert k. induction l as [|t l IH]; simpl; intros k.
  - intros [= <-]. split; [by intros ?%elem_of_nil|].
    by intros (? & ?%elem_of_nil & _).
  - destruct (cast t) as [o|] eqn:Ht; [|discriminate].
    destruct (cast_all cast l) as [os|]; [|discriminate].
    intros [= <-]. rewrite elem_of_cons, (IH os eq_refl). split.
    + intros [-> | (text & Hin & Hc)].
      * exists t. split; [left|done].
      * exists text. split; [by right|done].
    + intros (text & [-> | Hin]%elem_of_cons & Hc).
      * left. congruence.
      * right. by exists text.
Qed.

Lemma cast_all_None (cast : string → option string) (l : list string) :
  cast_all cast l = None ↔ ∃ text, text ∈ l ∧ cast text = None.
Proof.
  induction l as [|t l IH]; simpl.
  - split; [discriminate|]. by intros (? & ?%elem_of_nil & _).
  - destruct (cast t) as [o|] eqn:Ht.
    + destruct (cast_all cast l) as [os|].
      * split; [discriminate|].
        intros (text & [-> | Hin]%elem_of_cons & Hc); [congruence|].
        assert (E : Some os = None) by (apply (proj2 IH); by exists text).
        discriminate E.
      * split; [|done]. intros _.
        destruct (proj1 IH eq_refl) as (text & Hin & Hc).
        exists text. split; [by right|done].
    + split; [|done]. intros _. exists t. split; [left|done].
Qed.

Lemma cast_all_own (cast : string → option string) (l : list string) :
  Forall (λ text, cast text = Some text) l → cast_all cast l = Some l.
Proof.
  induction 1 as [|t l Ht _ IH]; simpl; [done|]. by rewrite Ht, IH.
Qed.

(** ** Community creation *)

Lemma karma_below_threshold_iff (u : User.t) :
  karma_below_threshold (Some u) = true ↔ (User.karma u < 49)%Z.
Proof. simpl. apply Z.ltb_lt. Qed.

(** Whenever creation answers, the new community is created by the
    caller, who is its only moderator. *)
Lemma createCommunity_Ok (body : CommunityBody) (uid newId : string)
    (s s' : Store) (r : Response Community.t) :
  createCommunity body uid newId s = (s', Ok r) →
  moderators body = None ∧ status r = 201 ∧
  Community.creator (data r) = uid ∧ Community.moderators (data r) = [uid] ∧
  communities s' !! newId = Some (data r).
Proof.
  unfold createCommunity, bind, User_findById, json, ret, throw.
  destruct (match_word (name body)); simpl; [|discriminate].
  destruct (karma_below_threshold (users s !! uid)); [discriminate|].
  destruct (moderators body) as [l|]; simpl; [discriminate|].
  intros [= <- <-]. simpl. by rewrite lookup_insert_eq.
Qed.

(** An update by the creator always leaves the creator among the
    moderators, whatever list the request carries.  The caller's id is a
    text of itself. *)
Lemma updateCommunity_Ok (cast : string → option string) (id : string)
    (body : CommunityBody) (uid : string) (s s' : Store)
    (r : Response (option Community.t)) :
  cast uid = Some uid →
  updateCommunity cast id body uid s = (s', Ok r) →
  ∃ cid c, cast id = Some cid ∧ communities s' !! cid = Some c ∧
       data r = Some c ∧
       Community.creator c = uid ∧ uid ∈ Community.moderators c.
Proof.
  intros Hu.
  unfold updateCommunity, bind, Community_findById_cast,
    Community_findByIdAndUpdate, json, ret, throw.
  destruct (cast id) as [cid|] eqn:Hid; [|discriminate]. simpl.
  destruct (communities s !! cid) as [c|] eqn:Hc; [|discriminate]. simpl.
  destruct (String.eqb (Community.creator c) uid) eqn:Hcr; simpl; [|discriminate].
  apply String.eqb_eq in Hcr.
  set (texts := match moderators body with
                | Some l => Set_elements (l ++ [uid])
                | None => [uid]
                end).
  assert (Hin : uid ∈ texts).
  { unfold texts. destruct (moderators body) as [l|].
    - rewrite elem_of_Set_elements, elem_of_app, list_elem_of_singleton.
      by right.
    - by apply list_elem_of_singleton. }
  assert (E : ∀ k : list string → Store → Store * Result (Response (option Community.t)),
            (let (s0, r0) := match moderators body with
                             | Some l => new_Set (JsArray (l ++ [uid]))
                             | None => λ s0, (s0, Ok [uid])
                             end s in
             match r0 with
             | Ok a => k a s0
             | Throw e => (s0, Throw e)
             end) = k texts s).
  { intros k. unfold texts. by destruct (moderators body). }
  rewrite E. clear E.
  destruct (cast_all cast texts) as [mods|] eqn:Hmods; [|discriminate].
  destruct (cast_field cast (bannedUsers body)) as [banned|]; [|discriminate].
  intros [= <- <-]. cbn [communities set_communities data].
  exists cid. rewrite lookup_alter_eq, Hc. cbn [fmap option_fmap option_map].
  eexists. split; [done|]. split; [reflexivity|].
  split; [reflexivity|]. split; [done|]. cbn [Community.moderators].
  apply (cast_all_Some _ _ _ _ Hmods). by exists uid.
Qed.

(** C1. The karma gate of community creation compares against 49: a
    caller whose karma is exactly 49, below the 50 that the error
    message announces, passes the gate and the community is created. *)
Theorem createCommunity_karma_49_accepted (body : CommunityBody)
    (uid newId : string) (s : Store) (u : User.t) :
  match_word (name body) = true →
  moderators body = None →
  users s !! uid = Some u →
  User.karma u = 49 →
  let c := Community.mk (name body) uid [uid] (default [] (bannedUsers body)) 0 in
  createCommunity body uid newId s =
    (set_communities (<[newId := c]> (communities s)) s, Ok (mkResponse 201 c)).
Proof.
  intros Hname Hmods Hu Hk. unfold createCommunity, bind, User_findById.
  rewrite Hname. simpl. rewrite Hu. simpl. rewrite Hk, Hmods. reflexivity.
Qed.

(** C6. When the request carries a moderators list, creation hands the
    number returned by [push] to the [Set] constructor and throws a
    [TypeError]: no community is created, although the name is valid
    and the karma gate was passed. *)
Theorem createCommunity_moderators_throws (body : CommunityBody)
    (uid newId : string) (s : Store) (l : list string) :
  match_word (name body) = true →
  karma_below_threshold (users s !! uid) = false →
  moderators body = Some l →
  createCommunity body uid newId s = (s, Throw TypeError).
Proof.
  intros Hname Hk Hmods. unfold createCommunity, bind, User_findById.
  rewrite Hname. simpl. rewrite Hk, Hmods. reflexivity.
Qed.

(** ** Ban *)


(** ** The store after a save *)

Lemma Store_eq (a b : Store) :
  users a = users b → posts a = posts b → comments a = comments b →
  others a = others b → communities a = communities b → a = b.
Proof. destruct a, b. simpl. by intros -> -> -> -> ->. Qed.

Lemma collection_eq (a b : Store) :
  (∀ m, collection m a = collection m b) →
  posts a = posts b ∧ comments a = comments b ∧ others a = others b.
Proof.
  intros H. split; [apply (H (Votable Post))|].
  split; [apply (H (Votable Comment))|apply (H OtherModel)].
Qed.

Lemma users_put_voteSets id ud s :
  users (put_voteSets id ud s) = alter (merge_voteSets ud) id (users s).
Proof. reflexivity. Qed.

Lemma users_put_karma id c s :
  users (put_karma id c s) = alter (User.set_karma (User.karma c)) id (users s).
Proof. reflexivity. Qed.

Lemma users_put_counters m id d s : users (put_counters m id d s) = users s.
Proof. by destruct m as [[]|]. Qed.

Lemma collection_put_voteSets m id ud s :
  collection m (put_voteSets id ud s) = collection m s.
Proof. by destruct m as [[]|]. Qed.

Lemma collection_put_karma m id c s :
  collection m (put_karma id c s) = collection m s.
Proof. by destruct m as [[]|]. Qed.

Lemma collection_put_counters m id d s :
  collection m (put_counters m id d s) =
    alter (merge_counters d) id (collection m s).
Proof. by destruct m as [[]|]. Qed.

Lemma collection_put_counters_ne m m' id d s :
  m ≠ m' → collection m' (put_counters m id d s) = collection m' s.
Proof. by destruct m as [[]|], m' as [[]|]. Qed.

Lemma communities_put_voteSets id ud s :
  communities (put_voteSets id ud s) = communities s.
Proof. reflexivity. Qed.

Lemma communities_put_karma id c s :
  communities (put_karma id c s) = communities s.
Proof. reflexivity. Qed.

Lemma communities_put_counters m id d s :
  communities (put_counters m id d s) = communities s.
Proof. by destruct m as [[]|]. Qed.

(** Field reads after the in-memory updates. *)

Lemma upvotedDocs_set_upvotedDocs k l u : upvotedDocs k (set_upvotedDocs k l u) = l.
Proof. by destruct k. Qed.

Lemma downvotedDocs_set_downvotedDocs k l u :
  downvotedDocs k (set_downvotedDocs k l u) = l.
Proof. by destruct k. Qed.

Lemma upvotedDocs_set_downvotedDocs k k' l u :
  upvotedDocs k (set_downvotedDocs k' l u) = upvotedDocs k u.
Proof. by destruct k, k'. Qed.

Lemma downvotedDocs_set_upvotedDocs k k' l u :
  downvotedDocs k (set_upvotedDocs k' l u) = downvotedDocs k u.
Proof. by destruct k, k'. Qed.

Lemma upvotedDocs_set_upvotedDocs_ne k k' l u :
  k ≠ k' → upvotedDocs k (set_upvotedDocs k' l u) = upvotedDocs k u.
Proof. by destruct k, k'. Qed.

Lemma downvotedDocs_set_downvotedDocs_ne k k' l u :
  k ≠ k' → downvotedDocs k (set_downvotedDocs k' l u) = downvotedDocs k u.
Proof. by destruct k, k'. Qed.

Lemma upvotedDocs_merge_voteSets k ud st :
  upvotedDocs k (merge_voteSets ud st) = upvotedDocs k ud.
Proof. by destruct k. Qed.

Lemma downvotedDocs_merge_voteSets k ud st :
  downvotedDocs k (merge_voteSets ud st) = downvotedDocs k ud.
Proof. by destruct k. Qed.

Lemma upvotedDocs_set_karma k n u :
  upvotedDocs k (User.set_karma n u) = upvotedDocs k u.
Proof. by destruct k. Qed.

Lemma downvotedDocs_set_karma k n u :
  downvotedDocs k (User.set_karma n u) = downvotedDocs k u.
Proof. by destruct k. Qed.

Lemma karma_merge_voteSets ud st :
  User.karma (merge_voteSets ud st) = User.karma st.
Proof. reflexivity. Qed.

Lemma karma_set_karma n u : User.karma (User.set_karma n u) = n.
Proof. reflexivity. Qed.

Lemma karma_set_upvotedDocs k l u :
  User.karma (set_upvotedDocs k l u) = User.karma u.
Proof. by destruct k. Qed.

Lemma karma_set_downvotedDocs k l u :
  User.karma (set_downvotedDocs k l u) = User.karma u.
Proof. by destruct k. Qed.

Create Rewrite HintDb store.
#[global] Hint Rewrite users_put_voteSets users_put_karma users_put_counters
  collection_put_voteSets collection_put_karma collection_put_counters
  communities_put_voteSets communities_put_karma communities_put_counters
  upvotedDocs_set_upvotedDocs downvotedDocs_set_downvotedDocs
  upvotedDocs_set_downvotedDocs downvotedDocs_set_upvotedDocs
  upvotedDocs_merge_voteSets downvotedDocs_merge_voteSets
  upvotedDocs_set_karma downvotedDocs_set_karma
  karma_merge_voteSets karma_set_karma
  karma_set_upvotedDocs karma_set_downvotedDocs : store.

(** Unfolds a handler down to the store reads. *)
Ltac handler_unfold :=
  unfold applyVote, upvoteDocument, downvoteDocument, removeUpvote,
    removeDownvote, bind, Model_findById, User_findById, userDoc_save,
    document_save, creator_save_opt, creator_save, karma_incr, karma_decr,
    json, ret, throw.

(** The user record found under any id once the three saves of a vote
    are done. *)
Lemma users_after_vote (m : ModelName) (id uid cid x : string)
    (ud c : User.t) (d : Document.t) (s : Store) :
  users (put_karma cid c (put_counters m id d (put_voteSets uid ud s))) !! x =
    (λ st, if decide (cid = x) then User.set_karma (User.karma c) st else st)
      <$> ((λ st, if decide (uid = x) then merge_voteSets ud st else st)
             <$> users s !! x).
Proof.
  autorewrite with store. rewrite !lookup_alter.
  destruct (decide (cid = x)) as [->|]; destruct (decide (uid = x)) as [->|];
    by destruct (users s !! x).
Qed.

(** ** The rows of the vote transition table

    Each lemma runs one handler from a state in which the document, the
    acting user and (where it is read) the creator are found. *)

Section Rows.
Context (k : Kind) (id uid : string) (s : Store).
Context (d : Document.t) (u : User.t).
Hypothesis Hd : collection (Votable k) s !! id = Some d.
Hypothesis Hu : users s !! uid = Some u.

Ltac run :=
  handler_unfold; rewrite Hd; simpl; rewrite Hu; simpl.

Lemma upvoteDocument_already :
  id ∈ upvotedDocs k u →
  upvoteDocument (Votable k) id uid s =
    (s, Throw (AppError "You have already upvoted" 400)).
Proof. intros Hin. run. by rewrite (includes_true _ _ Hin). Qed.

Lemma downvoteDocument_already :
  id ∈ downvotedDocs k u →
  downvoteDocument (Votable k) id uid s =
    (s, Throw (AppError "You have already downvoted" 400)).
Proof. intros Hin. run. by rewrite (includes_true _ _ Hin). Qed.

Lemma removeUpvote_not_voted :
  id ∉ upvotedDocs k u →
  removeUpvote (Votable k) id uid s =
    (s, Throw (AppError "You have not upvoted" 400)).
Proof. intros Hin. run. by rewrite (includes_false _ _ Hin). Qed.

Lemma removeDownvote_not_voted :
  id ∉ downvotedDocs k u →
  removeDownvote (Votable k) id uid s =
    (s, Throw (AppError "You have not downvoted" 400)).
Proof. intros Hin. run. by rewrite (includes_false _ _ Hin). Qed.

Context (c : User.t).
Hypothesis Hc : users s !! Document.creator d = Some c.

Lemma upvoteDocument_fresh :
  id ∉ upvotedDocs k u → id ∉ downvotedDocs k u →
  let u' := set_upvotedDocs k (upvotedDocs k u ++ [id]) u in
  let d' := Document.set_upvotes (Document.upvotes d + 1) d in
  let c' := User.set_karma (User.karma c + 1) c in
  upvoteDocument (Votable k) id uid s =
    (put_karma (Document.creator d) c'
       (put_counters (Votable k) id d' (put_voteSets uid u' s)),
     Ok (mkResponse 200 d')).
Proof.
  intros Hup Hdown. run.
  rewrite (includes_false _ _ Hup), (includes_false _ _ Hdown). simpl.
  rewrite Hc. simpl. autorewrite with store. reflexivity.
Qed.

Lemma upvoteDocument_switch :
  id ∉ upvotedDocs k u → id ∈ downvotedDocs k u →
  let u' := set_upvotedDocs k (upvotedDocs k u ++ [id])
              (set_downvotedDocs k (pull (downvotedDocs k u) id) u) in
  let d' := Document.set_upvotes (Document.upvotes d + 1)
              (Document.set_downvotes (Document.downvotes d - 1) d) in
  let c' := User.set_karma (User.karma c + 1 + 1) c in
  upvoteDocument (Votable k) id uid s =
    (put_karma (Document.creator d) c'
       (put_counters (Votable k) id d' (put_voteSets uid u' s)),
     Ok (mkResponse 200 d')).
Proof.
  intros Hup Hdown. run.
  rewrite (includes_false _ _ Hup), (includes_true _ _ Hdown). simpl.
  rewrite Hc. simpl. autorewrite with store. reflexivity.
Qed.

Lemma downvoteDocument_fresh :
  id ∉ downvotedDocs k u → id ∉ upvotedDocs k u →
  let u' := set_downvotedDocs k (downvotedDocs k u ++ [id]) u in
  let d' := Document.set_downvotes (Document.downvotes d + 1) d in
  let c' := User.set_karma (User.karma c - 1) c in
  downvoteDocument (Votable k) id uid s =
    (put_karma (Document.creator d) c'
       (put_counters (Votable k) id d' (put_voteSets uid u' s)),
     Ok (mkResponse 200 d')).
Proof.
  intros Hdown Hup. run.
  rewrite (includes_false _ _ Hup), (includes_false _ _ Hdown). simpl.
  rewrite Hc. simpl. autorewrite with store. reflexivity.
Qed.

Lemma downvoteDocument_switch :
  id ∉ downvotedDocs k u → id ∈ upvotedDocs k u →
  let u' := set_downvotedDocs k (downvotedDocs k u ++ [id])
              (set_upvotedDocs k (pull (upvotedDocs k u) id) u) in
  let d' := Document.set_downvotes (Document.downvotes d + 1)
              (Document.set_upvotes (Document.upvotes d - 1) d) in
  let c' := User.set_karma (User.karma c - 1 - 1) c in
  downvoteDocument (Votable k) id uid s =
    (put_karma (Document.creator d) c'
       (put_counters (Votable k) id d' (put_voteSets uid u' s)),
     Ok (mkResponse 200 d')).
Proof.
  intros Hdown Hup. run.
  rewrite (includes_true _ _ Hup), (includes_false _ _ Hdown). simpl.
  rewrite Hc. simpl. autorewrite with store. reflexivity.
Qed.

Lemma removeUpvote_voted :
  id ∈ upvotedDocs k u →
  let u' := set_upvotedDocs k (pull (upvotedDocs k u) id) u in
  let d' := Document.set_upvotes (Document.upvotes d - 1) d in
  let c' := User.set_karma (User.karma c - 1) c in
  removeUpvote (Votable k) id uid s =
    (put_karma (Document.creator d) c'
       (put_counters (Votable k) id d' (put_voteSets uid u' s)),
     Ok (mkResponse 200 d')).
Proof.
  intros Hup. run. rewrite (includes_true _ _ Hup). simpl. rewrite Hc. simpl. autorewrite with store. reflexivity.
Qed.

Lemma removeDownvote_voted :
  id ∈ downvotedDocs k u →
  let u' := set_downvotedDocs k (pull (downvotedDocs k u) id) u in
  let d' := Document.set_downvotes (Document.downvotes d - 1) d in
  let c' := User.set_karma (User.karma c + 1) c in
  removeDownvote (Votable k) id uid s =
    (put_karma (Document.creator d) c'
       (put_counters (Votable k) id d' (put_voteSets uid u' s)),
     Ok (mkResponse 200 d')).
Proof.
  intros Hdown. run. rewrite (includes_true _ _ Hdown). simpl. rewrite Hc. simpl. autorewrite with store. reflexivity.
Qed.
End Rows.

(** ** Reading the store after the three saves *)

Section AfterVote.
Context (m : ModelName) (id uid cid : string).
Context (u' c' : User.t) (d' : Document.t) (s : Store).

Local Abbreviation s' :=
  (put_karma cid c' (put_counters m id d' (put_voteSets uid u' s))).

Lemma after_vote_users (x : string) (v : User.t) :
  users s !! x = Some v →
  ∃ v', users s' !! x = Some v' ∧
    (∀ k, upvotedDocs k v' =
            upvotedDocs k (if decide (uid = x) then u' else v) ∧
          downvotedDocs k v' =
            downvotedDocs k (if decide (uid = x) then u' else v)) ∧
    User.karma v' = (if decide (cid = x) then User.karma c' else User.karma v).
Proof.
  intros Hv. rewrite users_after_vote, Hv. simpl.
  eexists. split; [reflexivity|].
  destruct (decide (cid = x)), (decide (uid = x)); split; try done;
    intros k; by autorewrite with store.
Qed.

Lemma after_vote_user (u : User.t) :
  users s !! uid = Some u →
  ∃ u2, users s' !! uid = Some u2 ∧
    (∀ k, upvotedDocs k u2 = upvotedDocs k u' ∧
          downvotedDocs k u2 = downvotedDocs k u') ∧
    User.karma u2 = (if decide (cid = uid) then User.karma c' else User.karma u).
Proof.
  intros Hu. destruct (after_vote_users uid u Hu) as (u2 & H1 & H2 & H3).
  destruct (decide (uid = uid)) as [_|?]; [|done]. eauto.
Qed.

Lemma after_vote_creator (c : User.t) :
  users s !! cid = Some c →
  ∃ c2, users s' !! cid = Some c2 ∧ User.karma c2 = User.karma c'.
Proof.
  intros Hc. destruct (after_vote_users cid c Hc) as (c2 & H1 & _ & H3).
  destruct (decide (cid = cid)) as [_|?]; [|done]. eauto.
Qed.

Lemma after_vote_other_user (x : string) :
  x ≠ uid → x ≠ cid → users s' !! x = users s !! x.
Proof.
  intros Hx1 Hx2. rewrite users_after_vote.
  destruct (users s !! x); simpl; [|done].
  destruct (decide (cid = x)); [congruence|].
  by destruct (decide (uid = x)); [congruence|].
Qed.

Lemma after_vote_document (d : Document.t) :
  collection m s !! id = Some d →
  Document.creator d' = Document.creator d →
  Document.community d' = Document.community d →
  collection m s' !! id = Some d'.
Proof.
  intros Hd Hcr Hco. autorewrite with store.
  rewrite lookup_alter_eq, Hd. simpl. f_equal.
  unfold merge_counters. rewrite <- Hcr, <- Hco. by destruct d'.
Qed.

Lemma after_vote_other_document (m' : ModelName) (x : string) :
  (m', x) ≠ (m, id) → collection m' s' !! x = collection m' s !! x.
Proof.
  intros Hne. autorewrite with store.
  destruct (decide (m = m')) as [<-|Hm].
  - autorewrite with store. rewrite lookup_alter_ne; [done|congruence].
  - rewrite collection_put_counters_ne by done. by autorewrite with store.
Qed.

Lemma after_vote_communities : communities s' = communities s.
Proof. by autorewrite with store. Qed.
End AfterVote.

(** ** Switching a vote *)

(** C2. From state DOWNVOTED, an upvote pulls the id out of the
    downvoted-set, pushes it onto the upvoted-set, moves the counters by
    -1 and +1 and raises the creator's karma by exactly 2; from state
    UPVOTED a downvote does the mirror image and lowers the karma by
    exactly 2.  In both final states the id is in one set only. *)
Theorem vote_switch (k : Kind) (id uid : string) (s : Store)
    (d : Document.t) (u c : User.t) :
  collection (Votable k) s !! id = Some d →
  users s !! uid = Some u →
  users s !! Document.creator d = Some c →
  (id ∈ downvotedDocs k u → id ∉ upvotedDocs k u →
   ∃ s' d' u' c',
     upvoteDocument (Votable k) id uid s = (s', Ok (mkResponse 200 d')) ∧
     collection (Votable k) s' !! id = Some d' ∧
     users s' !! uid = Some u' ∧
     users s' !! Document.creator d = Some c' ∧
     downvotedDocs k u' = pull (downvotedDocs k u) id ∧
     (id ∉ downvotedDocs k u') ∧
     upvotedDocs k u' = upvotedDocs k u ++ [id] ∧
     id ∈ upvotedDocs k u' ∧
     Document.downvotes d' = Document.downvotes d - 1 ∧
     Document.upvotes d' = Document.upvotes d + 1 ∧
     User.karma c' = User.karma c + 2) ∧
  (id ∈ upvotedDocs k u → id ∉ downvotedDocs k u →
   ∃ s' d' u' c',
     downvoteDocument (Votable k) id uid s = (s', Ok (mkResponse 200 d')) ∧
     collection (Votable k) s' !! id = Some d' ∧
     users s' !! uid = Some u' ∧
     users s' !! Document.creator d = Some c' ∧
     upvotedDocs k u' = pull (upvotedDocs k u) id ∧
     (id ∉ upvotedDocs k u') ∧
     downvotedDocs k u' = downvotedDocs k u ++ [id] ∧
     id ∈ downvotedDocs k u' ∧
     Document.upvotes d' = Document.upvotes d - 1 ∧
     Document.downvotes d' = Document.downvotes d + 1 ∧
     User.karma c' = User.karma c - 2).
Proof.
  intros Hd Hu Hc. split; intros Hin Hnotin.
  - pose proof (upvoteDocument_switch k id uid s d u Hd Hu c Hc Hnotin Hin) as E.
    simpl in E.
    edestruct (after_vote_user (Votable k) id uid (Document.creator d))
      as (u2 & Hu2 & Hsets & _); [exact Hu|].
    edestruct (after_vote_creator (Votable k) id uid (Document.creator d))
      as (c2 & Hc2 & Hk2); [exact Hc|].
    eexists _, _, u2, c2. split; [exact E|].
    split; [by eapply after_vote_document|].
    split; [exact Hu2|]. split; [exact Hc2|].
    destruct (Hsets k) as [Hup Hdown]. rewrite Hup, Hdown, Hk2.
    autorewrite with store. simpl.
    repeat split; try done.
    + apply not_elem_of_pull.
    + rewrite elem_of_app, list_elem_of_singleton. by right.
    + lia.
  - pose proof (downvoteDocument_switch k id uid s d u Hd Hu c Hc Hnotin Hin) as E.
    simpl in E.
    edestruct (after_vote_user (Votable k) id uid (Document.creator d))
      as (u2 & Hu2 & Hsets & _); [exact Hu|].
    edestruct (after_vote_creator (Votable k) id uid (Document.creator d))
      as (c2 & Hc2 & Hk2); [exact Hc|].
    eexists _, _, u2, c2. split; [exact E|].
    split; [by eapply after_vote_document|].
    split; [exact Hu2|]. split; [exact Hc2|].
    destruct (Hsets k) as [Hup Hdown]. rewrite Hup, Hdown, Hk2.
    autorewrite with store. simpl.
    repeat split; try done.
    + apply not_elem_of_pull.
    + rewrite elem_of_app, list_elem_of_singleton. by right.
    + lia.
Qed.

(** ** Case analysis of a vote *)

(** Splits the hypothesis [H : handler ... s = (s', r)] along the store
    reads and the membership tests of the handler. *)
Ltac vote_split H :=
  unfold applyVote, upvoteDocument, downvoteDocument, removeUpvote,
    removeDownvote, bind, Model_findById, User_findById, userDoc_save,
    document_save, creator_save_opt, creator_save, karma_incr, karma_decr,
    json, ret, throw in H;
  simpl in H;
  repeat match type of H with
  | context [collection ?m ?s !! ?id] =>
      destruct (collection m s !! id) eqn:?; simpl in H
  | context [match ?m with Votable _ => _ | OtherModel => _ end] =>
      destruct m; simpl in H
  | context [users ?s !! ?x] =>
      destruct (users s !! x) eqn:?; simpl in H
  | context [includes ?l ?x] =>
      destruct (includes l x) eqn:?; simpl in H
  end.

Ltac includes_facts :=
  repeat match goal with
  | E : includes _ _ = true |- _ => apply includes_spec in E
  | E : includes _ _ = false |- _ => apply includes_spec_false in E
  end.

Lemma upvoteDocument_Ok_inv m id uid s s' r :
  upvoteDocument m id uid s = (s', Ok r) →
  ∃ k d u c, m = Votable k ∧ collection m s !! id = Some d ∧
    users s !! uid = Some u ∧ users s !! Document.creator d = Some c ∧
    id ∉ upvotedDocs k u.
Proof.
  intros H. vote_split H; try discriminate; includes_facts;
    eexists _, _, _, _; repeat split; eauto.
Qed.

Lemma downvoteDocument_Ok_inv m id uid s s' r :
  downvoteDocument m id uid s = (s', Ok r) →
  ∃ k d u c, m = Votable k ∧ collection m s !! id = Some d ∧
    users s !! uid = Some u ∧ users s !! Document.creator d = Some c ∧
    id ∉ downvotedDocs k u.
Proof.
  intros H. vote_split H; try discriminate; includes_facts;
    eexists _, _, _, _; repeat split; eauto.
Qed.

Lemma removeUpvote_Ok_inv m id uid s s' r :
  removeUpvote m id uid s = (s', Ok r) →
  ∃ k d u c, m = Votable k ∧ collection m s !! id = Some d ∧
    users s !! uid = Some u ∧ users s !! Document.creator d = Some c ∧
    id ∈ upvotedDocs k u.
Proof.
  intros H. vote_split H; try discriminate; includes_facts;
    eexists _, _, _, _; repeat split; eauto.
Qed.

Lemma removeDownvote_Ok_inv m id uid s s' r :
  removeDownvote m id uid s = (s', Ok r) →
  ∃ k d u c, m = Votable k ∧ collection m s !! id = Some d ∧
    users s !! uid = Some u ∧ users s !! Document.creator d = Some c ∧
    id ∈ downvotedDocs k u.
Proof.
  intros H. vote_split H; try discriminate; includes_facts;
    eexists _, _, _, _; repeat split; eauto.
Qed.

(** Two user records with the same karma and the same vote-sets are the
    same record. *)
Lemma User_eq (a b : User.t) :
  User.karma a = User.karma b →
  (∀ k, upvotedDocs k a = upvotedDocs k b ∧
        downvotedDocs k a = downvotedDocs k b) →
  a = b.
Proof.
  intros Hk Hsets. destruct (Hsets Post) as [H1 H2].
  destruct (Hsets Comment) as [H3 H4]. destruct a, b.
  unfold upvotedDocs, downvotedDocs in *. simpl in *. congruence.
Qed.

(** ** Guards *)

(** C3. An upvote by a user whose upvoted-set already holds the id
    fails with "You have already upvoted" (400) and leaves the store as
    it was; in particular this is what a second upvote meets in the
    state that a first, successful upvote produced. *)
Theorem upvote_again_fails (m : ModelName) (id uid : string) (s : Store) :
  (∃ k d u, m = Votable k ∧ collection m s !! id = Some d ∧
            users s !! uid = Some u ∧ id ∈ upvotedDocs k u) ∨
  (∃ s0 r0, upvoteDocument m id uid s0 = (s, Ok r0)) →
  upvoteDocument m id uid s =
    (s, Throw (AppError "You have already upvoted" 400)).
Proof.
  intros [(k & d & u & -> & Hd & Hu & Hin)|(s0 & r0 & H)].
  - by eapply upvoteDocument_already.
  - destruct (upvoteDocument_Ok_inv _ _ _ _ _ _ H)
      as (k & d & u & c & -> & Hd & Hu & Hc & Hup).
    assert (∃ d' u' c', s = put_karma (Document.creator d) c'
              (put_counters (Votable k) id d' (put_voteSets uid u' s0)) ∧
              Document.creator d' = Document.creator d ∧
              Document.community d' = Document.community d ∧
              id ∈ upvotedDocs k u') as (d' & u' & c' & -> & Hcr & Hco & Hin).
    { destruct (decide (id ∈ downvotedDocs k u)) as [Hdown|Hdown].
      - rewrite (upvoteDocument_switch k id uid s0 d u Hd Hu c Hc Hup Hdown) in H.
        injection H as <- _. eexists _, _, _. split; [reflexivity|].
        repeat split. autorewrite with store.
        rewrite elem_of_app, list_elem_of_singleton. by right.
      - rewrite (upvoteDocument_fresh k id uid s0 d u Hd Hu c Hc Hup Hdown) in H.
        injection H as <- _. eexists _, _, _. split; [reflexivity|].
        repeat split. autorewrite with store.
        rewrite elem_of_app, list_elem_of_singleton. by right. }
    edestruct (after_vote_user (Votable k) id uid (Document.creator d) u' c' d' s0)
      as (u2 & Hu2 & Hsets & _); [exact Hu|].
    eapply upvoteDocument_already.
    + by eapply after_vote_document.
    + exact Hu2.
    + destruct (Hsets k) as [-> _]. exact Hin.
Qed.

(** C5. Removing an upvote that is not there fails with "You have not
    upvoted" (400), removing a downvote that is not there fails with
    "You have not downvoted" (400), and neither changes the store. *)
Theorem remove_without_vote (k : Kind) (id uid : string) (s : Store)
    (d : Document.t) (u : User.t) :
  collection (Votable k) s !! id = Some d →
  users s !! uid = Some u →
  (id ∉ upvotedDocs k u →
     removeUpvote (Votable k) id uid s =
       (s, Throw (AppError "You have not upvoted" 400))) ∧
  (id ∉ downvotedDocs k u →
     removeDownvote (Votable k) id uid s =
       (s, Throw (AppError "You have not downvoted" 400))).
Proof.
  intros Hd Hu. split; intros Hnot.
  - by eapply removeUpvote_not_voted.
  - by eapply removeDownvote_not_voted.
Qed.

(** ** Round trip *)

Lemma Store_ext (a b : Store) :
  (∀ x, users a !! x = users b !! x) →
  (∀ m x, collection m a !! x = collection m b !! x) →
  communities a = communities b →
  a = b.
Proof.
  intros Hus Hcoll Hcomm.
  destruct (collection_eq a b) as (H1 & H2 & H3).
  { intros m. apply map_eq. intros x. apply Hcoll. }
  apply Store_eq; try done. by apply map_eq.
Qed.

Lemma set_upvotes_undo (d : Document.t) :
  Document.set_upvotes
    (Document.upvotes (Document.set_upvotes (Document.upvotes d + 1) d) - 1)
    (Document.set_upvotes (Document.upvotes d + 1) d) = d.
Proof. destruct d. unfold Document.set_upvotes. simpl. f_equal. lia. Qed.

(** C4. From state NONE, an upvote followed by the removal of that
    upvote succeeds twice and gives back the store it started from:
    counters, vote-sets and karma all have their earlier values. *)
Theorem upvote_removeUpvote_roundtrip (k : Kind) (id uid : string) (s : Store)
    (d : Document.t) (u c : User.t) :
  collection (Votable k) s !! id = Some d →
  users s !! uid = Some u →
  users s !! Document.creator d = Some c →
  id ∉ upvotedDocs k u →
  id ∉ downvotedDocs k u →
  ∃ s1 d1,
    upvoteDocument (Votable k) id uid s = (s1, Ok (mkResponse 200 d1)) ∧
    Document.upvotes d1 = Document.upvotes d + 1 ∧
    removeUpvote (Votable k) id uid s1 = (s, Ok (mkResponse 200 d)).
Proof.
  intros Hd Hu Hc Hup Hdown.
  pose proof (upvoteDocument_fresh k id uid s d u Hd Hu c Hc Hup Hdown) as E1.
  simpl in E1.
  pose proof (set_upvotes_undo d) as Hundo.
  set (u1 := set_upvotedDocs k (upvotedDocs k u ++ [id]) u) in *.
  set (d1 := Document.set_upvotes (Document.upvotes d + 1) d) in *.
  set (c1 := User.set_karma (User.karma c + 1) c) in *.
  set (cid := Document.creator d) in *.
  set (s1 := put_karma cid c1 (put_counters (Votable k) id d1
                (put_voteSets uid u1 s))) in *.
  exists s1, d1. split; [exact E1|]. split; [reflexivity|].
  assert (Hd1 : collection (Votable k) s1 !! id = Some d1)
    by (by eapply after_vote_document).
  destruct (after_vote_users (Votable k) id uid cid u1 c1 d1 s uid u Hu)
    as (u2 & Hu2 & Hsets2 & Hk2).
  destruct (after_vote_users (Votable k) id uid cid u1 c1 d1 s cid c Hc)
    as (c2 & Hc2 & Hsetsc2 & Hkc2).
  fold s1 in Hu2, Hc2.
  destruct (decide (uid = uid)) as [_|?]; [|done].
  destruct (decide (cid = cid)) as [_|?]; [|done].
  assert (Hin2 : id ∈ upvotedDocs k u2).
  { destruct (Hsets2 k) as [-> _]. subst u1. autorewrite with store.
    rewrite elem_of_app, list_elem_of_singleton. by right. }
  rewrite (removeUpvote_voted k id uid s1 d1 u2 Hd1 Hu2 c2 Hc2 Hin2).
  cbv zeta. rewrite Hundo. change (Document.creator d1) with cid.
  set (u3 := set_upvotedDocs k (pull (upvotedDocs k u2) id) u2).
  set (c3 := User.set_karma (User.karma c2 - 1) c2).
  assert (Hu3 : ∀ k0, upvotedDocs k0 u3 = upvotedDocs k0 u ∧
                      downvotedDocs k0 u3 = downvotedDocs k0 u).
  { intros k0. destruct (Hsets2 k0) as [Hup0 Hdown0]. subst u3 u1.
    destruct (Hsets2 k) as [Hupk _]. rewrite Hupk.
    autorewrite with store. split.
    - destruct (decide (k0 = k)) as [->|Hne].
      + autorewrite with store.
        apply (pull_push_fresh (upvotedDocs k u) id Hup).
      + rewrite upvotedDocs_set_upvotedDocs_ne by done. rewrite Hup0.
        by rewrite upvotedDocs_set_upvotedDocs_ne.
    - rewrite Hdown0. by autorewrite with store. }
  f_equal. apply Store_ext.
  - intros x. destruct (users s !! x) as [v|] eqn:Hv.
    + destruct (after_vote_users (Votable k) id uid cid u1 c1 d1 s x v Hv)
        as (v1 & Hv1 & Hsets1 & Hk1). fold s1 in Hv1.
      destruct (after_vote_users (Votable k) id uid cid u3 c3 d s1 x v1 Hv1)
        as (v3 & Hv3 & Hsets3 & Hk3).
      rewrite Hv3. f_equal. apply User_eq.
      * rewrite Hk3. destruct (decide (cid = x)) as [->|Hne].
        -- subst c3 c1. simpl. rewrite Hkc2. simpl.
           assert (c = v) by congruence. subst v. lia.
        -- done.
      * intros k0. destruct (Hsets3 k0) as [-> ->].
        destruct (decide (uid = x)) as [->|Hne].
        -- assert (u = v) by congruence. subst v. apply Hu3.
        -- apply Hsets1.
    + rewrite users_after_vote. unfold s1. rewrite users_after_vote.
      by rewrite Hv.
  - intros m x. destruct (decide ((m, x) = (Votable k, id))) as [[= -> ->]|Hne].
    + rewrite Hd. eapply after_vote_document; [exact Hd1|done..].
    + rewrite after_vote_other_document by done.
      unfold s1. by rewrite after_vote_other_document.
  - rewrite after_vote_communities. unfold s1.
    by rewrite after_vote_communities.
Qed.

(** ** Failing fast *)

(** C9. Whenever a vote handler throws an operational error, that is
    "Document not found" (404) or one of the 400 guards, the store is
    exactly what it was: the user record, the document record and the
    creator record are all untouched. *)
Theorem vote_operational_error_no_change (op : VoteOp) (m : ModelName)
    (id uid : string) (s s' : Store) (e : Error) :
  applyVote op m id uid s = (s', Throw e) →
  isOperational e = true →
  s' = s ∧
  (e = AppError "Document not found" 404 ∧ collection m s !! id = None ∨
   ∃ msg, e = AppError msg 400 ∧ is_Some (collection m s !! id)).
Proof.
  intros H Hop.
  destruct op; vote_split H; try discriminate; injection H as <- <-;
    try discriminate; (split; [reflexivity|]); eauto.
Qed.

(** ** Uniqueness of a vote *)

Section Unique.
Context (k k' : Kind) (id id' : string) (u : User.t).

Lemma unique_vote_push_up :
  id ∉ downvotedDocs k u → unique_vote k' id' u →
  unique_vote k' id' (set_upvotedDocs k (upvotedDocs k u ++ [id]) u).
Proof.
  unfold unique_vote. intros Hdown Hu [Hin1 Hin2]. apply Hu.
  rewrite downvotedDocs_set_upvotedDocs in Hin2.
  destruct (decide (k' = k)) as [->|Hne].
  - rewrite upvotedDocs_set_upvotedDocs in Hin1.
    apply elem_of_push in Hin1 as [Hin1| ->]; [done|]. by destruct Hdown.
  - by rewrite upvotedDocs_set_upvotedDocs_ne in Hin1.
Qed.

Lemma unique_vote_push_down :
  id ∉ upvotedDocs k u → unique_vote k' id' u →
  unique_vote k' id' (set_downvotedDocs k (downvotedDocs k u ++ [id]) u).
Proof.
  unfold unique_vote. intros Hup Hu [Hin1 Hin2]. apply Hu.
  rewrite upvotedDocs_set_downvotedDocs in Hin1.
  destruct (decide (k' = k)) as [->|Hne].
  - rewrite downvotedDocs_set_downvotedDocs in Hin2.
    apply elem_of_push in Hin2 as [Hin2| ->]; [done|]. by destruct Hup.
  - by rewrite downvotedDocs_set_downvotedDocs_ne in Hin2.
Qed.

Lemma unique_vote_pull_up :
  unique_vote k' id' u →
  unique_vote k' id' (set_upvotedDocs k (pull (upvotedDocs k u) id) u).
Proof.
  unfold unique_vote. intros Hu [Hin1 Hin2]. apply Hu.
  rewrite downvotedDocs_set_upvotedDocs in Hin2.
  destruct (decide (k' = k)) as [->|Hne].
  - rewrite upvotedDocs_set_upvotedDocs in Hin1.
    by apply elem_of_pull in Hin1 as [Hin1 _].
  - by rewrite upvotedDocs_set_upvotedDocs_ne in Hin1.
Qed.

Lemma unique_vote_pull_down :
  unique_vote k' id' u →
  unique_vote k' id' (set_downvotedDocs k (pull (downvotedDocs k u) id) u).
Proof.
  unfold unique_vote. intros Hu [Hin1 Hin2]. apply Hu.
  rewrite upvotedDocs_set_downvotedDocs in Hin1.
  destruct (decide (k' = k)) as [->|Hne].
  - rewrite downvotedDocs_set_downvotedDocs in Hin2.
    by apply elem_of_pull in Hin2 as [Hin2 _].
  - by rewrite downvotedDocs_set_downvotedDocs_ne in Hin2.
Qed.
End Unique.

Lemma unique_vote_switch_up k k' id id' u :
  unique_vote k' id' u →
  unique_vote k' id'
    (set_upvotedDocs k
       (upvotedDocs k (set_downvotedDocs k (pull (downvotedDocs k u) id) u)
          ++ [id])
       (set_downvotedDocs k (pull (downvotedDocs k u) id) u)).
Proof.
  intros Hu. apply unique_vote_push_up.
  - rewrite downvotedDocs_set_downvotedDocs. apply not_elem_of_pull.
  - by apply unique_vote_pull_down.
Qed.

Lemma unique_vote_switch_down k k' id id' u :
  unique_vote k' id' u →
  unique_vote k' id'
    (set_downvotedDocs k
       (downvotedDocs k (set_upvotedDocs k (pull (upvotedDocs k u) id) u)
          ++ [id])
       (set_upvotedDocs k (pull (upvotedDocs k u) id) u)).
Proof.
  intros Hu. apply unique_vote_push_down.
  - rewrite upvotedDocs_set_upvotedDocs. apply not_elem_of_pull.
  - by apply unique_vote_pull_up.
Qed.

Section UniqueStore.
Context (m : ModelName) (id uid cid : string).
Context (ud c' : User.t) (d' : Document.t) (s : Store).
Context (k' : Kind) (id' x : string) (v : User.t).
Hypothesis Hv : users s !! x = Some v.
Hypothesis Hud : x = uid → unique_vote k' id' ud.
Hypothesis Huv : unique_vote k' id' v.

Lemma unique_vote_after_user_save :
  ∃ v', users (put_counters m id d' (put_voteSets uid ud s)) !! x = Some v' ∧
        unique_vote k' id' v'.
Proof.
  autorewrite with store. destruct (decide (uid = x)) as [Heq|Hne].
  - subst x. rewrite lookup_alter_eq, Hv. simpl.
    eexists. split; [reflexivity|]. unfold unique_vote.
    autorewrite with store. by apply Hud.
  - rewrite lookup_alter_ne by done. eauto.
Qed.

Lemma unique_vote_after_saves :
  ∃ v', users (put_karma cid c'
                 (put_counters m id d' (put_voteSets uid ud s))) !! x = Some v' ∧
        unique_vote k' id' v'.
Proof.
  destruct unique_vote_after_user_save as (v1 & Hv1 & Hu1).
  rewrite users_put_karma. destruct (decide (cid = x)) as [Heq|Hne].
  - subst x. rewrite lookup_alter_eq, Hv1. simpl.
    eexists. split; [reflexivity|]. unfold unique_vote.
    by autorewrite with store.
  - rewrite lookup_alter_ne by done. eauto.
Qed.
End UniqueStore.

(** C8. Whatever a vote handler does, whether it answers or throws, a
    user whose two opposing vote-sets of some kind do not both hold a
    given document id before the call is still there after it, and the
    two sets still do not both hold that id.  This covers the acting
    user and the document voted on as well as every other pair. *)
Theorem vote_preserves_uniqueness (op : VoteOp) (m : ModelName)
    (id uid : string) (s s' : Store) (r : Result (Response Document.t))
    (k' : Kind) (uid' id' : string) (u : User.t) :
  applyVote op m id uid s = (s', r) →
  users s !! uid' = Some u →
  unique_vote k' id' u →
  ∃ u', users s' !! uid' = Some u' ∧ unique_vote k' id' u'.
Proof.
  intros H Hu Huniq.
  destruct op; vote_split H; injection H as <- <-; eauto; includes_facts;
    (first [eapply unique_vote_after_saves
           |eapply unique_vote_after_user_save];
     [exact Hu| |exact Huniq]);
    intros ->;
    match goal with
    | E : users s !! uid = Some ?t |- _ =>
        assert (u = t) by congruence; subst t
    end;
    eauto using unique_vote_push_up, unique_vote_push_down,
      unique_vote_pull_up, unique_vote_pull_down,
      unique_vote_switch_up, unique_vote_switch_down.
Qed.

(** ** Frame *)

Lemma after_vote_user_karma (m : ModelName) (id uid cid : string)
    (u' c' : User.t) (d' : Document.t) (s : Store) (u : User.t) :
  users s !! uid = Some u →
  uid ≠ cid →
  ∃ u2, users (put_karma cid c'
                 (put_counters m id d' (put_voteSets uid u' s))) !! uid = Some u2 ∧
        User.karma u2 = User.karma u.
Proof.
  intros Hu Hne.
  destruct (after_vote_user m id uid cid u' c' d' s u Hu) as (u2 & Hu2 & _ & Hk).
  rewrite decide_False in Hk by done. eauto.
Qed.

(** C10. A successful vote changes nothing but the acting user's
    record, the target document's record and the creator's record.
    The document keeps its creator and community references; the
    counter of the opposite polarity moves only when the vote switches
    sides; and when the acting user is not the creator, the acting
    user's own karma stays what it was. *)
Theorem vote_frame (op : VoteOp) (m : ModelName) (id uid : string)
    (s s' : Store) (r : Response Document.t) :
  applyVote op m id uid s = (s', Ok r) →
  ∃ d, collection m s !! id = Some d ∧
    collection m s' !! id = Some (data r) ∧
    Document.creator (data r) = Document.creator d ∧
    Document.community (data r) = Document.community d ∧
    match op with
    | Upvote => ∀ k u, m = Votable k → users s !! uid = Some u →
                  id ∉ downvotedDocs k u →
                  Document.downvotes (data r) = Document.downvotes d
    | Downvote => ∀ k u, m = Votable k → users s !! uid = Some u →
                  id ∉ upvotedDocs k u →
                  Document.upvotes (data r) = Document.upvotes d
    | RemoveUpvote => Document.downvotes (data r) = Document.downvotes d
    | RemoveDownvote => Document.upvotes (data r) = Document.upvotes d
    end ∧
    (uid ≠ Document.creator d → ∀ u, users s !! uid = Some u →
       ∃ u2, users s' !! uid = Some u2 ∧ User.karma u2 = User.karma u) ∧
    (∀ x, x ≠ uid → x ≠ Document.creator d → users s' !! x = users s !! x) ∧
    (∀ m' x, (m', x) ≠ (m, id) →
       collection m' s' !! x = collection m' s !! x) ∧
    communities s' = communities s.
Proof.
  intros H.
  destruct op; vote_split H; try discriminate; injection H as <- <-;
    includes_facts;
    match goal with
    | Hd : collection _ s !! id = Some ?d |- _ =>
        exists d; split; [reflexivity|];
        split; [by eapply after_vote_document|]
    end;
    (split; [reflexivity|]); (split; [reflexivity|]);
    (split; [|split; [|split; [|split]]]);
    try reflexivity;
    try (intros k0 u0 [= <-] [= <-] Hnot; done);
    try (intros Hne u0 [= <-]; by eapply after_vote_user_karma);
    try (intros x Hx1 Hx2; by apply after_vote_other_user);
    try (intros m' x Hne; by apply after_vote_other_document);
    apply after_vote_communities.
Qed.

(** * Concrete runs *)

(** The scenarios of the design: A upvotes D, then downvotes it. *)
Example scenario_upvote :
  upvoteDocument (Votable Post) "D" "A" store_none =
    (store_upvoted, Ok (mkResponse 200 (Document.mk "B" "C" 1 0))).
Proof. vm_compute. reflexivity. Qed.

Example scenario_then_downvote :
  downvoteDocument (Votable Post) "D" "A" store_upvoted =
    (store_downvoted, Ok (mkResponse 200 (Document.mk "B" "C" 0 1))).
Proof. vm_compute. reflexivity. Qed.

(** Voting on one's own document is allowed; both saves land on the
    same record. *)
Example scenario_self_upvote :
  upvoteDocument (Votable Post) "D" "B" store_none =
    (store_self_upvoted, Ok (mkResponse 200 (Document.mk "B" "C" 1 0))).
Proof. vm_compute. reflexivity. Qed.

(** A missing acting user or creator surfaces as a [TypeError]; with
    the creator missing, a fresh upvote has already saved the user and
    the document by then. *)
Example scenario_creator_missing :
  upvoteDocument (Votable Post) "D" "A"
    (mkStore {[ "A" := fresh_user ]} {[ "D" := Document.mk "B" "C" 0 0 ]} ∅ ∅ ∅) =
    (mkStore {[ "A" := User.mk 0 ["D"] [] [] [] ]}
             {[ "D" := Document.mk "B" "C" 1 0 ]} ∅ ∅ ∅,
     Throw TypeError).
Proof. vm_compute. reflexivity. Qed.

Example scenario_karma_48_and_50 :
  snd (createCommunity body_plain "u1" "c1"
         (mkStore {[ "u1" := User.mk 48 [] [] [] [] ]} ∅ ∅ ∅ ∅)) =
    Throw (AppError "You need at least 50 karma to create a community" 400) ∧
  snd (createCommunity body_plain "u1" "c1"
         (mkStore {[ "u1" := User.mk 50 [] [] [] [] ]} ∅ ∅ ∅ ∅)) =
    Ok (mkResponse 201 (Community.mk "rocq" "u1" ["u1"] [] 0)).
Proof. split; vm_compute; reflexivity. Qed.

(** * Instances at concrete inputs *)

(** Membership in a list of literals. *)
Ltac list_in := simpl; repeat constructor.
Ltac list_not_in :=
  simpl; unfold not; let H := fresh in
  intros H;
  repeat (apply elem_of_cons in H as [H|H]; [discriminate H|]);
  by apply elem_of_nil in H.

Lemma createCommunity_karma_49_accepted_witness :
  match_word (name body_plain) = true ∧
  moderators body_plain = None ∧
  users store_karma49 !! "u1" = Some user_49 ∧
  User.karma user_49 = 49 ∧
  createCommunity body_plain "u1" "c1" store_karma49 =
    (set_communities
       (<["c1" := Community.mk "rocq" "u1" ["u1"] [] 0]>
          (communities store_karma49)) store_karma49,
     Ok (mkResponse 201 (Community.mk "rocq" "u1" ["u1"] [] 0))).
Proof.
  split; [reflexivity|]. split; [reflexivity|]. split; [reflexivity|].
  split; [reflexivity|].
  exact (createCommunity_karma_49_accepted body_plain "u1" "c1" store_karma49
           user_49 eq_refl eq_refl eq_refl eq_refl).
Defined.

Lemma createCommunity_moderators_throws_witness :
  match_word (name body_mods) = true ∧
  karma_below_threshold (users store_karma100 !! "u1") = false ∧
  moderators body_mods = Some ["u2"] ∧
  createCommunity body_mods "u1" "c1" store_karma100 =
    (store_karma100, Throw TypeError).
Proof.
  split; [reflexivity|]. split; [reflexivity|]. split; [reflexivity|].
  exact (createCommunity_moderators_throws body_mods "u1" "c1" store_karma100
           ["u2"] eq_refl eq_refl eq_refl).
Defined.



Lemma vote_switch_witness :
  (∃ s' d' u' c',
     upvoteDocument (Votable Post) "D" "A" store_downvoted =
       (s', Ok (mkResponse 200 d')) ∧
     users s' !! "A" = Some u' ∧ users s' !! "B" = Some c' ∧
     ("D" ∉ downvotedDocs Post u') ∧ "D" ∈ upvotedDocs Post u' ∧
     Document.downvotes d' = 0 ∧ Document.upvotes d' = 1 ∧
     User.karma c' = 1) ∧
  (∃ s' d' u' c',
     downvoteDocument (Votable Post) "D" "A" store_upvoted =
       (s', Ok (mkResponse 200 d')) ∧
     users s' !! "A" = Some u' ∧ users s' !! "B" = Some c' ∧
     ("D" ∉ upvotedDocs Post u') ∧ "D" ∈ downvotedDocs Post u' ∧
     Document.upvotes d' = 0 ∧ Document.downvotes d' = 1 ∧
     User.karma c' = -1).
Proof.
  split.
  - destruct (vote_switch Post "D" "A" store_downvoted
                (Document.mk "B" "C" 0 1) (User.mk 0 [] ["D"] [] [])
                (User.mk (-1) [] [] [] []) eq_refl eq_refl eq_refl) as [H _].
    destruct H as (s' & d' & u' & c' & E & _ & Hu & Hc & _ & H1 & _ & H2
                   & H3 & H4 & H5); [list_in|list_not_in|].
    exists s', d', u', c'. repeat split; assumption.
  - destruct (vote_switch Post "D" "A" store_upvoted
                (Document.mk "B" "C" 1 0) (User.mk 0 ["D"] [] [] [])
                (User.mk 1 [] [] [] []) eq_refl eq_refl eq_refl) as [_ H].
    destruct H as (s' & d' & u' & c' & E & _ & Hu & Hc & _ & H1 & _ & H2
                   & H3 & H4 & H5); [list_in|list_not_in|].
    exists s', d', u', c'. repeat split; assumption.
Defined.

Lemma upvote_again_fails_witness :
  upvoteDocument (Votable Post) "D" "A" store_none =
    (store_upvoted, Ok (mkResponse 200 (Document.mk "B" "C" 1 0))) ∧
  "D" ∈ upvotedDocs Post (User.mk 0 ["D"] [] [] []) ∧
  upvoteDocument (Votable Post) "D" "A" store_upvoted =
    (store_upvoted, Throw (AppError "You have already upvoted" 400)).
Proof.
  assert (E : upvoteDocument (Votable Post) "D" "A" store_none =
    (store_upvoted, Ok (mkResponse 200 (Document.mk "B" "C" 1 0))))
    by (vm_compute; reflexivity).
  split; [exact E|]. split; [list_in|].
  apply upvote_again_fails. right. eexists _, _. exact E.
Defined.

Lemma upvote_removeUpvote_roundtrip_witness :
  ("D" ∉ upvotedDocs Post fresh_user) ∧
  ("D" ∉ downvotedDocs Post fresh_user) ∧
  ∃ s1 d1,
    upvoteDocument (Votable Post) "D" "A" store_none =
      (s1, Ok (mkResponse 200 d1)) ∧
    Document.upvotes d1 = 1 ∧
    removeUpvote (Votable Post) "D" "A" s1 =
      (store_none, Ok (mkResponse 200 (Document.mk "B" "C" 0 0))).
Proof.
  split; [list_not_in|]. split; [list_not_in|].
  apply (upvote_removeUpvote_roundtrip Post "D" "A" store_none
           (Document.mk "B" "C" 0 0) fresh_user fresh_user
           eq_refl eq_refl eq_refl); list_not_in.
Defined.

Lemma remove_without_vote_witness :
  removeUpvote (Votable Post) "D" "A" store_none =
    (store_none, Throw (AppError "You have not upvoted" 400)) ∧
  removeDownvote (Votable Post) "D" "A" store_none =
    (store_none, Throw (AppError "You have not downvoted" 400)).
Proof.
  destruct (remove_without_vote Post "D" "A" store_none
              (Document.mk "B" "C" 0 0) fresh_user eq_refl eq_refl) as [H1 H2].
  split; [apply H1|apply H2]; list_not_in.
Defined.

Lemma vote_preserves_uniqueness_witness :
  applyVote Downvote (Votable Post) "D" "A" store_upvoted =
    (store_downvoted, Ok (mkResponse 200 (Document.mk "B" "C" 0 1))) ∧
  users store_upvoted !! "A" = Some (User.mk 0 ["D"] [] [] []) ∧
  unique_vote Post "D" (User.mk 0 ["D"] [] [] []) ∧
  ∃ u', users store_downvoted !! "A" = Some u' ∧ unique_vote Post "D" u'.
Proof.
  assert (E : applyVote Downvote (Votable Post) "D" "A" store_upvoted =
    (store_downvoted, Ok (mkResponse 200 (Document.mk "B" "C" 0 1))))
    by (vm_compute; reflexivity).
  assert (Hu : unique_vote Post "D" (User.mk 0 ["D"] [] [] [])).
  { intros [_ H]. by apply elem_of_nil in H. }
  split; [exact E|]. split; [reflexivity|]. split; [exact Hu|].
  exact (vote_preserves_uniqueness Downvote (Votable Post) "D" "A"
           store_upvoted store_downvoted
           (Ok (mkResponse 200 (Document.mk "B" "C" 0 1)))
           Post "A" "D" (User.mk 0 ["D"] [] [] []) E eq_refl Hu).
Defined.

Lemma vote_operational_error_no_change_witness :
  applyVote RemoveUpvote (Votable Post) "D" "A" store_none =
    (store_none, Throw (AppError "You have not upvoted" 400)) ∧
  isOperational (AppError "You have not upvoted" 400) = true ∧
  store_none = store_none ∧
  (AppError "You have not upvoted" 400 = AppError "Document not found" 404 ∧
     collection (Votable Post) store_none !! "D" = None ∨
   ∃ msg, AppError "You have not upvoted" 400 = AppError msg 400 ∧
          is_Some (collection (Votable Post) store_none !! "D")).
Proof.
  assert (E : applyVote RemoveUpvote (Votable Post) "D" "A" store_none =
    (store_none, Throw (AppError "You have not upvoted" 400)))
    by (vm_compute; reflexivity).
  split; [exact E|]. split; [reflexivity|].
  exact (vote_operational_error_no_change RemoveUpvote (Votable Post) "D" "A"
           store_none store_none (AppError "You have not upvoted" 400)
           E eq_refl).
Defined.

Lemma vote_frame_witness :
  applyVote Upvote (Votable Post) "D" "A" store_none =
    (store_upvoted, Ok (mkResponse 200 (Document.mk "B" "C" 1 0))) ∧
  ∃ d, collection (Votable Post) store_none !! "D" = Some d ∧
    collection (Votable Post) store_upvoted !! "D" =
      Some (Document.mk "B" "C" 1 0) ∧
    Document.creator (Document.mk "B" "C" 1 0) = Document.creator d ∧
    "A" ≠ Document.creator d ∧
    (∃ u2, users store_upvoted !! "A" = Some u2 ∧ User.karma u2 = 0) ∧
    communities store_upvoted = communities store_none.
Proof.
  assert (E : applyVote Upvote (Votable Post) "D" "A" store_none =
    (store_upvoted, Ok (mkResponse 200 (Document.mk "B" "C" 1 0))))
    by (vm_compute; reflexivity).
  split; [exact E|].
  destruct (vote_frame Upvote (Votable Post) "D" "A" store_none store_upvoted
              (mkResponse 200 (Document.mk "B" "C" 1 0)) E)
    as (d & Hd & Hd' & Hcr & _ & _ & Hk & _ & _ & Hcomm).
  exists d. split; [exact Hd|]. split; [exact Hd'|]. split; [exact Hcr|].
  assert (Hne : "A" ≠ Document.creator d).
  { assert (d = Document.mk "B" "C" 0 0) as -> by
      (apply (inj Some); rewrite <- Hd; reflexivity).
    discriminate. }
  split; [exact Hne|]. split; [|exact Hcomm].
  apply (Hk Hne fresh_user). reflexivity.
Defined.

(** * Further properties of the vote handlers *)

(** ** Saves on top of saves *)

Lemma Document_eq (a b : Document.t) :
  Document.creator a = Document.creator b →
  Document.community a = Document.community b →
  Document.upvotes a = Document.upvotes b →
  Document.downvotes a = Document.downvotes b →
  a = b.
Proof. destruct a, b. simpl. by intros -> -> -> ->. Qed.

(** A second round of saves overrides the first: only its vote-sets,
    its counters and its karma are left in the store. *)
Lemma saves_override (m : ModelName) (id uid cid : string)
    (uA uB uB' cA cB cB' : User.t) (dA dB dB' : Document.t) (s : Store) :
  (∀ k, upvotedDocs k uB = upvotedDocs k uB' ∧
        downvotedDocs k uB = downvotedDocs k uB') →
  User.karma cB = User.karma cB' →
  Document.upvotes dB = Document.upvotes dB' →
  Document.downvotes dB = Document.downvotes dB' →
  put_karma cid cB (put_counters m id dB (put_voteSets uid uB
    (put_karma cid cA (put_counters m id dA (put_voteSets uid uA s))))) =
  put_karma cid cB' (put_counters m id dB' (put_voteSets uid uB' s)).
Proof.
  intros Hsets Hk Hup Hdown. apply Store_ext.
  - intros x. rewrite !users_after_vote.
    destruct (users s !! x) as [v|]; simpl; [|done]. f_equal.
    apply User_eq.
    + destruct (decide (cid = x)), (decide (uid = x)); simpl; congruence.
    + intros k. destruct (Hsets k) as [H1 H2].
      destruct (decide (cid = x)), (decide (uid = x));
        autorewrite with store; done.
  - intros m' x. destruct (decide ((m', x) = (m, id))) as [[= -> ->]|Hne].
    + autorewrite with store. rewrite !lookup_alter_eq.
      destruct (collection m s !! id) as [d|]; simpl; [|done]. f_equal.
      by apply Document_eq.
    + by rewrite !after_vote_other_document.
  - by rewrite !after_vote_communities.
Qed.

(** Saving what is stored changes nothing. *)
Lemma saves_id (m : ModelName) (id uid cid : string)
    (u' c' c : User.t) (d' d : Document.t) (s : Store) :
  collection m s !! id = Some d →
  users s !! cid = Some c →
  (∀ u, users s !! uid = Some u →
     ∀ k, upvotedDocs k u' = upvotedDocs k u ∧
          downvotedDocs k u' = downvotedDocs k u) →
  User.karma c' = User.karma c →
  Document.upvotes d' = Document.upvotes d →
  Document.downvotes d' = Document.downvotes d →
  put_karma cid c' (put_counters m id d' (put_voteSets uid u' s)) = s.
Proof.
  intros Hd Hc Hsets Hk Hup Hdown. apply Store_ext.
  - intros x. rewrite users_after_vote.
    destruct (users s !! x) as [v|] eqn:Hv; simpl; [|done]. f_equal.
    apply User_eq.
    + destruct (decide (cid = x)) as [->|]; [|by destruct (decide (uid = x))].
      assert (c = v) by congruence. subst v.
      by destruct (decide (uid = x)).
    + intros k. destruct (decide (uid = x)) as [->|].
      * destruct (Hsets v Hv k) as [H1 H2].
        destruct (decide (cid = x)); by autorewrite with store.
      * destruct (decide (cid = x)); by autorewrite with store.
  - intros m' x. destruct (decide ((m', x) = (m, id))) as [[= -> ->]|Hne].
    + autorewrite with store. rewrite lookup_alter_eq, Hd. simpl. f_equal.
      by apply Document_eq.
    + by rewrite after_vote_other_document.
  - by rewrite after_vote_communities.
Qed.

(** What can be read back after the three saves of a vote. *)
Lemma after_vote_observe (m : ModelName) (id uid : string)
    (d d' : Document.t) (u u' c c' : User.t) (s : Store) :
  collection m s !! id = Some d →
  users s !! uid = Some u →
  users s !! Document.creator d = Some c →
  Document.creator d' = Document.creator d →
  Document.community d' = Document.community d →
  ∃ u2 c2,
    collection m (put_karma (Document.creator d) c'
      (put_counters m id d' (put_voteSets uid u' s))) !! id = Some d' ∧
    users (put_karma (Document.creator d) c'
      (put_counters m id d' (put_voteSets uid u' s))) !! uid = Some u2 ∧
    users (put_karma (Document.creator d) c'
      (put_counters m id d' (put_voteSets uid u' s))) !! Document.creator d
      = Some c2 ∧
    (∀ k, upvotedDocs k u2 = upvotedDocs k u' ∧
          downvotedDocs k u2 = downvotedDocs k u') ∧
    User.karma c2 = User.karma c'.
Proof.
  intros Hd Hu Hc Hcr Hco.
  destruct (after_vote_user m id uid (Document.creator d) u' c' d' s u Hu)
    as (u2 & Hu2 & Hsets & _).
  destruct (after_vote_creator m id uid (Document.creator d) u' c' d' s c Hc)
    as (c2 & Hc2 & Hk).
  exists u2, c2. split; [by eapply after_vote_document|]. done.
Qed.

(** ** First votes and removals *)

(** X1. From state NONE an upvote appends the id to the upvoted-set,
    adds 1 to [upvotes] and 1 to the creator's karma, and a downvote
    appends it to the downvoted-set, adds 1 to [downvotes] and takes 1
    from the karma; the opposite set and counter stay as they were. *)
Theorem vote_fresh (k : Kind) (id uid : string) (s : Store)
    (d : Document.t) (u c : User.t) :
  collection (Votable k) s !! id = Some d →
  users s !! uid = Some u →
  users s !! Document.creator d = Some c →
  id ∉ upvotedDocs k u →
  id ∉ downvotedDocs k u →
  (∃ s' d' u' c',
     upvoteDocument (Votable k) id uid s = (s', Ok (mkResponse 200 d')) ∧
     collection (Votable k) s' !! id = Some d' ∧
     users s' !! uid = Some u' ∧
     users s' !! Document.creator d = Some c' ∧
     upvotedDocs k u' = upvotedDocs k u ++ [id] ∧
     downvotedDocs k u' = downvotedDocs k u ∧
     Document.upvotes d' = Document.upvotes d + 1 ∧
     Document.downvotes d' = Document.downvotes d ∧
     User.karma c' = User.karma c + 1) ∧
  (∃ s' d' u' c',
     downvoteDocument (Votable k) id uid s = (s', Ok (mkResponse 200 d')) ∧
     collection (Votable k) s' !! id = Some d' ∧
     users s' !! uid = Some u' ∧
     users s' !! Document.creator d = Some c' ∧
     downvotedDocs k u' = downvotedDocs k u ++ [id] ∧
     upvotedDocs k u' = upvotedDocs k u ∧
     Document.downvotes d' = Document.downvotes d + 1 ∧
     Document.upvotes d' = Document.upvotes d ∧
     User.karma c' = User.karma c - 1).
Proof.
  intros Hd Hu Hc Hup Hdown. split.
  - rewrite (upvoteDocument_fresh k id uid s d u Hd Hu c Hc Hup Hdown).
    cbv zeta.
    edestruct (after_vote_observe (Votable k) id uid d) as
      (u2 & c2 & H1 & H2 & H3 & Hsets & Hk);
      [exact Hd|exact Hu|exact Hc| | |].
    3:{ eexists _, _, u2, c2. split; [reflexivity|].
        split; [exact H1|]. split; [exact H2|]. split; [exact H3|].
        destruct (Hsets k) as [-> ->]. rewrite Hk.
        autorewrite with store. done. }
    all: reflexivity.
  - rewrite (downvoteDocument_fresh k id uid s d u Hd Hu c Hc Hdown Hup).
    cbv zeta.
    edestruct (after_vote_observe (Votable k) id uid d) as
      (u2 & c2 & H1 & H2 & H3 & Hsets & Hk);
      [exact Hd|exact Hu|exact Hc| | |].
    3:{ eexists _, _, u2, c2. split; [reflexivity|].
        split; [exact H1|]. split; [exact H2|]. split; [exact H3|].
        destruct (Hsets k) as [-> ->]. rewrite Hk.
        autorewrite with store. done. }
    all: reflexivity.
Qed.

(** X2. Removing an upvote that is there pulls the id out of the
    upvoted-set, takes 1 from [upvotes] and 1 from the creator's karma;
    removing a downvote that is there pulls the id out of the
    downvoted-set, takes 1 from [downvotes] and gives 1 karma back.  The
    opposite set and counter stay as they were. *)
Theorem vote_remove (k : Kind) (id uid : string) (s : Store)
    (d : Document.t) (u c : User.t) :
  collection (Votable k) s !! id = Some d →
  users s !! uid = Some u →
  users s !! Document.creator d = Some c →
  (id ∈ upvotedDocs k u →
   ∃ s' d' u' c',
     removeUpvote (Votable k) id uid s = (s', Ok (mkResponse 200 d')) ∧
     collection (Votable k) s' !! id = Some d' ∧
     users s' !! uid = Some u' ∧
     users s' !! Document.creator d = Some c' ∧
     upvotedDocs k u' = pull (upvotedDocs k u) id ∧
     (id ∉ upvotedDocs k u') ∧
     downvotedDocs k u' = downvotedDocs k u ∧
     Document.upvotes d' = Document.upvotes d - 1 ∧
     Document.downvotes d' = Document.downvotes d ∧
     User.karma c' = User.karma c - 1) ∧
  (id ∈ downvotedDocs k u →
   ∃ s' d' u' c',
     removeDownvote (Votable k) id uid s = (s', Ok (mkResponse 200 d')) ∧
     collection (Votable k) s' !! id = Some d' ∧
     users s' !! uid = Some u' ∧
     users s' !! Document.creator d = Some c' ∧
     downvotedDocs k u' = pull (downvotedDocs k u) id ∧
     (id ∉ downvotedDocs k u') ∧
     upvotedDocs k u' = upvotedDocs k u ∧
     Document.downvotes d' = Document.downvotes d - 1 ∧
     Document.upvotes d' = Document.upvotes d ∧
     User.karma c' = User.karma c + 1).
Proof.
  intros Hd Hu Hc. split; intros Hin.
  - rewrite (removeUpvote_voted k id uid s d u Hd Hu c Hc Hin). cbv zeta.
    edestruct (after_vote_observe (Votable k) id uid d) as
      (u2 & c2 & H1 & H2 & H3 & Hsets & Hk);
      [exact Hd|exact Hu|exact Hc| | |].
    3:{ eexists _, _, u2, c2. split; [reflexivity|].
        split; [exact H1|]. split; [exact H2|]. split; [exact H3|].
        destruct (Hsets k) as [-> ->]. rewrite Hk.
        autorewrite with store.
        repeat split; try done. apply not_elem_of_pull. }
    all: reflexivity.
  - rewrite (removeDownvote_voted k id uid s d u Hd Hu c Hc Hin). cbv zeta.
    edestruct (after_vote_observe (Votable k) id uid d) as
      (u2 & c2 & H1 & H2 & H3 & Hsets & Hk);
      [exact Hd|exact Hu|exact Hc| | |].
    3:{ eexists _, _, u2, c2. split; [reflexivity|].
        split; [exact H1|]. split; [exact H2|]. split; [exact H3|].
        destruct (Hsets k) as [-> ->]. rewrite Hk.
        autorewrite with store.
        repeat split; try done. apply not_elem_of_pull. }
    all: reflexivity.
Qed.

(** ** Downvotes mirror upvotes *)

(** X3. A downvote by a user whose downvoted-set already holds the id
    fails with "You have already downvoted" (400) and leaves the store
    as it was; this is what a second downvote meets in the state that a
    first, successful downvote produced. *)
Theorem downvote_again_fails (m : ModelName) (id uid : string) (s : Store) :
  (∃ k d u, m = Votable k ∧ collection m s !! id = Some d ∧
            users s !! uid = Some u ∧ id ∈ downvotedDocs k u) ∨
  (∃ s0 r0, downvoteDocument m id uid s0 = (s, Ok r0)) →
  downvoteDocument m id uid s =
    (s, Throw (AppError "You have already downvoted" 400)).
Proof.
  intros [(k & d & u & -> & Hd & Hu & Hin)|(s0 & r0 & H)].
  - by eapply downvoteDocument_already.
  - destruct (downvoteDocument_Ok_inv _ _ _ _ _ _ H)
      as (k & d & u & c & -> & Hd & Hu & Hc & Hdown).
    assert (∃ d' u' c', s = put_karma (Document.creator d) c'
              (put_counters (Votable k) id d' (put_voteSets uid u' s0)) ∧
              Document.creator d' = Document.creator d ∧
              Document.community d' = Document.community d ∧
              id ∈ downvotedDocs k u') as (d' & u' & c' & -> & Hcr & Hco & Hin).
    { destruct (decide (id ∈ upvotedDocs k u)) as [Hup|Hup].
      - rewrite (downvoteDocument_switch k id uid s0 d u Hd Hu c Hc Hdown Hup)
          in H.
        injection H as <- _. eexists _, _, _. split; [reflexivity|].
        repeat split. autorewrite with store.
        rewrite elem_of_app, list_elem_of_singleton. by right.
      - rewrite (downvoteDocument_fresh k id uid s0 d u Hd Hu c Hc Hdown Hup)
          in H.
        injection H as <- _. eexists _, _, _. split; [reflexivity|].
        repeat split. autorewrite with store.
        rewrite elem_of_app, list_elem_of_singleton. by right. }
    edestruct (after_vote_user (Votable k) id uid (Document.creator d) u' c' d' s0)
      as (u2 & Hu2 & Hsets & _); [exact Hu|].
    eapply downvoteDocument_already.
    + by eapply after_vote_document.
    + exact Hu2.
    + destruct (Hsets k) as [_ ->]. exact Hin.
Qed.

(** X4. From state NONE, a downvote followed by the removal of that
    downvote succeeds twice and gives back the store it started from. *)
Theorem downvote_removeDownvote_roundtrip (k : Kind) (id uid : string)
    (s : Store) (d : Document.t) (u c : User.t) :
  collection (Votable k) s !! id = Some d →
  users s !! uid = Some u →
  users s !! Document.creator d = Some c →
  id ∉ upvotedDocs k u →
  id ∉ downvotedDocs k u →
  ∃ s1 d1,
    downvoteDocument (Votable k) id uid s = (s1, Ok (mkResponse 200 d1)) ∧
    Document.downvotes d1 = Document.downvotes d + 1 ∧
    removeDownvote (Votable k) id uid s1 = (s, Ok (mkResponse 200 d)).
Proof.
  intros Hd Hu Hc Hup Hdown.
  rewrite (downvoteDocument_fresh k id uid s d u Hd Hu c Hc Hdown Hup).
  cbv zeta.
  destruct (after_vote_observe (Votable k) id uid d
              (Document.set_downvotes (Document.downvotes d + 1) d)
              u (set_downvotedDocs k (downvotedDocs k u ++ [id]) u)
              c (User.set_karma (User.karma c - 1) c) s
              Hd Hu Hc eq_refl eq_refl)
    as (u2 & c2 & H1 & H2 & H3 & Hsets & Hk).
  eexists _, _. split; [reflexivity|]. split; [reflexivity|].
  assert (Hin : id ∈ downvotedDocs k u2).
  { destruct (Hsets k) as [_ ->]. autorewrite with store.
    rewrite elem_of_app, list_elem_of_singleton. by right. }
  rewrite (removeDownvote_voted k id uid _ _ u2 H1 H2 c2 H3 Hin).
  cbv zeta. f_equal.
  - change (Document.creator
              (Document.set_downvotes (Document.downvotes d + 1) d))
      with (Document.creator d).
    rewrite (saves_override _ _ _ _ _ _ u _ _ c _ _ d).
    + eapply saves_id; [exact Hd|exact Hc| |reflexivity..].
      intros u0 Hu0 k0. assert (u0 = u) by congruence. by subst u0.
    + intros k0. destruct (Hsets k0) as [Hup0 Hdown0]. split.
      * rewrite upvotedDocs_set_downvotedDocs, Hup0.
        by autorewrite with store.
      * destruct (decide (k0 = k)) as [->|Hne].
        -- rewrite downvotedDocs_set_downvotedDocs, Hdown0.
           autorewrite with store.
           apply (pull_push_fresh (downvotedDocs k u) id Hdown).
        -- rewrite downvotedDocs_set_downvotedDocs_ne by done.
           rewrite Hdown0. by rewrite downvotedDocs_set_downvotedDocs_ne.
    + simpl. rewrite Hk. simpl. lia.
    + reflexivity.
    + simpl. lia.
  - do 2 f_equal. apply Document_eq; simpl; try done. lia.
Qed.

(** ** A switch is a removal followed by a first vote *)

(** X5. An upvote from state DOWNVOTED gives the same store and the
    same answer as removing the downvote and then upvoting from state
    NONE; a downvote from state UPVOTED gives the same as removing the
    upvote and then downvoting. *)
Theorem switch_is_remove_then_vote (k : Kind) (id uid : string) (s : Store)
    (d : Document.t) (u c : User.t) :
  collection (Votable k) s !! id = Some d →
  users s !! uid = Some u →
  users s !! Document.creator d = Some c →
  (id ∈ downvotedDocs k u → id ∉ upvotedDocs k u →
   ∃ s1 d1,
     removeDownvote (Votable k) id uid s = (s1, Ok (mkResponse 200 d1)) ∧
     upvoteDocument (Votable k) id uid s1 =
       upvoteDocument (Votable k) id uid s) ∧
  (id ∈ upvotedDocs k u → id ∉ downvotedDocs k u →
   ∃ s1 d1,
     removeUpvote (Votable k) id uid s = (s1, Ok (mkResponse 200 d1)) ∧
     downvoteDocument (Votable k) id uid s1 =
       downvoteDocument (Votable k) id uid s).
Proof.
  intros Hd Hu Hc. split; intros Hin Hnot.
  - rewrite (removeDownvote_voted k id uid s d u Hd Hu c Hc Hin). cbv zeta.
    destruct (after_vote_observe (Votable k) id uid d
                (Document.set_downvotes (Document.downvotes d - 1) d)
                u (set_downvotedDocs k (pull (downvotedDocs k u) id) u)
                c (User.set_karma (User.karma c + 1) c) s
                Hd Hu Hc eq_refl eq_refl)
      as (u2 & c2 & H1 & H2 & H3 & Hsets & Hk).
    eexists _, _. split; [reflexivity|].
    assert (Hup2 : id ∉ upvotedDocs k u2).
    { destruct (Hsets k) as [-> _]. by autorewrite with store. }
    assert (Hdown2 : id ∉ downvotedDocs k u2).
    { destruct (Hsets k) as [_ ->]. autorewrite with store.
      apply not_elem_of_pull. }
    rewrite (upvoteDocument_fresh k id uid _ _ u2 H1 H2 c2 H3 Hup2 Hdown2).
    rewrite (upvoteDocument_switch k id uid s d u Hd Hu c Hc Hnot Hin).
    cbv zeta. f_equal.
    change (Document.creator
              (Document.set_downvotes (Document.downvotes d - 1) d))
      with (Document.creator d).
    apply saves_override; try reflexivity.
    + intros k0. destruct (Hsets k0) as [Hup0 Hdown0]. split.
      * destruct (decide (k0 = k)) as [->|Hne].
        -- autorewrite with store. rewrite Hup0. by autorewrite with store.
        -- rewrite !upvotedDocs_set_upvotedDocs_ne by done. by rewrite Hup0.
      * by autorewrite with store.
    + simpl. rewrite Hk. reflexivity.
  - rewrite (removeUpvote_voted k id uid s d u Hd Hu c Hc Hin). cbv zeta.
    destruct (after_vote_observe (Votable k) id uid d
                (Document.set_upvotes (Document.upvotes d - 1) d)
                u (set_upvotedDocs k (pull (upvotedDocs k u) id) u)
                c (User.set_karma (User.karma c - 1) c) s
                Hd Hu Hc eq_refl eq_refl)
      as (u2 & c2 & H1 & H2 & H3 & Hsets & Hk).
    eexists _, _. split; [reflexivity|].
    assert (Hdown2 : id ∉ downvotedDocs k u2).
    { destruct (Hsets k) as [_ ->]. by autorewrite with store. }
    assert (Hup2 : id ∉ upvotedDocs k u2).
    { destruct (Hsets k) as [-> _]. autorewrite with store.
      apply not_elem_of_pull. }
    rewrite (downvoteDocument_fresh k id uid _ _ u2 H1 H2 c2 H3 Hdown2 Hup2).
    rewrite (downvoteDocument_switch k id uid s d u Hd Hu c Hc Hnot Hin).
    cbv zeta. f_equal.
    change (Document.creator
              (Document.set_upvotes (Document.upvotes d - 1) d))
      with (Document.creator d).
    apply saves_override; try reflexivity.
    + intros k0. destruct (Hsets k0) as [Hup0 Hdown0]. split.
      * by autorewrite with store.
      * destruct (decide (k0 = k)) as [->|Hne].
        -- autorewrite with store. rewrite Hdown0. by autorewrite with store.
        -- rewrite !downvotedDocs_set_downvotedDocs_ne by done.
           by rewrite Hdown0.
    + simpl. rewrite Hk. reflexivity.
Qed.

(** ** When a vote answers, and when it throws a TypeError *)

(** X6. A vote handler answers exactly when the model is Post or
    Comment, the document, the acting user and the creator are all
    found, and the vote-set test of the handler passes: the id is not
    yet in the set for a vote, and is in the set for a removal. *)
Theorem vote_succeeds_iff (op : VoteOp) (m : ModelName) (id uid : string)
    (s : Store) :
  (∃ s' r, applyVote op m id uid s = (s', Ok r)) ↔
  (∃ k d u c, m = Votable k ∧ collection m s !! id = Some d ∧
     users s !! uid = Some u ∧ users s !! Document.creator d = Some c ∧
     match op with
     | Upvote => id ∉ upvotedDocs k u
     | Downvote => id ∉ downvotedDocs k u
     | RemoveUpvote => id ∈ upvotedDocs k u
     | RemoveDownvote => id ∈ downvotedDocs k u
     end).
Proof.
  split.
  - intros (s' & r & H). destruct op; simpl in H.
    + by eapply upvoteDocument_Ok_inv.
    + by eapply downvoteDocument_Ok_inv.
    + by eapply removeUpvote_Ok_inv.
    + by eapply removeDownvote_Ok_inv.
  - intros (k & d & u & c & -> & Hd & Hu & Hc & Hop). destruct op; simpl.
    + destruct (decide (id ∈ downvotedDocs k u)) as [Hin|Hnot].
      * rewrite (upvoteDocument_switch k id uid s d u Hd Hu c Hc Hop Hin). eauto.
      * rewrite (upvoteDocument_fresh k id uid s d u Hd Hu c Hc Hop Hnot). eauto.
    + destruct (decide (id ∈ upvotedDocs k u)) as [Hin|Hnot].
      * rewrite (downvoteDocument_switch k id uid s d u Hd Hu c Hc Hop Hin). eauto.
      * rewrite (downvoteDocument_fresh k id uid s d u Hd Hu c Hc Hop Hnot). eauto.
    + rewrite (removeUpvote_voted k id uid s d u Hd Hu c Hc Hop). eauto.
    + rewrite (removeDownvote_voted k id uid s d u Hd Hu c Hc Hop). eauto.
Qed.

(** X7. A vote handler throws a [TypeError], which is not an
    operational error, and leaves the store as it was in each of these
    cases, the document being found: the model is neither Post nor
    Comment; the acting user is not found; or the creator is not found
    and the call is a removal or a switch. *)
Theorem vote_TypeError_unchanged (m : ModelName) (id uid : string)
    (s : Store) (d : Document.t) :
  collection m s !! id = Some d →
  isOperational TypeError = false ∧
  (m = OtherModel ∨ users s !! uid = None →
     ∀ op, applyVote op m id uid s = (s, Throw TypeError)) ∧
  (∀ k u, m = Votable k → users s !! uid = Some u →
     users s !! Document.creator d = None →
     (id ∈ upvotedDocs k u →
        removeUpvote m id uid s = (s, Throw TypeError)) ∧
     (id ∈ downvotedDocs k u →
        removeDownvote m id uid s = (s, Throw TypeError)) ∧
     (id ∈ downvotedDocs k u → id ∉ upvotedDocs k u →
        upvoteDocument m id uid s = (s, Throw TypeError)) ∧
     (id ∈ upvotedDocs k u → id ∉ downvotedDocs k u →
        downvoteDocument m id uid s = (s, Throw TypeError))).
Proof.
  intros Hd. split; [reflexivity|]. split.
  - intros Hor op.
    destruct op; handler_unfold; rewrite Hd; simpl;
      destruct Hor as [-> | ->]; try reflexivity; by destruct m.
  - intros k u -> Hu Hc. repeat split; intros Hin; try intros Hnot;
      handler_unfold; rewrite Hd; simpl; rewrite Hu; simpl;
      rewrite ?(includes_true _ _ Hin), ?(includes_false _ _ Hnot); simpl;
      by rewrite Hc.
Qed.

(** X8. When the creator's record is missing, a first upvote or
    downvote still throws a [TypeError], but only after the user and
    the document were saved: the id is in the user's vote-set and the
    counter has moved, while no karma was credited.  Asking again is
    then refused as already voted. *)
Theorem vote_missing_creator_partial (k : Kind) (id uid : string)
    (s : Store) (d : Document.t) (u : User.t) :
  collection (Votable k) s !! id = Some d →
  users s !! uid = Some u →
  users s !! Document.creator d = None →
  id ∉ upvotedDocs k u →
  id ∉ downvotedDocs k u →
  (∃ s' u' d',
     upvoteDocument (Votable k) id uid s = (s', Throw TypeError) ∧
     users s' !! uid = Some u' ∧
     upvotedDocs k u' = upvotedDocs k u ++ [id] ∧
     User.karma u' = User.karma u ∧
     collection (Votable k) s' !! id = Some d' ∧
     Document.upvotes d' = Document.upvotes d + 1 ∧
     upvoteDocument (Votable k) id uid s' =
       (s', Throw (AppError "You have already upvoted" 400))) ∧
  (∃ s' u' d',
     downvoteDocument (Votable k) id uid s = (s', Throw TypeError) ∧
     users s' !! uid = Some u' ∧
     downvotedDocs k u' = downvotedDocs k u ++ [id] ∧
     User.karma u' = User.karma u ∧
     collection (Votable k) s' !! id = Some d' ∧
     Document.downvotes d' = Document.downvotes d + 1 ∧
     downvoteDocument (Votable k) id uid s' =
       (s', Throw (AppError "You have already downvoted" 400))).
Proof.
  intros Hd Hu Hc Hup Hdown. split.
  - exists (put_counters (Votable k) id
              (Document.set_upvotes (Document.upvotes d + 1) d)
              (put_voteSets uid
                 (set_upvotedDocs k (upvotedDocs k u ++ [id]) u) s)).
    eexists _, _.
    assert (Hu' : users (put_counters (Votable k) id
              (Document.set_upvotes (Document.upvotes d + 1) d)
              (put_voteSets uid
                 (set_upvotedDocs k (upvotedDocs k u ++ [id]) u) s)) !! uid =
              Some (merge_voteSets
                      (set_upvotedDocs k (upvotedDocs k u ++ [id]) u) u)).
    { autorewrite with store. by rewrite lookup_alter_eq, Hu. }
    assert (Hd' : collection (Votable k) (put_counters (Votable k) id
              (Document.set_upvotes (Document.upvotes d + 1) d)
              (put_voteSets uid
                 (set_upvotedDocs k (upvotedDocs k u ++ [id]) u) s)) !! id =
              Some (Document.set_upvotes (Document.upvotes d + 1) d)).
    { autorewrite with store. by rewrite lookup_alter_eq, Hd. }
    split.
    { handler_unfold. rewrite Hd. simpl. rewrite Hu. simpl.
      rewrite (includes_false _ _ Hup), (includes_false _ _ Hdown). simpl.
      by rewrite Hc. }
    split; [exact Hu'|]. split; [by autorewrite with store|].
    split; [reflexivity|]. split; [exact Hd'|]. split; [reflexivity|].
    eapply upvoteDocument_already; [exact Hd'|exact Hu'|].
    autorewrite with store.
    rewrite elem_of_app, list_elem_of_singleton. by right.
  - exists (put_counters (Votable k) id
              (Document.set_downvotes (Document.downvotes d + 1) d)
              (put_voteSets uid
                 (set_downvotedDocs k (downvotedDocs k u ++ [id]) u) s)).
    eexists _, _.
    assert (Hu' : users (put_counters (Votable k) id
              (Document.set_downvotes (Document.downvotes d + 1) d)
              (put_voteSets uid
                 (set_downvotedDocs k (downvotedDocs k u ++ [id]) u) s)) !! uid =
              Some (merge_voteSets
                      (set_downvotedDocs k (downvotedDocs k u ++ [id]) u) u)).
    { autorewrite with store. by rewrite lookup_alter_eq, Hu. }
    assert (Hd' : collection (Votable k) (put_counters (Votable k) id
              (Document.set_downvotes (Document.downvotes d + 1) d)
              (put_voteSets uid
                 (set_downvotedDocs k (downvotedDocs k u ++ [id]) u) s)) !! id =
              Some (Document.set_downvotes (Document.downvotes d + 1) d)).
    { autorewrite with store. by rewrite lookup_alter_eq, Hd. }
    split.
    { handler_unfold. rewrite Hd. simpl. rewrite Hu. simpl.
      rewrite (includes_false _ _ Hup), (includes_false _ _ Hdown). simpl.
      by rewrite Hc. }
    split; [exact Hu'|]. split; [by autorewrite with store|].
    split; [reflexivity|]. split; [exact Hd'|]. split; [reflexivity|].
    eapply downvoteDocument_already; [exact Hd'|exact Hu'|].
    autorewrite with store.
    rewrite elem_of_app, list_elem_of_singleton. by right.
Qed.

(** ** What a vote never does *)

Lemma dom_users_put_voteSets id ud s :
  dom (users (put_voteSets id ud s)) = dom (users s).
Proof. rewrite users_put_voteSets. apply dom_alter_L. Qed.

Lemma dom_users_put_karma id c s :
  dom (users (put_karma id c s)) = dom (users s).
Proof. rewrite users_put_karma. apply dom_alter_L. Qed.

Lemma dom_collection_put_counters m m' id d s :
  dom (collection m' (put_counters m id d s)) = dom (collection m' s).
Proof.
  destruct (decide (m = m')) as [<-|Hne].
  - rewrite collection_put_counters. apply dom_alter_L.
  - by rewrite collection_put_counters_ne.
Qed.

(** X9. A vote handler, whether it answers or throws, never creates
    and never deletes a record: the same users, the same documents of
    every model and the same communities exist afterwards. *)
Theorem vote_preserves_domains (op : VoteOp) (m : ModelName) (id uid : string)
    (s s' : Store) (r : Result (Response Document.t)) :
  applyVote op m id uid s = (s', r) →
  dom (users s') = dom (users s) ∧
  (∀ m', dom (collection m' s') = dom (collection m' s)) ∧
  communities s' = communities s.
Proof.
  intros H.
  destruct op; vote_split H; injection H as <- <-; try done;
    (split; [|split; [intros m'|]]);
    rewrite ?dom_users_put_karma, ?users_put_counters, ?dom_users_put_voteSets,
      ?collection_put_karma, ?dom_collection_put_counters,
      ?collection_put_voteSets, ?communities_put_karma,
      ?communities_put_counters, ?communities_put_voteSets; done.
Qed.

(** X10. In every vote that answers, the creator's karma moves by the
    change of [upvotes] minus the change of [downvotes]. *)
Theorem vote_karma_tracks_counters (op : VoteOp) (m : ModelName)
    (id uid : string) (s s' : Store) (r : Response Document.t) :
  applyVote op m id uid s = (s', Ok r) →
  ∃ d c c',
    collection m s !! id = Some d ∧
    users s !! Document.creator d = Some c ∧
    users s' !! Document.creator d = Some c' ∧
    User.karma c' - User.karma c =
      (Document.upvotes (data r) - Document.upvotes d) -
      (Document.downvotes (data r) - Document.downvotes d).
Proof.
  intros H.
  destruct op; vote_split H; try discriminate; injection H as <- <-;
    match goal with
    | Hc : users s !! Document.creator ?d = Some ?c
      |- context [put_karma ?cid ?c' (put_counters ?m ?id ?d'
                    (put_voteSets ?uid ?u' s))] =>
        destruct (after_vote_creator m id uid (Document.creator d)
                    u' c' d' s c Hc) as (c2 & Hc2 & Hk);
        exists d, c, c2; split; [reflexivity|]; split; [exact Hc|];
        split; [exact Hc2|]; rewrite Hk; simpl; lia
    end.
Qed.

(** ** Vote-sets without duplicates *)

Lemma NoDup_snoc_fresh (l : list string) (x : string) :
  x ∉ l → NoDup l → NoDup (l ++ [x]).
Proof.
  intros Hx Hl. apply NoDup_app. split; [done|]. split.
  - intros y Hy ->%list_elem_of_singleton. done.
  - apply NoDup_singleton.
Qed.

Lemma NoDup_pull (l : list string) (x : string) : NoDup l → NoDup (pull l x).
Proof. unfold pull. apply NoDup_filter. Qed.

Lemma length_pull (l : list string) (x : string) :
  NoDup l → x ∈ l → S (List.length (pull l x)) = List.length l.
Proof.
  unfold pull. induction 1 as [|y l Hy Hl IH]; intros Hx.
  - by apply elem_of_nil in Hx.
  - apply elem_of_cons in Hx as [->|Hx].
    + rewrite filter_cons_False by (intros H; by apply H).
      fold (pull l y). by rewrite pull_fresh.
    + rewrite filter_cons_True by (intros ->; done). simpl. by rewrite IH.
Qed.

Section SetsInvariant.
(** A property of a user record that only looks at its vote-sets. *)
Context (P : User.t → Prop).
Hypothesis P_merge : ∀ ud st, P (merge_voteSets ud st) ↔ P ud.
Hypothesis P_karma : ∀ n v, P (User.set_karma n v) ↔ P v.
Context (m : ModelName) (id uid cid : string).
Context (ud c' : User.t) (d' : Document.t) (s : Store).
Context (x : string) (v : User.t).
Hypothesis Hv : users s !! x = Some v.
Hypothesis Hud : x = uid → P ud.
Hypothesis HP : P v.

Lemma invariant_after_user_save :
  ∃ v', users (put_counters m id d' (put_voteSets uid ud s)) !! x = Some v' ∧
        P v'.
Proof.
  autorewrite with store. destruct (decide (uid = x)) as [Heq|Hne].
  - subst x. rewrite lookup_alter_eq, Hv. simpl.
    eexists. split; [reflexivity|]. apply P_merge. by apply Hud.
  - rewrite lookup_alter_ne by done. eauto.
Qed.

Lemma invariant_after_saves :
  ∃ v', users (put_karma cid c'
                 (put_counters m id d' (put_voteSets uid ud s))) !! x = Some v' ∧
        P v'.
Proof.
  destruct invariant_after_user_save as (v1 & Hv1 & HP1).
  rewrite users_put_karma. destruct (decide (cid = x)) as [Heq|Hne].
  - subst x. rewrite lookup_alter_eq, Hv1. simpl.
    eexists. split; [reflexivity|]. by apply P_karma.
  - rewrite lookup_alter_ne by done. eauto.
Qed.
End SetsInvariant.

Section NoDupSets.
Context (k k' : Kind) (id : string) (u : User.t).
Hypothesis Hu : NoDup (upvotedDocs k' u) ∧ NoDup (downvotedDocs k' u).

Lemma NoDup_sets_push_up :
  id ∉ upvotedDocs k u →
  NoDup (upvotedDocs k' (set_upvotedDocs k (upvotedDocs k u ++ [id]) u)) ∧
  NoDup (downvotedDocs k' (set_upvotedDocs k (upvotedDocs k u ++ [id]) u)).
Proof.
  intros Hnot. destruct Hu as [H1 H2].
  rewrite downvotedDocs_set_upvotedDocs. split; [|done].
  destruct (decide (k' = k)) as [->|Hne].
  - rewrite upvotedDocs_set_upvotedDocs. by apply NoDup_snoc_fresh.
  - by rewrite upvotedDocs_set_upvotedDocs_ne.
Qed.

Lemma NoDup_sets_push_down :
  id ∉ downvotedDocs k u →
  NoDup (upvotedDocs k' (set_downvotedDocs k (downvotedDocs k u ++ [id]) u)) ∧
  NoDup (downvotedDocs k' (set_downvotedDocs k (downvotedDocs k u ++ [id]) u)).
Proof.
  intros Hnot. destruct Hu as [H1 H2].
  rewrite upvotedDocs_set_downvotedDocs. split; [done|].
  destruct (decide (k' = k)) as [->|Hne].
  - rewrite downvotedDocs_set_downvotedDocs. by apply NoDup_snoc_fresh.
  - by rewrite downvotedDocs_set_downvotedDocs_ne.
Qed.

Lemma NoDup_sets_pull_up :
  NoDup (upvotedDocs k' (set_upvotedDocs k (pull (upvotedDocs k u) id) u)) ∧
  NoDup (downvotedDocs k' (set_upvotedDocs k (pull (upvotedDocs k u) id) u)).
Proof.
  destruct Hu as [H1 H2].
  rewrite downvotedDocs_set_upvotedDocs. split; [|done].
  destruct (decide (k' = k)) as [->|Hne].
  - rewrite upvotedDocs_set_upvotedDocs. by apply NoDup_pull.
  - by rewrite upvotedDocs_set_upvotedDocs_ne.
Qed.

Lemma NoDup_sets_pull_down :
  NoDup (upvotedDocs k' (set_downvotedDocs k (pull (downvotedDocs k u) id) u)) ∧
  NoDup (downvotedDocs k' (set_downvotedDocs k (pull (downvotedDocs k u) id) u)).
Proof.
  destruct Hu as [H1 H2].
  rewrite upvotedDocs_set_downvotedDocs. split; [done|].
  destruct (decide (k' = k)) as [->|Hne].
  - rewrite downvotedDocs_set_downvotedDocs. by apply NoDup_pull.
  - by rewrite downvotedDocs_set_downvotedDocs_ne.
Qed.
End NoDupSets.

Lemma NoDup_sets_switch_up k k' id u :
  NoDup (upvotedDocs k' u) ∧ NoDup (downvotedDocs k' u) →
  id ∉ upvotedDocs k u →
  NoDup (upvotedDocs k'
    (set_upvotedDocs k
       (upvotedDocs k (set_downvotedDocs k (pull (downvotedDocs k u) id) u)
          ++ [id])
       (set_downvotedDocs k (pull (downvotedDocs k u) id) u))) ∧
  NoDup (downvotedDocs k'
    (set_upvotedDocs k
       (upvotedDocs k (set_downvotedDocs k (pull (downvotedDocs k u) id) u)
          ++ [id])
       (set_downvotedDocs k (pull (downvotedDocs k u) id) u))).
Proof.
  intros Hu Hnot. apply NoDup_sets_push_up.
  - by apply NoDup_sets_pull_down.
  - by rewrite upvotedDocs_set_downvotedDocs.
Qed.

Lemma NoDup_sets_switch_down k k' id u :
  NoDup (upvotedDocs k' u) ∧ NoDup (downvotedDocs k' u) →
  id ∉ downvotedDocs k u →
  NoDup (upvotedDocs k'
    (set_downvotedDocs k
       (downvotedDocs k (set_upvotedDocs k (pull (upvotedDocs k u) id) u)
          ++ [id])
       (set_upvotedDocs k (pull (upvotedDocs k u) id) u))) ∧
  NoDup (downvotedDocs k'
    (set_downvotedDocs k
       (downvotedDocs k (set_upvotedDocs k (pull (upvotedDocs k u) id) u)
          ++ [id])
       (set_upvotedDocs k (pull (upvotedDocs k u) id) u))).
Proof.
  intros Hu Hnot. apply NoDup_sets_push_down.
  - by apply NoDup_sets_pull_up.
  - by rewrite downvotedDocs_set_upvotedDocs.
Qed.

(** X11. Whatever a vote handler does, a user whose upvoted-set and
    downvoted-set of some kind hold no id twice before the call is
    still there after it, and the two sets still hold no id twice. *)
Theorem vote_preserves_NoDup (op : VoteOp) (m : ModelName)
    (id uid : string) (s s' : Store) (r : Result (Response Document.t))
    (k' : Kind) (x : string) (u : User.t) :
  applyVote op m id uid s = (s', r) →
  users s !! x = Some u →
  NoDup (upvotedDocs k' u) →
  NoDup (downvotedDocs k' u) →
  ∃ u', users s' !! x = Some u' ∧
        NoDup (upvotedDocs k' u') ∧ NoDup (downvotedDocs k' u').
Proof.
  intros H Hu Hup Hdown.
  assert (HP : NoDup (upvotedDocs k' u) ∧ NoDup (downvotedDocs k' u)) by done.
  destruct op; vote_split H; injection H as <- <-; eauto; includes_facts;
    (first [eapply (invariant_after_saves
                      (λ v, NoDup (upvotedDocs k' v) ∧
                            NoDup (downvotedDocs k' v)))
           |eapply (invariant_after_user_save
                      (λ v, NoDup (upvotedDocs k' v) ∧
                            NoDup (downvotedDocs k' v)))];
     [intros; by autorewrite with store
     |try (intros; by autorewrite with store)
     |..]);
    try exact Hu; try exact HP;
    intros ->;
    match goal with
    | E : users s !! uid = Some ?t |- _ =>
        assert (u = t) by congruence; subst t
    end;
    eauto using NoDup_sets_push_up, NoDup_sets_push_down,
      NoDup_sets_pull_up, NoDup_sets_pull_down,
      NoDup_sets_switch_up, NoDup_sets_switch_down.
Qed.

(** X12. When the acting user's vote-sets hold no id twice, a vote
    that answers moves each counter of the document by exactly the
    change in size of the user's matching vote-set. *)
Theorem vote_counter_tracks_set_size (op : VoteOp) (k : Kind)
    (id uid : string) (s s' : Store) (r : Response Document.t) (u : User.t) :
  applyVote op (Votable k) id uid s = (s', Ok r) →
  users s !! uid = Some u →
  NoDup (upvotedDocs k u) →
  NoDup (downvotedDocs k u) →
  ∃ d u',
    collection (Votable k) s !! id = Some d ∧
    users s' !! uid = Some u' ∧
    Z.of_nat (List.length (upvotedDocs k u')) -
      Z.of_nat (List.length (upvotedDocs k u)) =
      Document.upvotes (data r) - Document.upvotes d ∧
    Z.of_nat (List.length (downvotedDocs k u')) -
      Z.of_nat (List.length (downvotedDocs k u)) =
      Document.downvotes (data r) - Document.downvotes d.
Proof.
  intros H Hu Hnup Hndown.
  assert (∃ d c, collection (Votable k) s !! id = Some d ∧
                 users s !! Document.creator d = Some c ∧
                 match op with
                 | Upvote => id ∉ upvotedDocs k u
                 | Downvote => id ∉ downvotedDocs k u
                 | RemoveUpvote => id ∈ upvotedDocs k u
                 | RemoveDownvote => id ∈ downvotedDocs k u
                 end) as (d & c & Hd & Hc & Hop).
  { destruct op; simpl in H;
      [destruct (upvoteDocument_Ok_inv _ _ _ _ _ _ H)
         as (k0 & d & u0 & c & [= <-] & Hd & Hu0 & Hc & Hop)
      |destruct (downvoteDocument_Ok_inv _ _ _ _ _ _ H)
         as (k0 & d & u0 & c & [= <-] & Hd & Hu0 & Hc & Hop)
      |destruct (removeUpvote_Ok_inv _ _ _ _ _ _ H)
         as (k0 & d & u0 & c & [= <-] & Hd & Hu0 & Hc & Hop)
      |destruct (removeDownvote_Ok_inv _ _ _ _ _ _ H)
         as (k0 & d & u0 & c & [= <-] & Hd & Hu0 & Hc & Hop)];
      assert (u0 = u) by congruence; subst u0; eauto. }
  exists d.
  assert (Hpull_up : id ∈ upvotedDocs k u →
            Z.of_nat (List.length (pull (upvotedDocs k u) id)) =
            Z.of_nat (List.length (upvotedDocs k u)) - 1).
  { intros Hin. pose proof (length_pull _ _ Hnup Hin). lia. }
  assert (Hpull_down : id ∈ downvotedDocs k u →
            Z.of_nat (List.length (pull (downvotedDocs k u) id)) =
            Z.of_nat (List.length (downvotedDocs k u)) - 1).
  { intros Hin. pose proof (length_pull _ _ Hndown Hin). lia. }
  destruct op; simpl in H.
  - destruct (decide (id ∈ downvotedDocs k u)) as [Hin|Hnot].
    + rewrite (upvoteDocument_switch k id uid s d u Hd Hu c Hc Hop Hin) in H.
      injection H as <- <-.
      edestruct (after_vote_user (Votable k) id uid) as (u2 & Hu2 & Hsets & _);
        [exact Hu|].
      exists u2. split; [done|]. split; [exact Hu2|].
      destruct (Hsets k) as [-> ->]. autorewrite with store.
      rewrite length_app, Hpull_down by done. simpl. lia.
    + rewrite (upvoteDocument_fresh k id uid s d u Hd Hu c Hc Hop Hnot) in H.
      injection H as <- <-.
      edestruct (after_vote_user (Votable k) id uid) as (u2 & Hu2 & Hsets & _);
        [exact Hu|].
      exists u2. split; [done|]. split; [exact Hu2|].
      destruct (Hsets k) as [-> ->]. autorewrite with store.
      rewrite length_app. simpl. lia.
  - destruct (decide (id ∈ upvotedDocs k u)) as [Hin|Hnot].
    + rewrite (downvoteDocument_switch k id uid s d u Hd Hu c Hc Hop Hin) in H.
      injection H as <- <-.
      edestruct (after_vote_user (Votable k) id uid) as (u2 & Hu2 & Hsets & _);
        [exact Hu|].
      exists u2. split; [done|]. split; [exact Hu2|].
      destruct (Hsets k) as [-> ->]. autorewrite with store.
      rewrite length_app, Hpull_up by done. simpl. lia.
    + rewrite (downvoteDocument_fresh k id uid s d u Hd Hu c Hc Hop Hnot) in H.
      injection H as <- <-.
      edestruct (after_vote_user (Votable k) id uid) as (u2 & Hu2 & Hsets & _);
        [exact Hu|].
      exists u2. split; [done|]. split; [exact Hu2|].
      destruct (Hsets k) as [-> ->]. autorewrite with store.
      rewrite length_app. simpl. lia.
  - rewrite (removeUpvote_voted k id uid s d u Hd Hu c Hc Hop) in H.
    injection H as <- <-.
    edestruct (after_vote_user (Votable k) id uid) as (u2 & Hu2 & Hsets & _);
      [exact Hu|].
    exists u2. split; [done|]. split; [exact Hu2|].
    destruct (Hsets k) as [-> ->]. autorewrite with store.
    rewrite Hpull_up by done. simpl. lia.
  - rewrite (removeDownvote_voted k id uid s d u Hd Hu c Hc Hop) in H.
    injection H as <- <-.
    edestruct (after_vote_user (Votable k) id uid) as (u2 & Hu2 & Hsets & _);
      [exact Hu|].
    exists u2. split; [done|]. split; [exact Hu2|].
    destruct (Hsets k) as [-> ->]. autorewrite with store.
    rewrite Hpull_down by done. simpl. lia.
Qed.

(** * Further properties of the community handlers *)

Ltac community_unfold :=
  unfold ban, unban, createDocument, deleteDocument, deleteCommunity,
    getDocument, updateCommunity, createCommunity, bind, Community_findById,
    User_findById, Model_findById, Community_findById_cast,
    User_findById_cast, community_save, community_remove,
    Model_findByIdAndDelete, Community_findByIdAndUpdate, Community_create,
    new_Set, json, ret, throw.

(** ** Ban and unban *)

Lemma ban_Ok_inv (cast : string → option string) (id actor target : string)
    (s s' : Store) (r : Response Community.t) :
  ban cast id actor target s = (s', Ok r) →
  ∃ cid tid c, cast id = Some cid ∧ cast target = Some tid ∧
    communities s !! cid = Some c ∧ is_Some (users s !! tid) ∧
    actor ∈ Community.moderators c ∧ target ≠ Community.creator c ∧
    (target ∉ Community.bannedUsers c) ∧
    s' = set_communities
           (<[cid := Community.set_bannedUsers
                       (Community.bannedUsers c ++ [tid]) c]>
              (communities s)) s ∧
    r = mkResponse 200
          (Community.set_bannedUsers (Community.bannedUsers c ++ [tid]) c).
Proof.
  community_unfold.
  destruct (cast id) as [cid|] eqn:Hid; [|discriminate].
  destruct (cast target) as [tid|] eqn:Htid; [|discriminate]. simpl.
  destruct (users s !! tid) as [u|] eqn:Hu;
    destruct (communities s !! cid) as [c|] eqn:Hc; try discriminate.
  simpl.
  destruct (includes (Community.moderators c) actor) eqn:Hm; simpl;
    [|discriminate].
  destruct (String.eqb (Community.creator c) target) eqn:Hcr; [discriminate|].
  destruct (includes (Community.bannedUsers c) target) eqn:Hb; [discriminate|].
  intros [= <- <-]. exists cid, tid, c. includes_facts.
  apply String.eqb_neq in Hcr. repeat split; done.
Qed.

Lemma unban_Ok_inv (cast : string → option string) (id actor target : string)
    (s s' : Store) (r : Response Community.t) :
  unban cast id actor target s = (s', Ok r) →
  ∃ cid tid c, cast id = Some cid ∧ cast target = Some tid ∧
    communities s !! cid = Some c ∧ is_Some (users s !! tid) ∧
    actor ∈ Community.moderators c ∧ target ∈ Community.bannedUsers c ∧
    s' = set_communities
           (<[cid := Community.set_bannedUsers
                       (filter (λ userId, userId ≠ target)
                          (Community.bannedUsers c)) c]>
              (communities s)) s ∧
    r = mkResponse 200
          (Community.set_bannedUsers
             (filter (λ userId, userId ≠ target) (Community.bannedUsers c)) c).
Proof.
  community_unfold.
  destruct (cast id) as [cid|] eqn:Hid; [|discriminate].
  destruct (cast target) as [tid|] eqn:Htid; [|discriminate]. simpl.
  destruct (users s !! tid) as [u|] eqn:Hu;
    destruct (communities s !! cid) as [c|] eqn:Hc; try discriminate.
  simpl.
  destruct (includes (Community.moderators c) actor) eqn:Hm; simpl;
    [|discriminate].
  destruct (includes (Community.bannedUsers c) target) eqn:Hb; [|discriminate].
  intros [= <- <-]. exists cid, tid, c. includes_facts.
  repeat split; done.
Qed.

(** X13. Lifting a ban looks the community and the target user up
    through the cast of the request texts: a text that is no id throws a
    [CastError], a missing user or community fails with status 404.
    When both exist it fails with status 400 and no change if the actor
    is not a moderator or if the text of the target is not in
    [bannedUsers]; otherwise every occurrence of that text is taken out
    of [bannedUsers] and the community is saved and returned with
    status 200.  Unlike a ban, lifting one has no check on the
    creator. *)
Theorem unban_outcomes (cast : string → option string)
    (id actor target : string) (s : Store) :
  (cast id = None ∨ cast target = None →
     unban cast id actor target s = (s, Throw CastError)) ∧
  (∀ cid tid, cast id = Some cid → cast target = Some tid →
     (users s !! tid = None →
        unban cast id actor target s =
          (s, Throw (AppError "User not found" 404))) ∧
     (is_Some (users s !! tid) → communities s !! cid = None →
        unban cast id actor target s =
          (s, Throw (AppError "Community not found" 404))) ∧
     (∀ c, is_Some (users s !! tid) → communities s !! cid = Some c →
        (actor ∉ Community.moderators c →
           unban cast id actor target s =
             (s, Throw (AppError "You are not a moderator of this community"
                          400))) ∧
        (actor ∈ Community.moderators c → target ∉ Community.bannedUsers c →
           unban cast id actor target s =
             (s, Throw (AppError "User is not banned from this community"
                          400))) ∧
        (actor ∈ Community.moderators c → target ∈ Community.bannedUsers c →
           ∃ c', unban cast id actor target s =
                   (set_communities (<[cid := c']> (communities s)) s,
                    Ok (mkResponse 200 c')) ∧
                 (target ∉ Community.bannedUsers c') ∧
                 (∀ x, x ≠ target →
                    (x ∈ Community.bannedUsers c' ↔
                     x ∈ Community.bannedUsers c)) ∧
                 Community.moderators c' = Community.moderators c ∧
                 Community.creator c' = Community.creator c))).
Proof.
  community_unfold. split.
  - intros [-> | Ht]; [done|].
    destruct (cast id); [|done]. by rewrite Ht.
  - intros cid tid -> ->. simpl. split; [|split].
    + intros ->. simpl. by destruct (communities s !! cid).
    + intros [u ->] ->. done.
    + intros c [u ->] ->. simpl. split; [|split].
      * intros Hm. by rewrite (includes_false _ _ Hm).
      * intros Hm Hb.
        by rewrite (includes_true _ _ Hm), (includes_false _ _ Hb).
      * intros Hm Hb. rewrite (includes_true _ _ Hm), (includes_true _ _ Hb).
        simpl. eexists. split; [reflexivity|]. simpl.
        split; [|split; [|done]].
        -- rewrite list_elem_of_filter. tauto.
        -- intros x Hx. rewrite list_elem_of_filter. tauto.
Qed.

(** X14. A ban that answers, of a target that the request names by the
    id text that [toString()] gives, is undone by lifting it: the store
    is again what it was before the ban. *)
Theorem ban_unban_roundtrip (cast : string → option string)
    (id actor target : string) (s s1 : Store) (r1 : Response Community.t) :
  cast target = Some target →
  ban cast id actor target s = (s1, Ok r1) →
  ∃ cid c, cast id = Some cid ∧ communities s !! cid = Some c ∧
       unban cast id actor target s1 = (s, Ok (mkResponse 200 c)).
Proof.
  intros Hown H.
  destruct (ban_Ok_inv _ _ _ _ _ _ _ H)
    as (cid & tid & c & Hid & Htid & Hc & [u Hu] & Hm & Hcr & Hb & -> & ->).
  assert (tid = target) by congruence. subst tid.
  exists cid, c. split; [exact Hid|]. split; [exact Hc|].
  community_unfold. rewrite Hid, Htid. simpl.
  rewrite lookup_insert_eq, Hu. simpl.
  rewrite (includes_true _ _ Hm).
  rewrite includes_true
    by (rewrite elem_of_app, list_elem_of_singleton; by right).
  simpl. fold (pull (Community.bannedUsers c ++ [target]) target).
  pose proof (pull_push_fresh (Community.bannedUsers c) target Hb) as E.
  unfold push in E. simpl in E. rewrite E.
  assert (Community.set_bannedUsers (Community.bannedUsers c)
            (Community.set_bannedUsers
               (Community.bannedUsers c ++ [target]) c) = c) as ->
    by (by destruct c).
  f_equal. unfold set_communities. simpl.
  rewrite insert_insert_eq, insert_id by done. by destruct s.
Qed.

(** X15. A ban that answers, of a target named by the id text that
    [toString()] gives, cannot be repeated, and a lifted ban cannot be
    lifted again: the second call fails with status 400 and leaves the
    store as the first call left it. *)
Theorem moderation_again_fails (cast : string → option string)
    (id actor target : string) (s s1 : Store) (r : Response Community.t) :
  (cast target = Some target →
   ban cast id actor target s = (s1, Ok r) →
   ban cast id actor target s1 =
     (s1, Throw (AppError "User is already banned from this community" 400))) ∧
  (unban cast id actor target s = (s1, Ok r) →
   unban cast id actor target s1 =
     (s1, Throw (AppError "User is not banned from this community" 400))).
Proof.
  split.
  - intros Hown H.
    destruct (ban_Ok_inv _ _ _ _ _ _ _ H)
      as (cid & tid & c & Hid & Htid & Hc & [u Hu] & Hm & Hcr & Hb & -> & ->).
    assert (tid = target) by congruence. subst tid.
    community_unfold. rewrite Hid, Htid. simpl.
    rewrite lookup_insert_eq, Hu. simpl.
    rewrite (includes_true _ _ Hm). simpl.
    apply String.eqb_neq in Hcr. rewrite String.eqb_sym, Hcr.
    by rewrite includes_true
      by (rewrite elem_of_app, list_elem_of_singleton; by right).
  - intros H.
    destruct (unban_Ok_inv _ _ _ _ _ _ _ H)
      as (cid & tid & c & Hid & Htid & Hc & [u Hu] & Hm & Hb & -> & ->).
    community_unfold. rewrite Hid, Htid. simpl.
    rewrite lookup_insert_eq, Hu. simpl.
    rewrite (includes_true _ _ Hm). simpl.
    by rewrite includes_false by (rewrite list_elem_of_filter; tauto).
Qed.

Lemma ban_Throw_unchanged (cast : string → option string)
    (id actor target : string) (s s' : Store) (e : Error) :
  ban cast id actor target s = (s', Throw e) → s' = s.
Proof.
  community_unfold.
  destruct (cast id) as [cid|]; [|by intros [= <- _]].
  destruct (cast target) as [tid|]; [|by intros [= <- _]]. simpl.
  destruct (users s !! tid), (communities s !! cid) as [c|]; simpl;
    try by intros [= <- _].
  destruct (includes (Community.moderators c) actor); simpl;
    [|by intros [= <- _]].
  destruct (String.eqb (Community.creator c) target); [by intros [= <- _]|].
  destruct (includes (Community.bannedUsers c) target); [by intros [= <- _]|].
  discriminate.
Qed.

Lemma unban_Throw_unchanged (cast : string → option string)
    (id actor target : string) (s s' : Store) (e : Error) :
  unban cast id actor target s = (s', Throw e) → s' = s.
Proof.
  community_unfold.
  destruct (cast id) as [cid|]; [|by intros [= <- _]].
  destruct (cast target) as [tid|]; [|by intros [= <- _]]. simpl.
  destruct (users s !! tid), (communities s !! cid) as [c|]; simpl;
    try by intros [= <- _].
  destruct (includes (Community.moderators c) actor); simpl;
    [|by intros [= <- _]].
  destruct (includes (Community.bannedUsers c) target); [|by intros [= <- _]].
  discriminate.
Qed.

(** X16. Whatever a ban or the lifting of a ban does, it touches
    nothing but the [bannedUsers] of the one community that the request
    names: users, documents and the other communities are as before, and
    the community is still there with its name, creator, moderators and
    subscriber count.  When the request names the target by the id text
    that [toString()] gives, a creator who was not banned is still not
    banned. *)
Theorem moderation_frame (cast : string → option string)
    (id actor target : string) (s s' : Store)
    (r : Result (Response Community.t)) :
  ban cast id actor target s = (s', r) ∨
  unban cast id actor target s = (s', r) →
  users s' = users s ∧
  (∀ m, collection m s' = collection m s) ∧
  (∀ x, cast id ≠ Some x → communities s' !! x = communities s !! x) ∧
  (∀ cid c, cast id = Some cid → communities s !! cid = Some c →
     ∃ c', communities s' !! cid = Some c' ∧
       Community.name c' = Community.name c ∧
       Community.creator c' = Community.creator c ∧
       Community.moderators c' = Community.moderators c ∧
       Community.subscribers c' = Community.subscribers c ∧
       (cast target = Some target →
        Community.creator c ∉ Community.bannedUsers c →
        Community.creator c ∉ Community.bannedUsers c')).
Proof.
  assert (Hsame :
    users s = users s ∧ (∀ m, collection m s = collection m s) ∧
    (∀ x, cast id ≠ Some x → communities s !! x = communities s !! x) ∧
    (∀ cid c, cast id = Some cid → communities s !! cid = Some c →
       ∃ c', communities s !! cid = Some c' ∧
         Community.name c' = Community.name c ∧
         Community.creator c' = Community.creator c ∧
         Community.moderators c' = Community.moderators c ∧
         Community.subscribers c' = Community.subscribers c ∧
         (cast target = Some target →
          Community.creator c ∉ Community.bannedUsers c →
          Community.creator c ∉ Community.bannedUsers c'))).
  { repeat split; try done. intros cid c _ Hc. exists c. done. }
  intros [H|H]; destruct r as [r|e].
  - destruct (ban_Ok_inv _ _ _ _ _ _ _ H)
      as (cid & tid & c & Hid & Htid & Hc & _ & _ & Hcr & _ & -> & _).
    split; [done|]. split; [by intros [[]|]|]. split.
    + intros x Hx. simpl. rewrite lookup_insert_ne; [done|]. congruence.
    + intros cid0 c0 Hid0 Hc0. assert (cid0 = cid) by congruence. subst cid0.
      assert (c0 = c) by congruence. subst c0.
      simpl. rewrite lookup_insert_eq.
      eexists. split; [reflexivity|]. simpl. repeat split.
      intros Hown Hnot. rewrite elem_of_app, list_elem_of_singleton.
      intros [Hin|Heq]; [done|]. apply Hcr. congruence.
  - by rewrite (ban_Throw_unchanged _ _ _ _ _ _ _ H).
  - destruct (unban_Ok_inv _ _ _ _ _ _ _ H)
      as (cid & tid & c & Hid & Htid & Hc & _ & _ & _ & -> & _).
    split; [done|]. split; [by intros [[]|]|]. split.
    + intros x Hx. simpl. rewrite lookup_insert_ne; [done|]. congruence.
    + intros cid0 c0 Hid0 Hc0. assert (cid0 = cid) by congruence. subst cid0.
      assert (c0 = c) by congruence. subst c0.
      simpl. rewrite lookup_insert_eq.
      eexists. split; [reflexivity|]. simpl. repeat split.
      intros _ Hnot. rewrite list_elem_of_filter. tauto.
  - by rewrite (unban_Throw_unchanged _ _ _ _ _ _ _ H).
Qed.

(** * Further properties of the document handlers *)


(** X18. A user banned by a ban that answered, and that named the user
    by the id text that [toString()] gives, cannot create a document in
    that community; once the ban is lifted the user can again. *)
Theorem ban_blocks_createDocument (cast : string → option string)
    (m : ModelName) (id actor target : string) (role : string)
    (s s1 : Store) (r1 : Response Community.t) :
  cast target = Some target →
  ban cast id actor target s = (s1, Ok r1) →
  ∃ cid, cast id = Some cid ∧
    createDocument m cid (ReqUser.mk target role) s1 =
      (s1, Throw (AppError "You are banned from this community" 403)) ∧
    (∀ actor' s2 r2, unban cast id actor' target s1 = (s2, Ok r2) →
       createDocument m cid (ReqUser.mk target role) s2 =
         (s2, Ok (mkResponse 201 None))).
Proof.
  intros Hown H.
  destruct (ban_Ok_inv _ _ _ _ _ _ _ H)
    as (cid & tid & c & Hid & Htid & Hc & [u Hu] & Hm & Hcr & Hb & -> & ->).
  assert (tid = target) by congruence. subst tid.
  exists cid. split; [exact Hid|]. split.
  - community_unfold. simpl. rewrite lookup_insert_eq. simpl.
    by rewrite includes_true
      by (rewrite elem_of_app, list_elem_of_singleton; by right).
  - intros actor' s2 r2 H2.
    destruct (unban_Ok_inv _ _ _ _ _ _ _ H2)
      as (cid2 & tid2 & c2 & Hid2 & _ & Hc2 & _ & _ & _ & -> & ->).
    assert (cid2 = cid) by congruence. subst cid2.
    community_unfold. simpl. rewrite lookup_insert_eq. simpl.
    by rewrite includes_false by (rewrite list_elem_of_filter; tauto).
Qed.

Lemma collection_set_collection m ds s :
  collection m (set_collection m ds s) = ds.
Proof. by destruct m as [[]|]. Qed.

Lemma collection_set_collection_ne m m' ds s :
  m ≠ m' → collection m' (set_collection m ds s) = collection m' s.
Proof. by destruct m as [[]|], m' as [[]|]. Qed.

Lemma users_set_collection m ds s : users (set_collection m ds s) = users s.
Proof. by destruct m as [[]|]. Qed.

Lemma communities_set_collection m ds s :
  communities (set_collection m ds s) = communities s.
Proof. by destruct m as [[]|]. Qed.


(** X20. Once a document is deleted, it is gone for every reader and
    voter: looking it up and every vote on it fail with "Document not
    found" (404).  The deletion touches nothing else: the other
    documents, the communities and the users, whose vote-sets keep the
    id of the deleted document, are as before. *)
Theorem deleteDocument_then (m : ModelName) (id : string) (user : ReqUser.t)
    (s s' : Store) (r : Response unit) :
  deleteDocument m id user s = (s', Ok r) →
  collection m s' !! id = None ∧
  (∀ m' x, (m', x) ≠ (m, id) → collection m' s' !! x = collection m' s !! x) ∧
  users s' = users s ∧
  communities s' = communities s ∧
  getDocument m id s' = (s', Throw (AppError "Document not found" 404)) ∧
  (∀ op uid, applyVote op m id uid s' =
     (s', Throw (AppError "Document not found" 404))).
Proof.
  intros H.
  assert (s' = set_collection m (delete id (collection m s)) s) as ->.
  { revert H. community_unfold. simpl.
    destruct (collection m s !! id) as [d|]; [|discriminate]. simpl.
    destruct (communities s !! Document.community d) as [c|]; [|discriminate].
    destruct (_ && _); [discriminate|]. by intros [= <- _]. }
  assert (Hnone : collection m (set_collection m (delete id (collection m s)) s)
                    !! id = None).
  { rewrite collection_set_collection. apply lookup_delete_eq. }
  split; [exact Hnone|]. split.
  { intros m' x Hne. destruct (decide (m = m')) as [<-|Hm].
    - rewrite collection_set_collection, lookup_delete_ne; [done|congruence].
    - by rewrite collection_set_collection_ne. }
  split; [apply users_set_collection|].
  split; [apply communities_set_collection|].
  split.
  - community_unfold. by rewrite Hnone.
  - intros op uid. destruct op; handler_unfold; by rewrite Hnone.
Qed.


(** X22. Deleting a community leaves its documents and every user
    where they are.  From then on nobody can delete one of those
    documents, not even its creator or an admin: the attempt throws a
    [TypeError] and changes nothing.  And the bans of the community are
    forgotten: creating a document under its id answers 201 for
    everybody. *)
Theorem deleteCommunity_then (id : string) (user : ReqUser.t)
    (s s' : Store) (r : Response unit) :
  deleteCommunity id user s = (s', Ok r) →
  communities s' !! id = None ∧
  users s' = users s ∧
  (∀ m, collection m s' = collection m s) ∧
  (∀ m x d user', collection m s !! x = Some d → Document.community d = id →
     deleteDocument m x user' s' = (s', Throw TypeError)) ∧
  (∀ m user', createDocument m id user' s' = (s', Ok (mkResponse 201 None))).
Proof.
  intros H.
  assert (s' = set_communities (delete id (communities s)) s) as ->.
  { revert H. community_unfold. simpl.
    destruct (communities s !! id) as [c|]; [|discriminate].
    destruct (_ && _); [discriminate|]. by intros [= <- _]. }
  assert (Hnone : delete id (communities s) !! id = None)
    by apply lookup_delete_eq.
  split; [exact Hnone|]. split; [done|]. split; [by intros [[]|]|]. split.
  - intros m x d user' Hd Hcomm. community_unfold.
    assert (collection m (set_communities (delete id (communities s)) s) !! x
            = Some d) as -> by (by destruct m as [[]|]).
    simpl. rewrite Hcomm. by rewrite Hnone.
  - intros m user'. community_unfold. simpl. by rewrite Hnone.
Qed.

(** ** Updating and creating a community *)

Lemma elem_of_update_mods (body : CommunityBody) (uid x : string) :
  x ∈ update_mods body uid ↔ x = uid ∨ x ∈ default [] (moderators body).
Proof.
  unfold update_mods. destruct (moderators body) as [l|]; simpl.
  - rewrite elem_of_Set_elements, elem_of_app, list_elem_of_singleton. tauto.
  - rewrite list_elem_of_singleton, elem_of_nil. tauto.
Qed.

Lemma NoDup_update_mods (body : CommunityBody) (uid : string) :
  NoDup (update_mods body uid).
Proof.
  unfold update_mods. destruct (moderators body) as [l|].
  - apply NoDup_Set_elements.
  - apply NoDup_singleton.
Qed.

Lemma cast_field_None (cast : string → option string)
    (field : option (list string)) :
  cast_field cast field = None ↔
  ∃ text, text ∈ default [] field ∧ cast text = None.
Proof.
  destruct field as [l|]; simpl.
  - rewrite <- cast_all_None. by destruct (cast_all cast l).
  - split; [discriminate|]. by intros (? & ?%elem_of_nil & _).
Qed.

(** What an update by the creator comes to, once the community is
    found. *)
Lemma updateCommunity_by_creator (cast : string → option string)
    (id : string) (body : CommunityBody) (uid : string) (s : Store)
    (cid : string) (c : Community.t) :
  cast id = Some cid → communities s !! cid = Some c →
  Community.creator c = uid →
  updateCommunity cast id body uid s =
    match cast_all cast (update_mods body uid),
          cast_field cast (bannedUsers body) with
    | Some mods, Some banned =>
      let c' := Community.mk (name body) (Community.creator c) mods
                  (default (Community.bannedUsers c) banned)
                  (Community.subscribers c) in
      (set_communities (<[cid := c']> (communities s)) s,
       Ok (mkResponse 200 (Some c')))
    | _, _ => (s, Throw CastError)
    end.
Proof.
  intros Hid Hc Hcr. community_unfold. rewrite Hid. simpl. rewrite Hc. simpl.
  rewrite (proj2 (String.eqb_eq _ _) Hcr). simpl.
  assert (E : ∀ k : list string → Store →
                    Store * Result (Response (option Community.t)),
            (let (s0, r0) := match moderators body with
                             | Some l => λ s0, (s0, Ok (Set_elements (l ++ [uid])))
                             | None => λ s0, (s0, Ok [uid])
                             end s in
             match r0 with
             | Ok a => k a s0
             | Throw e => (s0, Throw e)
             end) = k (update_mods body uid) s).
  { intros k. unfold update_mods. by destruct (moderators body). }
  rewrite E. clear E.
  destruct (cast_all cast (update_mods body uid)) as [mods|]; [|done].
  destruct (cast_field cast (bannedUsers body)) as [banned|]; [|done].
  cbn [communities set_communities].
  rewrite lookup_alter_eq, Hc. cbn [fmap option_fmap option_map].
  do 2 f_equal. f_equal.
  apply map_eq. intros x. destruct (decide (x = cid)) as [->|Hx].
  - by rewrite lookup_alter_eq, lookup_insert_eq, Hc.
  - by rewrite lookup_alter_ne, lookup_insert_ne.
Qed.

(** X23. Updating a community looks it up through the cast of the
    request text: a text that is no id throws a [CastError], a
    community that is not found fails with 404, and a caller who is not
    its creator gets status 400 with nothing changed.  For the creator,
    a moderator or banned-user text that is no id throws a [CastError]
    with nothing changed; otherwise the answer is 200 with the stored
    community: its moderators are the ids that the caller's text and
    the texts of the request cast to; creator and subscriber count are
    kept; users and the other communities are untouched.  When all
    these texts are the ones that [toString()] gives, the moderators
    are the caller and the requested moderators, each once. *)
Theorem updateCommunity_outcomes (cast : string → option string)
    (id : string) (body : CommunityBody) (uid : string) (s : Store) :
  (cast id = None →
     updateCommunity cast id body uid s = (s, Throw CastError)) ∧
  (∀ cid, cast id = Some cid →
     (communities s !! cid = None →
        updateCommunity cast id body uid s =
          (s, Throw (AppError "Community does not exist" 404))) ∧
     (∀ c, communities s !! cid = Some c →
        (Community.creator c ≠ uid →
           updateCommunity cast id body uid s =
             (s, Throw (AppError "You are not the creator of this community"
                          400))) ∧
        (Community.creator c = uid →
           ((∃ text, (text = uid ∨ text ∈ default [] (moderators body) ∨
                      text ∈ default [] (bannedUsers body)) ∧
                     cast text = None) →
              updateCommunity cast id body uid s = (s, Throw CastError)) ∧
           ((∀ text, text = uid ∨ text ∈ default [] (moderators body) ∨
                     text ∈ default [] (bannedUsers body) →
                     is_Some (cast text)) →
              ∃ s' c',
                updateCommunity cast id body uid s =
                  (s', Ok (mkResponse 200 (Some c'))) ∧
                communities s' !! cid = Some c' ∧
                Community.creator c' = Community.creator c ∧
                Community.subscribers c' = Community.subscribers c ∧
                (∀ x, x ∈ Community.moderators c' ↔
                      ∃ text, (text = uid ∨
                               text ∈ default [] (moderators body)) ∧
                              cast text = Some x) ∧
                ((∀ text, text = uid ∨ text ∈ default [] (moderators body) →
                          cast text = Some text) →
                 NoDup (Community.moderators c') ∧
                 ∀ x, x ∈ Community.moderators c' ↔
                      x = uid ∨ x ∈ default [] (moderators body)) ∧
                users s' = users s ∧
                (∀ x, x ≠ cid →
                      communities s' !! x = communities s !! x))))).
Proof.
  split.
  { intros Hid. community_unfold. by rewrite Hid. }
  intros cid Hid. split.
  { intros Hc. community_unfold. rewrite Hid. simpl. by rewrite Hc. }
  intros c Hc. split.
  { intros Hne. apply String.eqb_neq in Hne. community_unfold.
    rewrite Hid. simpl. rewrite Hc. simpl. by rewrite Hne. }
  intros Hcr. rewrite (updateCommunity_by_creator _ _ _ _ _ _ _ Hid Hc Hcr).
  split.
  - intros (text & Hin & Hnone).
    destruct (cast_all cast (update_mods body uid)) as [mods|] eqn:Hmods;
      [|done].
    destruct (cast_field cast (bannedUsers body)) as [banned|] eqn:Hbanned;
      [|done].
    exfalso. destruct Hin as [Hin|[Hin|Hin]].
    + assert (E : cast_all cast (update_mods body uid) = None).
      { apply cast_all_None. exists text. split; [|done].
        apply elem_of_update_mods. by left. }
      congruence.
    + assert (E : cast_all cast (update_mods body uid) = None).
      { apply cast_all_None. exists text. split; [|done].
        apply elem_of_update_mods. by right. }
      congruence.
    + assert (E : cast_field cast (bannedUsers body) = None).
      { apply cast_field_None. by exists text. }
      congruence.
  - intros Hall.
    destruct (cast_all cast (update_mods body uid)) as [mods|] eqn:Hmods.
    2:{ apply cast_all_None in Hmods as (text & Hin & Hnone).
        apply elem_of_update_mods in Hin.
        destruct (Hall text) as [o Ho]; [tauto|]. congruence. }
    destruct (cast_field cast (bannedUsers body)) as [banned|] eqn:Hbanned.
    2:{ apply cast_field_None in Hbanned as (text & Hin & Hnone).
        destruct (Hall text) as [o Ho]; [tauto|]. congruence. }
    eexists _, _. split; [reflexivity|].
    cbn [communities set_communities Community.creator Community.subscribers
         Community.moderators users].
    split; [by rewrite lookup_insert_eq|].
    split; [done|]. split; [done|]. split.
    { intros x. rewrite (cast_all_Some _ _ _ x Hmods). split.
      - intros (text & Hin & Hx). exists text.
        by rewrite <- elem_of_update_mods.
      - intros (text & Hin & Hx). exists text.
        by rewrite elem_of_update_mods. }
    split; [|split; [done|]].
    + intros Hown.
      assert (E : cast_all cast (update_mods body uid) =
                  Some (update_mods body uid)).
      { apply cast_all_own, Forall_forall. intros text Hin.
        apply Hown. by apply elem_of_update_mods. }
      assert (mods = update_mods body uid) by congruence. subst mods.
      split; [apply NoDup_update_mods|].
      intros x. apply elem_of_update_mods.
    + intros x Hx. by rewrite lookup_insert_ne.
Qed.


(** X25. After a vote that answered, reading the document gives back
    exactly the document of the vote's answer. *)
Theorem getDocument_after_vote (op : VoteOp) (m : ModelName) (id uid : string)
    (s s' : Store) (r : Response Document.t) :
  applyVote op m id uid s = (s', Ok r) →
  getDocument m id s' = (s', Ok (mkResponse 200 (data r))).
Proof.
  intros H.
  assert (collection m s' !! id = Some (data r)) as Hd'.
  { destruct op; vote_split H; try discriminate; injection H as <- <-;
      by eapply after_vote_document. }
  unfold getDocument, bind, Model_findById, json, ret. by rewrite Hd'.
Qed.

(** * Subscriptions *)

Ltac subscription_unfold :=
  unfold subscribe, unsubscribe, bindP, liftM, retP, throwP,
    user_subscribedCommunities, user_save_subscribed, Community_findById,
    User_findById, community_save.

Lemma subscribe_Ok_inv (id uid : string) (p p' : Platform)
    (r : Response (User.t * list string)) :
  subscribe id uid p = (p', Ok r) →
  ∃ c u, communities (store p) !! id = Some c ∧
    users (store p) !! uid = Some u ∧
    (id ∉ default [] (subscribedCommunities p !! uid)) ∧
    p' = mkPlatform
           (set_communities
              (<[id := set_subscribers (Community.subscribers c + 1) c]>
                 (communities (store p))) (store p))
           (<[uid := default [] (subscribedCommunities p !! uid) ++ [id]]>
              (subscribedCommunities p)) ∧
    r = mkResponse 200
          (u, default [] (subscribedCommunities p !! uid) ++ [id]).
Proof.
  subscription_unfold. simpl.
  destruct (communities (store p) !! id) as [c|]; [|discriminate]. simpl.
  destruct (users (store p) !! uid) as [u|]; [|discriminate]. simpl.
  destruct (includes _ id) eqn:Hin; [discriminate|]. simpl.
  intros [= <- <-]. includes_facts. by exists c, u.
Qed.

Lemma unsubscribe_Ok_inv (id uid : string) (p p' : Platform)
    (r : Response (User.t * list string)) :
  unsubscribe id uid p = (p', Ok r) →
  ∃ c u, communities (store p) !! id = Some c ∧
    users (store p) !! uid = Some u ∧
    id ∈ default [] (subscribedCommunities p !! uid) ∧
    p' = mkPlatform
           (set_communities
              (<[id := set_subscribers (Community.subscribers c - 1) c]>
                 (communities (store p))) (store p))
           (<[uid := pull (default [] (subscribedCommunities p !! uid)) id]>
              (subscribedCommunities p)) ∧
    r = mkResponse 200
          (u, pull (default [] (subscribedCommunities p !! uid)) id).
Proof.
  subscription_unfold. simpl.
  destruct (communities (store p) !! id) as [c|]; [|discriminate]. simpl.
  destruct (users (store p) !! uid) as [u|]; [|discriminate]. simpl.
  destruct (includes _ id) eqn:Hin; [|discriminate]. simpl.
  intros [= <- <-]. includes_facts. by exists c, u.
Qed.

(** X26. A subscription that answers appends the community to the
    user's subscribed list, which did not hold it, and adds 1 to the
    community's subscriber count; cancelling one that answers takes the
    community out of the list, which held it, and takes 1 from the
    count.  Both answer with the user and the new list, and leave the
    user records alone. *)
Theorem subscription_effect (id uid : string) (p p' : Platform)
    (r : Response (User.t * list string)) :
  (subscribe id uid p = (p', Ok r) →
   ∃ c c' u,
     communities (store p) !! id = Some c ∧
     communities (store p') !! id = Some c' ∧
     Community.subscribers c' = Community.subscribers c + 1 ∧
     users (store p) !! uid = Some u ∧
     (id ∉ default [] (subscribedCommunities p !! uid)) ∧
     default [] (subscribedCommunities p' !! uid) =
       default [] (subscribedCommunities p !! uid) ++ [id] ∧
     data r = (u, default [] (subscribedCommunities p' !! uid)) ∧
     users (store p') = users (store p)) ∧
  (unsubscribe id uid p = (p', Ok r) →
   ∃ c c' u,
     communities (store p) !! id = Some c ∧
     communities (store p') !! id = Some c' ∧
     Community.subscribers c' = Community.subscribers c - 1 ∧
     users (store p) !! uid = Some u ∧
     id ∈ default [] (subscribedCommunities p !! uid) ∧
     (id ∉ default [] (subscribedCommunities p' !! uid)) ∧
     (∀ x, x ≠ id →
        (x ∈ default [] (subscribedCommunities p' !! uid) ↔
         x ∈ default [] (subscribedCommunities p !! uid))) ∧
     data r = (u, default [] (subscribedCommunities p' !! uid)) ∧
     users (store p') = users (store p)).
Proof.
  split; intros H.
  - destruct (subscribe_Ok_inv _ _ _ _ _ H) as (c & u & Hc & Hu & Hnot & -> & ->).
    exists c, (set_subscribers (Community.subscribers c + 1) c), u. simpl.
    rewrite !lookup_insert_eq. simpl. done.
  - destruct (unsubscribe_Ok_inv _ _ _ _ _ H) as (c & u & Hc & Hu & Hin & -> & ->).
    exists c, (set_subscribers (Community.subscribers c - 1) c), u. simpl.
    rewrite !lookup_insert_eq. simpl. repeat split; try done.
    + apply not_elem_of_pull.
    + rewrite elem_of_pull. tauto.
    + rewrite elem_of_pull. tauto.
Qed.

(** X27. A subscription that answers is undone by cancelling it: the
    store is again what it was, the user's subscribed list is again
    what it was, and so are the lists of all other users. *)
Theorem subscribe_unsubscribe_roundtrip (id uid : string) (p p1 : Platform)
    (r1 : Response (User.t * list string)) :
  subscribe id uid p = (p1, Ok r1) →
  ∃ p2 r2,
    unsubscribe id uid p1 = (p2, Ok r2) ∧
    store p2 = store p ∧
    default [] (subscribedCommunities p2 !! uid) =
      default [] (subscribedCommunities p !! uid) ∧
    (∀ x, x ≠ uid →
       subscribedCommunities p2 !! x = subscribedCommunities p !! x).
Proof.
  intros H.
  destruct (subscribe_Ok_inv _ _ _ _ _ H) as (c & u & Hc & Hu & Hnot & -> & ->).
  subscription_unfold. simpl. rewrite lookup_insert_eq. simpl.
  rewrite Hu. simpl. rewrite lookup_insert_eq. simpl.
  rewrite includes_true
    by (rewrite elem_of_app, list_elem_of_singleton; by right).
  simpl. eexists _, _. split; [reflexivity|]. simpl.
  pose proof (pull_push_fresh _ id Hnot) as E. unfold push in E. simpl in E.
  split; [|split].
  - unfold set_communities. simpl.
    assert (set_subscribers (Community.subscribers c + 1 - 1)
              (set_subscribers (Community.subscribers c + 1) c) = c) as ->.
    { destruct c. unfold set_subscribers. simpl. f_equal. lia. }
    rewrite insert_insert_eq, insert_id by done. by destruct (store p).
  - by rewrite lookup_insert_eq.
  - intros x Hx. by rewrite !lookup_insert_ne.
Qed.

(** X28. A subscription that answers cannot be repeated and a
    cancelled subscription cannot be cancelled again: the second call
    fails with status 400 and changes nothing. *)
Theorem subscription_again_fails (id uid : string) (p p1 : Platform)
    (r : Response (User.t * list string)) :
  (subscribe id uid p = (p1, Ok r) →
   subscribe id uid p1 =
     (p1, Throw (AppError "User is already subscribed to this community" 400))) ∧
  (unsubscribe id uid p = (p1, Ok r) →
   unsubscribe id uid p1 =
     (p1, Throw (AppError "User not subscribed to this community" 400))).
Proof.
  split; intros H.
  - destruct (subscribe_Ok_inv _ _ _ _ _ H) as (c & u & Hc & Hu & Hnot & -> & ->).
    subscription_unfold. simpl. rewrite lookup_insert_eq. simpl.
  rewrite Hu. simpl. rewrite lookup_insert_eq. simpl.
    by rewrite includes_true
      by (rewrite elem_of_app, list_elem_of_singleton; by right).
  - destruct (unsubscribe_Ok_inv _ _ _ _ _ H) as (c & u & Hc & Hu & Hin & -> & ->).
    subscription_unfold. simpl. rewrite lookup_insert_eq. simpl.
  rewrite Hu. simpl. rewrite lookup_insert_eq. simpl.
    by rewrite includes_false by apply not_elem_of_pull.
Qed.

(** * The status of an AppError *)

(** X29. Among the HTTP status codes 100 to 599, an [AppError] gets
    the status "fail" exactly for the codes 400 to 499, and "error" for
    all others. *)
Theorem AppError_status_http (statusCode : Z) :
  (100 ≤ statusCode ≤ 599)%Z →
  (AppError_status statusCode = "fail" ↔ (400 ≤ statusCode ≤ 499)%Z) ∧
  (AppError_status statusCode = "error" ↔
     ¬ (400 ≤ statusCode ≤ 499)%Z).
Proof.
  intros Hrange.
  assert (H : Forall (λ n, bool_decide (AppError_status n = "fail") =
                           bool_decide (400 ≤ n ≤ 499)%Z ∧
                           bool_decide (AppError_status n = "error") =
                           negb (bool_decide (400 ≤ n ≤ 499)%Z))
                (seqZ 100 500)).
  { apply (bool_decide_unpack _). vm_compute. reflexivity. }
  rewrite Forall_forall in H.
  destruct (H statusCode) as [H1 H2]; [apply elem_of_seqZ; lia|].
  destruct (decide (400 ≤ statusCode ≤ 499)%Z) as [Hin|Hout].
  - rewrite (bool_decide_eq_true_2 _ Hin) in H1, H2. simpl in H2.
    apply bool_decide_eq_true_1 in H1. apply bool_decide_eq_false_1 in H2.
    split; split; try done.
  - rewrite (bool_decide_eq_false_2 _ Hout) in H1, H2. simpl in H2.
    apply bool_decide_eq_false_1 in H1. apply bool_decide_eq_true_1 in H2.
    split; split; try done.
Qed.

Ltac throw_cases H :=
  repeat (first
    [ discriminate H
    | match type of H with
      | context [match moderators ?b with _ => _ end] =>
          destruct (moderators b); simpl in H
      | context [match ?x with _ => _ end] => destruct x eqn:?; simpl in H
      end ]);
  try (injection H as _ _ <-); reflexivity.

(** X30. Every [AppError] that a handler throws carries a status code
    whose status is "fail": none of them is reported as "error". *)
Theorem handler_errors_fail (msg : string) (code : Z) :
  (∀ op m id uid s s',
     applyVote op m id uid s = (s', Throw (AppError msg code)) →
     AppError_status code = "fail") ∧
  (∀ m id s s',
     getDocument m id s = (s', Throw (AppError msg code)) →
     AppError_status code = "fail") ∧
  (∀ m community user s s',
     createDocument m community user s = (s', Throw (AppError msg code)) →
     AppError_status code = "fail") ∧
  (∀ m id user s s',
     deleteDocument m id user s = (s', Throw (AppError msg code)) →
     AppError_status code = "fail") ∧
  (∀ body uid newId s s',
     createCommunity body uid newId s = (s', Throw (AppError msg code)) →
     AppError_status code = "fail") ∧
  (∀ cast id body uid s s',
     updateCommunity cast id body uid s = (s', Throw (AppError msg code)) →
     AppError_status code = "fail") ∧
  (∀ id user s s',
     deleteCommunity id user s = (s', Throw (AppError msg code)) →
     AppError_status code = "fail") ∧
  (∀ cast id actor target s s',
     ban cast id actor target s = (s', Throw (AppError msg code)) →
     AppError_status code = "fail") ∧
  (∀ cast id actor target s s',
     unban cast id actor target s = (s', Throw (AppError msg code)) →
     AppError_status code = "fail") ∧
  (∀ id uid p p',
     subscribe id uid p = (p', Throw (AppError msg code)) →
     AppError_status code = "fail") ∧
  (∀ id uid p p',
     unsubscribe id uid p = (p', Throw (AppError msg code)) →
     AppError_status code = "fail").
Proof.
  repeat split.
  - intros op m id uid s s' H.
    destruct op; vote_split H; try discriminate;
      injection H as _ _ <-; reflexivity.
  - intros m id s s' H. revert H. community_unfold. simpl. intros H.
    throw_cases H.
  - intros m community user s s' H. revert H. community_unfold.
    unfold banned_in. simpl. intros H. throw_cases H.
  - intros m id user s s' H. revert H. community_unfold. simpl. intros H.
    throw_cases H.
  - intros body uid newId s s'. community_unfold.
    unfold karma_below_threshold. simpl.
    destruct (match_word (name body)); simpl;
      [|intros [= _ _ <-]; reflexivity].
    destruct (users s !! uid) as [u|]; simpl;
      [destruct (User.karma u <? 49)%Z; [intros [= _ _ <-]; reflexivity|]|];
      destruct (moderators body); simpl; discriminate.
  - intros cast id body uid s s'. community_unfold.
    destruct (cast id) as [cid|]; [|discriminate]. simpl.
    destruct (communities s !! cid) as [c|]; simpl;
      [|intros [= _ _ <-]; reflexivity].
    destruct (negb _); [intros [= _ _ <-]; reflexivity|].
    destruct (moderators body) as [l|]; simpl.
    + destruct (cast_all cast _); [|discriminate].
      destruct (cast_field cast _); discriminate.
    + destruct (cast uid); [|discriminate].
      destruct (cast_field cast _); discriminate.
  - intros id user s s' H. revert H. community_unfold. simpl. intros H.
    throw_cases H.
  - intros cast id actor target s s'. community_unfold.
    destruct (cast id) as [cid|]; [|discriminate].
    destruct (cast target) as [tid|]; [|discriminate]. simpl.
    destruct (users s !! tid), (communities s !! cid) as [c|]; simpl;
      try (intros [= _ _ <-]; reflexivity).
    destruct (includes (Community.moderators c) actor); simpl;
      [|intros [= _ _ <-]; reflexivity].
    destruct (String.eqb _ _); [intros [= _ _ <-]; reflexivity|].
    destruct (includes _ _); [intros [= _ _ <-]; reflexivity|discriminate].
  - intros cast id actor target s s'. community_unfold.
    destruct (cast id) as [cid|]; [|discriminate].
    destruct (cast target) as [tid|]; [|discriminate]. simpl.
    destruct (users s !! tid), (communities s !! cid) as [c|]; simpl;
      try (intros [= _ _ <-]; reflexivity).
    destruct (includes (Community.moderators c) actor); simpl;
      [|intros [= _ _ <-]; reflexivity].
    destruct (includes _ _); [discriminate|intros [= _ _ <-]; reflexivity].
  - intros id uid p p' H. revert H. subscription_unfold. simpl. intros H.
    throw_cases H.
  - intros id uid p p' H. revert H. subscription_unfold. simpl. intros H.
    throw_cases H.
Qed.

(** * Further instances at concrete inputs *)

Lemma vote_fresh_witness :
  ("D" ∉ upvotedDocs Post fresh_user) ∧
  ("D" ∉ downvotedDocs Post fresh_user) ∧
  (∃ s' d' c', upvoteDocument (Votable Post) "D" "A" store_none =
                 (s', Ok (mkResponse 200 d')) ∧
               users s' !! "B" = Some c' ∧
               Document.upvotes d' = 1 ∧ User.karma c' = 1) ∧
  (∃ s' d' c', downvoteDocument (Votable Post) "D" "A" store_none =
                 (s', Ok (mkResponse 200 d')) ∧
               users s' !! "B" = Some c' ∧
               Document.downvotes d' = 1 ∧ User.karma c' = -1).
Proof.
  assert (H1 : "D" ∉ upvotedDocs Post fresh_user) by list_not_in.
  assert (H2 : "D" ∉ downvotedDocs Post fresh_user) by list_not_in.
  split; [exact H1|]. split; [exact H2|].
  destruct (vote_fresh Post "D" "A" store_none (Document.mk "B" "C" 0 0)
              fresh_user fresh_user eq_refl eq_refl eq_refl H1 H2)
    as [(s1 & d1 & u1 & c1 & E1 & _ & _ & Hc1 & _ & _ & Hup1 & _ & Hk1)
        (s2 & d2 & u2 & c2 & E2 & _ & _ & Hc2 & _ & _ & Hdn2 & _ & Hk2)].
  split; [exists s1, d1, c1|exists s2, d2, c2]; repeat split; assumption.
Defined.

Lemma vote_remove_witness :
  (∃ s' d' c', removeUpvote (Votable Post) "D" "A" store_upvoted =
                 (s', Ok (mkResponse 200 d')) ∧
               users s' !! "B" = Some c' ∧
               Document.upvotes d' = 0 ∧ User.karma c' = 0) ∧
  (∃ s' d' c', removeDownvote (Votable Post) "D" "A" store_downvoted =
                 (s', Ok (mkResponse 200 d')) ∧
               users s' !! "B" = Some c' ∧
               Document.downvotes d' = 0 ∧ User.karma c' = 0).
Proof.
  split.
  - destruct (vote_remove Post "D" "A" store_upvoted (Document.mk "B" "C" 1 0)
                (User.mk 0 ["D"] [] [] []) (User.mk 1 [] [] [] [])
                eq_refl eq_refl eq_refl) as [H _].
    destruct H as (s1 & d1 & u1 & c1 & E1 & _ & _ & Hc1 & _ & _ & _ & Hup1
                   & _ & Hk1); [list_in|].
    exists s1, d1, c1. repeat split; assumption.
  - destruct (vote_remove Post "D" "A" store_downvoted
                (Document.mk "B" "C" 0 1)
                (User.mk 0 [] ["D"] [] []) (User.mk (-1) [] [] [] [])
                eq_refl eq_refl eq_refl) as [_ H].
    destruct H as (s1 & d1 & u1 & c1 & E1 & _ & _ & Hc1 & _ & _ & _ & Hdn1
                   & _ & Hk1); [list_in|].
    exists s1, d1, c1. repeat split; assumption.
Defined.

Lemma downvote_again_fails_witness :
  downvoteDocument (Votable Post) "D" "A" store_none =
    (store_downvoted, Ok (mkResponse 200 (Document.mk "B" "C" 0 1))) ∧
  downvoteDocument (Votable Post) "D" "A" store_downvoted =
    (store_downvoted, Throw (AppError "You have already downvoted" 400)).
Proof.
  assert (E : downvoteDocument (Votable Post) "D" "A" store_none =
    (store_downvoted, Ok (mkResponse 200 (Document.mk "B" "C" 0 1))))
    by (vm_compute; reflexivity).
  split; [exact E|].
  apply downvote_again_fails. right. eexists _, _. exact E.
Defined.

Lemma downvote_removeDownvote_roundtrip_witness :
  ("D" ∉ upvotedDocs Post fresh_user) ∧
  ("D" ∉ downvotedDocs Post fresh_user) ∧
  ∃ s1 d1,
    downvoteDocument (Votable Post) "D" "A" store_none =
      (s1, Ok (mkResponse 200 d1)) ∧
    Document.downvotes d1 = 1 ∧
    removeDownvote (Votable Post) "D" "A" s1 =
      (store_none, Ok (mkResponse 200 (Document.mk "B" "C" 0 0))).
Proof.
  split; [list_not_in|]. split; [list_not_in|].
  apply (downvote_removeDownvote_roundtrip Post "D" "A" store_none
           (Document.mk "B" "C" 0 0) fresh_user fresh_user
           eq_refl eq_refl eq_refl); list_not_in.
Defined.

Lemma switch_is_remove_then_vote_witness :
  (∃ s1 d1,
     removeDownvote (Votable Post) "D" "A" store_downvoted =
       (s1, Ok (mkResponse 200 d1)) ∧
     upvoteDocument (Votable Post) "D" "A" s1 =
       upvoteDocument (Votable Post) "D" "A" store_downvoted) ∧
  (∃ s1 d1,
     removeUpvote (Votable Post) "D" "A" store_upvoted =
       (s1, Ok (mkResponse 200 d1)) ∧
     downvoteDocument (Votable Post) "D" "A" s1 =
       downvoteDocument (Votable Post) "D" "A" store_upvoted).
Proof.
  split.
  - destruct (switch_is_remove_then_vote Post "D" "A" store_downvoted
                (Document.mk "B" "C" 0 1) (User.mk 0 [] ["D"] [] [])
                (User.mk (-1) [] [] [] []) eq_refl eq_refl eq_refl) as [H _].
    apply H; [list_in|list_not_in].
  - destruct (switch_is_remove_then_vote Post "D" "A" store_upvoted
                (Document.mk "B" "C" 1 0) (User.mk 0 ["D"] [] [] [])
                (User.mk 1 [] [] [] []) eq_refl eq_refl eq_refl) as [_ H].
    apply H; [list_in|list_not_in].
Defined.

Lemma vote_succeeds_iff_witness :
  ∃ s' r, applyVote Upvote (Votable Post) "D" "A" store_none = (s', Ok r).
Proof.
  apply (vote_succeeds_iff Upvote (Votable Post) "D" "A" store_none).
  exists Post, (Document.mk "B" "C" 0 0), fresh_user, fresh_user.
  repeat split. list_not_in.
Defined.

Lemma vote_TypeError_unchanged_witness :
  collection (Votable Post) store_orphan_downvoted !! "D" =
    Some (Document.mk "B" "C" 0 1) ∧
  (∀ op, applyVote op (Votable Post) "D" "nobody" store_orphan_downvoted =
           (store_orphan_downvoted, Throw TypeError)) ∧
  removeDownvote (Votable Post) "D" "A" store_orphan_downvoted =
    (store_orphan_downvoted, Throw TypeError) ∧
  upvoteDocument (Votable Post) "D" "A" store_orphan_downvoted =
    (store_orphan_downvoted, Throw TypeError).
Proof.
  destruct (vote_TypeError_unchanged (Votable Post) "D" "nobody"
              store_orphan_downvoted (Document.mk "B" "C" 0 1) eq_refl)
    as (_ & H1 & _).
  destruct (vote_TypeError_unchanged (Votable Post) "D" "A"
              store_orphan_downvoted (Document.mk "B" "C" 0 1) eq_refl)
    as (_ & _ & H2).
  destruct (H2 Post (User.mk 0 [] ["D"] [] []) eq_refl eq_refl eq_refl)
    as (_ & H3 & H4 & _).
  split; [reflexivity|]. split; [apply H1; by right|].
  split; [apply H3; list_in|apply H4; [list_in|list_not_in]].
Defined.

Lemma vote_missing_creator_partial_witness :
  users store_orphan !! "B" = None ∧
  ∃ s' u' d',
    upvoteDocument (Votable Post) "D" "A" store_orphan = (s', Throw TypeError) ∧
    users s' !! "A" = Some u' ∧
    upvotedDocs Post u' = ["D"] ∧
    collection (Votable Post) s' !! "D" = Some d' ∧
    Document.upvotes d' = 1 ∧
    upvoteDocument (Votable Post) "D" "A" s' =
      (s', Throw (AppError "You have already upvoted" 400)).
Proof.
  split; [reflexivity|].
  destruct (vote_missing_creator_partial Post "D" "A" store_orphan
              (Document.mk "B" "C" 0 0) fresh_user eq_refl eq_refl eq_refl)
    as [(s' & u' & d' & E & Hu & Hup & _ & Hd & Hn & Hagain) _];
    [list_not_in|list_not_in|].
  exists s', u', d'. repeat split; assumption.
Defined.

Lemma vote_preserves_domains_witness :
  applyVote Upvote (Votable Post) "D" "A" store_none =
    (store_upvoted, Ok (mkResponse 200 (Document.mk "B" "C" 1 0))) ∧
  dom (users store_upvoted) = dom (users store_none) ∧
  (∀ m', dom (collection m' store_upvoted) = dom (collection m' store_none)) ∧
  communities store_upvoted = communities store_none.
Proof.
  assert (E : applyVote Upvote (Votable Post) "D" "A" store_none =
    (store_upvoted, Ok (mkResponse 200 (Document.mk "B" "C" 1 0))))
    by (vm_compute; reflexivity).
  split; [exact E|].
  exact (vote_preserves_domains Upvote (Votable Post) "D" "A" store_none
           store_upvoted _ E).
Defined.

Lemma vote_karma_tracks_counters_witness :
  applyVote Downvote (Votable Post) "D" "A" store_upvoted =
    (store_downvoted, Ok (mkResponse 200 (Document.mk "B" "C" 0 1))) ∧
  ∃ d c c',
    collection (Votable Post) store_upvoted !! "D" = Some d ∧
    users store_upvoted !! Document.creator d = Some c ∧
    users store_downvoted !! Document.creator d = Some c' ∧
    User.karma c' - User.karma c =
      (0 - Document.upvotes d) - (1 - Document.downvotes d).
Proof.
  assert (E : applyVote Downvote (Votable Post) "D" "A" store_upvoted =
    (store_downvoted, Ok (mkResponse 200 (Document.mk "B" "C" 0 1))))
    by (vm_compute; reflexivity).
  split; [exact E|].
  exact (vote_karma_tracks_counters Downvote (Votable Post) "D" "A"
           store_upvoted store_downvoted _ E).
Defined.

Lemma vote_preserves_NoDup_witness :
  applyVote Upvote (Votable Post) "D" "A" store_downvoted =
    (store_upvoted, Ok (mkResponse 200 (Document.mk "B" "C" 1 0))) ∧
  NoDup (upvotedDocs Post (User.mk 0 [] ["D"] [] [])) ∧
  NoDup (downvotedDocs Post (User.mk 0 [] ["D"] [] [])) ∧
  ∃ u', users store_upvoted !! "A" = Some u' ∧
        NoDup (upvotedDocs Post u') ∧ NoDup (downvotedDocs Post u').
Proof.
  assert (E : applyVote Upvote (Votable Post) "D" "A" store_downvoted =
    (store_upvoted, Ok (mkResponse 200 (Document.mk "B" "C" 1 0))))
    by (vm_compute; reflexivity).
  assert (H1 : NoDup (upvotedDocs Post (User.mk 0 [] ["D"] [] [])))
    by apply NoDup_nil_2.
  assert (H2 : NoDup (downvotedDocs Post (User.mk 0 [] ["D"] [] [])))
    by apply NoDup_singleton.
  split; [exact E|]. split; [exact H1|]. split; [exact H2|].
  exact (vote_preserves_NoDup Upvote (Votable Post) "D" "A" store_downvoted
           store_upvoted _ Post "A" (User.mk 0 [] ["D"] [] []) E eq_refl H1 H2).
Defined.

Lemma vote_counter_tracks_set_size_witness :
  applyVote Upvote (Votable Post) "D" "A" store_downvoted =
    (store_upvoted, Ok (mkResponse 200 (Document.mk "B" "C" 1 0))) ∧
  ∃ d u',
    collection (Votable Post) store_downvoted !! "D" = Some d ∧
    users store_upvoted !! "A" = Some u' ∧
    Z.of_nat (List.length (upvotedDocs Post u')) - 0 =
      1 - Document.upvotes d ∧
    Z.of_nat (List.length (downvotedDocs Post u')) - 1 =
      0 - Document.downvotes d.
Proof.
  assert (E : applyVote Upvote (Votable Post) "D" "A" store_downvoted =
    (store_upvoted, Ok (mkResponse 200 (Document.mk "B" "C" 1 0))))
    by (vm_compute; reflexivity).
  split; [exact E|].
  exact (vote_counter_tracks_set_size Upvote Post "D" "A" store_downvoted
           store_upvoted _ (User.mk 0 [] ["D"] [] []) E eq_refl
           (NoDup_nil_2 (A:=string)) (NoDup_singleton "D")).
Defined.

Lemma unban_outcomes_witness :
  unban ObjectId_cast id_c1 id_u2 "me" store_mod = (store_mod, Throw CastError) ∧
  unban ObjectId_cast id_c1 id_u2 id_none store_mod =
    (store_mod, Throw (AppError "User not found" 404)) ∧
  unban ObjectId_cast id_c1 id_u3 id_u4 store_mod =
    (store_mod,
     Throw (AppError "You are not a moderator of this community" 400)) ∧
  unban ObjectId_cast id_c1 id_u2 id_u3 store_mod =
    (store_mod,
     Throw (AppError "User is not banned from this community" 400)) ∧
  ∃ c', unban ObjectId_cast id_c1 id_u2 id_u4 store_mod =
          (set_communities (<[id_c1 := c']> (communities store_mod))
             store_mod, Ok (mkResponse 200 c')) ∧
        (id_u4 ∉ Community.bannedUsers c').
Proof.
  split.
  { apply (proj1 (unban_outcomes ObjectId_cast id_c1 id_u2 "me" store_mod)).
    right. reflexivity. }
  split.
  { apply (proj1 (proj2 (unban_outcomes ObjectId_cast id_c1 id_u2 id_none
                           store_mod) id_c1 id_none eq_refl eq_refl)).
    reflexivity. }
  split.
  { destruct (proj2 (unban_outcomes ObjectId_cast id_c1 id_u3 id_u4 store_mod)
                id_c1 id_u4 eq_refl eq_refl) as (_ & _ & H).
    destruct (H comm_mod) as (H1 & _); [by eexists|reflexivity|].
    apply H1. list_not_in. }
  split.
  { destruct (proj2 (unban_outcomes ObjectId_cast id_c1 id_u2 id_u3 store_mod)
                id_c1 id_u3 eq_refl eq_refl) as (_ & _ & H).
    destruct (H comm_mod) as (_ & H2 & _); [by eexists|reflexivity|].
    apply H2; [list_in|list_not_in]. }
  destruct (proj2 (unban_outcomes ObjectId_cast id_c1 id_u2 id_u4 store_mod)
              id_c1 id_u4 eq_refl eq_refl) as (_ & _ & H).
  destruct (H comm_mod) as (_ & _ & H3); [by eexists|reflexivity|].
  destruct H3 as (c' & E & Hnot & _); [list_in|list_in|].
  exists c'. split; assumption.
Defined.

Lemma ban_unban_roundtrip_witness :
  ObjectId_cast id_u3 = Some id_u3 ∧
  ban ObjectId_cast id_c1 id_u2 id_u3 store_mod =
    (store_mod_banned,
     Ok (mkResponse 200 (Community.set_bannedUsers [id_u4; id_u3] comm_mod))) ∧
  ∃ cid c, ObjectId_cast id_c1 = Some cid ∧
       communities store_mod !! cid = Some c ∧
       unban ObjectId_cast id_c1 id_u2 id_u3 store_mod_banned =
         (store_mod, Ok (mkResponse 200 c)).
Proof.
  assert (E : ban ObjectId_cast id_c1 id_u2 id_u3 store_mod =
    (store_mod_banned,
     Ok (mkResponse 200 (Community.set_bannedUsers [id_u4; id_u3] comm_mod))))
    by (vm_compute; reflexivity).
  split; [reflexivity|]. split; [exact E|].
  exact (ban_unban_roundtrip ObjectId_cast id_c1 id_u2 id_u3 store_mod
           store_mod_banned _ eq_refl E).
Defined.

Lemma moderation_again_fails_witness :
  ObjectId_cast id_u3 = Some id_u3 ∧
  ban ObjectId_cast id_c1 id_u2 id_u3 store_mod =
    (store_mod_banned,
     Ok (mkResponse 200 (Community.set_bannedUsers [id_u4; id_u3] comm_mod))) ∧
  ban ObjectId_cast id_c1 id_u2 id_u3 store_mod_banned =
    (store_mod_banned,
     Throw (AppError "User is already banned from this community" 400)) ∧
  unban ObjectId_cast id_c1 id_u2 id_u3 store_mod_banned =
    (store_mod, Ok (mkResponse 200 comm_mod)) ∧
  unban ObjectId_cast id_c1 id_u2 id_u3 store_mod =
    (store_mod,
     Throw (AppError "User is not banned from this community" 400)).
Proof.
  assert (E1 : ban ObjectId_cast id_c1 id_u2 id_u3 store_mod =
    (store_mod_banned,
     Ok (mkResponse 200 (Community.set_bannedUsers [id_u4; id_u3] comm_mod))))
    by (vm_compute; reflexivity).
  assert (E2 : unban ObjectId_cast id_c1 id_u2 id_u3 store_mod_banned =
    (store_mod, Ok (mkResponse 200 comm_mod)))
    by (vm_compute; reflexivity).
  split; [reflexivity|]. split; [exact E1|].
  split; [exact (proj1 (moderation_again_fails ObjectId_cast id_c1 id_u2 id_u3
                          store_mod store_mod_banned _) eq_refl E1)|].
  split; [exact E2|].
  exact (proj2 (moderation_again_fails ObjectId_cast id_c1 id_u2 id_u3
                  store_mod_banned store_mod _) E2).
Defined.

Lemma moderation_frame_witness :
  ban ObjectId_cast id_c1 id_u2 id_u3 store_mod =
    (store_mod_banned,
     Ok (mkResponse 200 (Community.set_bannedUsers [id_u4; id_u3] comm_mod))) ∧
  users store_mod_banned = users store_mod ∧
  (∀ m, collection m store_mod_banned = collection m store_mod) ∧
  ∃ c', communities store_mod_banned !! id_c1 = Some c' ∧
        Community.moderators c' = Community.moderators comm_mod ∧
        (Community.creator comm_mod ∉ Community.bannedUsers c').
Proof.
  assert (E : ban ObjectId_cast id_c1 id_u2 id_u3 store_mod =
    (store_mod_banned,
     Ok (mkResponse 200 (Community.set_bannedUsers [id_u4; id_u3] comm_mod))))
    by (vm_compute; reflexivity).
  split; [exact E|].
  destruct (moderation_frame ObjectId_cast id_c1 id_u2 id_u3 store_mod
              store_mod_banned _ (or_introl E)) as (H1 & H2 & _ & H4).
  split; [exact H1|]. split; [exact H2|].
  destruct (H4 id_c1 comm_mod eq_refl eq_refl)
    as (c' & Hc' & _ & _ & Hm & _ & Hcr).
  exists c'. split; [exact Hc'|]. split; [exact Hm|].
  apply Hcr; [reflexivity|list_not_in].
Defined.


Lemma ban_blocks_createDocument_witness :
  ObjectId_cast id_u3 = Some id_u3 ∧
  ban ObjectId_cast id_c1 id_u2 id_u3 store_mod =
    (store_mod_banned,
     Ok (mkResponse 200 (Community.set_bannedUsers [id_u4; id_u3] comm_mod))) ∧
  createDocument (Votable Post) id_c1 (ReqUser.mk id_u3 "user")
    store_mod_banned =
    (store_mod_banned,
     Throw (AppError "You are banned from this community" 403)) ∧
  createDocument (Votable Post) id_c1 (ReqUser.mk id_u3 "user") store_mod =
    (store_mod, Ok (mkResponse 201 None)).
Proof.
  assert (E1 : ban ObjectId_cast id_c1 id_u2 id_u3 store_mod =
    (store_mod_banned,
     Ok (mkResponse 200 (Community.set_bannedUsers [id_u4; id_u3] comm_mod))))
    by (vm_compute; reflexivity).
  assert (E2 : unban ObjectId_cast id_c1 id_u2 id_u3 store_mod_banned =
    (store_mod, Ok (mkResponse 200 comm_mod)))
    by (vm_compute; reflexivity).
  destruct (ban_blocks_createDocument ObjectId_cast (Votable Post) id_c1 id_u2
              id_u3 "user" store_mod store_mod_banned _ eq_refl E1)
    as (cid & Hcid & H1 & H2).
  assert (cid = id_c1) as -> by (by injection Hcid).
  split; [reflexivity|]. split; [exact E1|]. split; [exact H1|].
  exact (H2 id_u2 store_mod _ E2).
Defined.


Lemma deleteDocument_then_witness :
  deleteDocument (Votable Post) "D" (ReqUser.mk "B" "user")
    (mkStore {[ "A" := User.mk 0 ["D"] [] [] []; "B" := User.mk 1 [] [] [] [] ]}
             {[ "D" := Document.mk "B" "c1" 1 0 ]} ∅ ∅ {[ "c1" := comm_c1 ]}) =
    (mkStore {[ "A" := User.mk 0 ["D"] [] [] []; "B" := User.mk 1 [] [] [] [] ]}
             ∅ ∅ ∅ {[ "c1" := comm_c1 ]},
     Ok (mkResponse 204 tt)) ∧
  removeUpvote (Votable Post) "D" "A"
    (mkStore {[ "A" := User.mk 0 ["D"] [] [] []; "B" := User.mk 1 [] [] [] [] ]}
             ∅ ∅ ∅ {[ "c1" := comm_c1 ]}) =
    (mkStore {[ "A" := User.mk 0 ["D"] [] [] []; "B" := User.mk 1 [] [] [] [] ]}
             ∅ ∅ ∅ {[ "c1" := comm_c1 ]},
     Throw (AppError "Document not found" 404)).
Proof.
  assert (E : deleteDocument (Votable Post) "D" (ReqUser.mk "B" "user")
    (mkStore {[ "A" := User.mk 0 ["D"] [] [] []; "B" := User.mk 1 [] [] [] [] ]}
             {[ "D" := Document.mk "B" "c1" 1 0 ]} ∅ ∅ {[ "c1" := comm_c1 ]}) =
    (mkStore {[ "A" := User.mk 0 ["D"] [] [] []; "B" := User.mk 1 [] [] [] [] ]}
             ∅ ∅ ∅ {[ "c1" := comm_c1 ]},
     Ok (mkResponse 204 tt))) by (vm_compute; reflexivity).
  split; [exact E|].
  destruct (deleteDocument_then _ _ _ _ _ _ E) as (_ & _ & _ & _ & _ & H).
  exact (H RemoveUpvote "A").
Defined.


Lemma deleteCommunity_then_witness :
  deleteCommunity "c1" (ReqUser.mk "u1" "user") store_forum =
    (store_forum_closed, Ok (mkResponse 204 tt)) ∧
  deleteDocument (Votable Post) "P" (ReqUser.mk "u9" "admin")
    store_forum_closed = (store_forum_closed, Throw TypeError) ∧
  createDocument (Votable Post) "c1" (ReqUser.mk "u4" "user")
    store_forum_closed = (store_forum_closed, Ok (mkResponse 201 None)).
Proof.
  assert (E : deleteCommunity "c1" (ReqUser.mk "u1" "user") store_forum =
    (store_forum_closed, Ok (mkResponse 204 tt))) by (vm_compute; reflexivity).
  split; [exact E|].
  destruct (deleteCommunity_then _ _ _ _ _ E) as (_ & _ & _ & H1 & H2).
  split; [|apply H2].
  apply (H1 (Votable Post) "P" post_P); reflexivity.
Defined.

Lemma updateCommunity_outcomes_witness :
  updateCommunity ObjectId_cast "c1" body_team id_u1 store_mod =
    (store_mod, Throw CastError) ∧
  updateCommunity ObjectId_cast id_none body_team id_u1 store_mod =
    (store_mod, Throw (AppError "Community does not exist" 404)) ∧
  updateCommunity ObjectId_cast id_c1 body_team id_u2 store_mod =
    (store_mod,
     Throw (AppError "You are not the creator of this community" 400)) ∧
  updateCommunity ObjectId_cast id_c1 (mkBody "rocq" (Some ["me"]) None) id_u1
    store_mod = (store_mod, Throw CastError) ∧
  (∃ s' c',
     updateCommunity ObjectId_cast id_c1 body_team id_u1 store_mod =
       (s', Ok (mkResponse 200 (Some c'))) ∧
     communities s' !! id_c1 = Some c' ∧
     NoDup (Community.moderators c') ∧
     id_u1 ∈ Community.moderators c' ∧ id_u2 ∈ Community.moderators c') ∧
  (∃ s' c',
     updateCommunity ObjectId_cast id_c1 (mkBody "rocq" (Some [text_U1]) None)
       id_u1 store_mod = (s', Ok (mkResponse 200 (Some c'))) ∧
     Community.moderators c' = [id_u1; id_u1]).
Proof.
  split.
  { exact (proj1 (updateCommunity_outcomes ObjectId_cast "c1" body_team id_u1
                    store_mod) eq_refl). }
  split.
  { exact (proj1 (proj2 (updateCommunity_outcomes ObjectId_cast id_none
                           body_team id_u1 store_mod) id_none eq_refl)
             eq_refl). }
  split.
  { destruct (proj2 (proj2 (updateCommunity_outcomes ObjectId_cast id_c1
                              body_team id_u2 store_mod) id_c1 eq_refl)
                comm_mod eq_refl) as (Hno & _).
    apply Hno. discriminate. }
  split.
  { destruct (proj2 (proj2 (updateCommunity_outcomes ObjectId_cast id_c1
                              (mkBody "rocq" (Some ["me"]) None) id_u1
                              store_mod) id_c1 eq_refl)
                comm_mod eq_refl) as (_ & Hok).
    destruct (Hok eq_refl) as (Hcast & _). apply Hcast.
    exists "me". split; [right; left; list_in|reflexivity]. }
  split.
  { destruct (proj2 (proj2 (updateCommunity_outcomes ObjectId_cast id_c1
                              body_team id_u1 store_mod) id_c1 eq_refl)
                comm_mod eq_refl) as (_ & Hok).
    destruct (Hok eq_refl) as (_ & Hrun).
    destruct Hrun as (s' & c' & E & Hc' & _ & _ & _ & Hown & _).
    { intros text [-> | [Hin | Hin]]; [by eexists| |by apply elem_of_nil in Hin].
      simpl in Hin. repeat (apply elem_of_cons in Hin as [-> | Hin];
                            [by eexists|]).
      by apply elem_of_nil in Hin. }
    destruct Hown as (Hnd & Hin).
    { intros text [-> | Hin]; [reflexivity|].
      simpl in Hin. repeat (apply elem_of_cons in Hin as [-> | Hin];
                            [reflexivity|]).
      by apply elem_of_nil in Hin. }
    exists s', c'. split; [exact E|]. split; [exact Hc'|].
    split; [exact Hnd|]. split; apply Hin; [by left|right; list_in]. }
  eexists _, _. split; [vm_compute; reflexivity|reflexivity].
Defined.


Lemma getDocument_after_vote_witness :
  applyVote Upvote (Votable Post) "D" "A" store_none =
    (store_upvoted, Ok (mkResponse 200 (Document.mk "B" "C" 1 0))) ∧
  getDocument (Votable Post) "D" store_upvoted =
    (store_upvoted, Ok (mkResponse 200 (Document.mk "B" "C" 1 0))).
Proof.
  assert (E : applyVote Upvote (Votable Post) "D" "A" store_none =
    (store_upvoted, Ok (mkResponse 200 (Document.mk "B" "C" 1 0))))
    by (vm_compute; reflexivity).
  split; [exact E|].
  exact (getDocument_after_vote Upvote (Votable Post) "D" "A" store_none
           store_upvoted _ E).
Defined.

Lemma subscription_effect_witness :
  subscribe "c1" "u3" platform_forum =
    (platform_subscribed, Ok (mkResponse 200 (fresh_user, ["c1"]))) ∧
  (∃ c c' u,
     communities (store platform_forum) !! "c1" = Some c ∧
     communities (store platform_subscribed) !! "c1" = Some c' ∧
     Community.subscribers c' = Community.subscribers c + 1 ∧
     users (store platform_forum) !! "u3" = Some u) ∧
  ∃ p' r, unsubscribe "c1" "u3" platform_subscribed = (p', Ok r) ∧
    ∃ c c' u,
      communities (store platform_subscribed) !! "c1" = Some c ∧
      communities (store p') !! "c1" = Some c' ∧
      Community.subscribers c' = Community.subscribers c - 1 ∧
      users (store platform_subscribed) !! "u3" = Some u ∧
      ("c1" ∉ default [] (subscribedCommunities p' !! "u3")).
Proof.
  assert (E : subscribe "c1" "u3" platform_forum =
    (platform_subscribed, Ok (mkResponse 200 (fresh_user, ["c1"]))))
    by (vm_compute; reflexivity).
  split; [exact E|]. split.
  - destruct (proj1 (subscription_effect "c1" "u3" platform_forum
                       platform_subscribed _) E)
      as (c & c' & u & H1 & H2 & H3 & H4 & _).
    exists c, c', u. repeat split; assumption.
  - eexists _, _. split; [vm_compute; reflexivity|].
    destruct (proj2 (subscription_effect "c1" "u3" platform_subscribed
                       _ _) (eq_refl : unsubscribe "c1" "u3" platform_subscribed
                                       = (_, Ok _)))
      as (c & c' & u & H1 & H2 & H3 & H4 & _ & H5 & _).
    exists c, c', u. repeat split; assumption.
Defined.

Lemma subscribe_unsubscribe_roundtrip_witness :
  subscribe "c1" "u3" platform_forum =
    (platform_subscribed, Ok (mkResponse 200 (fresh_user, ["c1"]))) ∧
  ∃ p2 r2,
    unsubscribe "c1" "u3" platform_subscribed = (p2, Ok r2) ∧
    store p2 = store platform_forum ∧
    default [] (subscribedCommunities p2 !! "u3") = [].
Proof.
  assert (E : subscribe "c1" "u3" platform_forum =
    (platform_subscribed, Ok (mkResponse 200 (fresh_user, ["c1"]))))
    by (vm_compute; reflexivity).
  split; [exact E|].
  destruct (subscribe_unsubscribe_roundtrip "c1" "u3" platform_forum
              platform_subscribed _ E) as (p2 & r2 & H1 & H2 & H3 & _).
  exists p2, r2. repeat split; assumption.
Defined.

Lemma subscription_again_fails_witness :
  subscribe "c1" "u3" platform_forum =
    (platform_subscribed, Ok (mkResponse 200 (fresh_user, ["c1"]))) ∧
  subscribe "c1" "u3" platform_subscribed =
    (platform_subscribed,
     Throw (AppError "User is already subscribed to this community" 400)).
Proof.
  assert (E : subscribe "c1" "u3" platform_forum =
    (platform_subscribed, Ok (mkResponse 200 (fresh_user, ["c1"]))))
    by (vm_compute; reflexivity).
  split; [exact E|].
  exact (proj1 (subscription_again_fails "c1" "u3" platform_forum
                  platform_subscribed _) E).
Defined.

Lemma AppError_status_http_witness :
  (100 ≤ 404 ≤ 599)%Z ∧ AppError_status 404 = "fail" ∧
  (100 ≤ 500 ≤ 599)%Z ∧ AppError_status 500 = "error".
Proof.
  assert (H1 : (100 ≤ 404 ≤ 599)%Z) by lia.
  assert (H2 : (100 ≤ 500 ≤ 599)%Z) by lia.
  split; [exact H1|]. split.
  - apply (proj1 (AppError_status_http 404 H1)). lia.
  - split; [exact H2|]. apply (proj2 (AppError_status_http 500 H2)). lia.
Defined.

Lemma handler_errors_fail_witness :
  ban ObjectId_cast id_c1 id_u3 id_u4 store_mod =
    (store_mod,
     Throw (AppError "You are not a moderator of this community" 400)) ∧
  AppError_status 400 = "fail".
Proof.
  assert (E : ban ObjectId_cast id_c1 id_u3 id_u4 store_mod =
    (store_mod,
     Throw (AppError "You are not a moderator of this community" 400)))
    by (vm_compute; reflexivity).
  split; [exact E|].
  destruct (handler_errors_fail "You are not a moderator of this community" 400)
    as (_ & _ & _ & _ & _ & _ & _ & H & _).
  exact (H ObjectId_cast id_c1 id_u3 id_u4 store_mod store_mod E).
Defined.
